(** * govee_api: device communication and state synchronisation

    A shallow embedding of [govee_api/device.py], [govee_api/command.py]
    and the dispatch, framing and push-handling parts of
    [govee_api/api.py], with the properties of the specification stated
    over it.

    Conventions
    - A Python [enum.Flag] value is its integer value ([Z]); [&], [|] and
      [~] are [Z.land], [Z.lor] and the complement inside the flag's bits.
    - A JSON value is [json]; numbers are exact rationals ([Q]), so the
      rounding of Python floats is not represented.
    - A method that mutates [self] and may raise is a function in the
      state-and-exception monad [M S]: the state reached is returned also
      when an exception is raised, as the mutations made before a [raise]
      stay in the object.
    - Calls that leave the process (HTTP, MQTT, Bluetooth, JWT decoding,
      the file system, the [colour] library) are answered by an
      environment [Env], which sees the events so far.  The client's
      event handlers ([on_new_device], [on_device_update], [on_error]) are
      recorded as events and assumed to return without re-entering the
      client. *)

From Stdlib Require Import ZArith QArith Qminmax.
From stdpp Require Import base option list strings gmap.

#[local] Open Scope Z_scope.

(** ** Exceptions and the state-and-exception monad *)

Inductive exn : Type :=
| KeyError (key : string)
| TypeError
| ValueError
| AttributeError
| GoveeException (message : string)
| ExternalError.

Inductive result (A : Type) : Type :=
| Ok (a : A)
| Raise (e : exn).
Arguments Ok {A} a.
Arguments Raise {A} e.

Definition M (S A : Type) : Type := S -> result A * S.

Definition ret {S A} (a : A) : M S A := fun s => (Ok a, s).

Definition raise {S A} (e : exn) : M S A := fun s => (Raise e, s).

Definition bind {S A B} (m : M S A) (k : A -> M S B) : M S B :=
  fun s => match m s with
           | (Ok a, s') => k a s'
           | (Raise e, s') => (Raise e, s')
           end.

Definition get {S} : M S S := fun s => (Ok s, s).

Definition modify {S} (f : S -> S) : M S unit := fun s => (Ok tt, f s).

(** [try: m except Exception: h] *)
Definition try_except {S A} (m : M S A) (h : exn -> M S A) : M S A :=
  fun s => match m s with
           | (Ok a, s') => (Ok a, s')
           | (Raise e, s') => h e s'
           end.

(** A value computed without touching the state, which may raise. *)
Definition lift_result {S A} (r : result A) : M S A := fun s => (r, s).

Declare Scope monad_scope.
Delimit Scope monad_scope with monad.
Notation "x <- c1 ;; c2" := (bind c1 (fun x => c2))
  (at level 100, c1 at next level, right associativity) : monad_scope.
Notation "c1 ;; c2" := (bind c1 (fun _ => c2))
  (at level 100, right associativity) : monad_scope.
#[local] Open Scope monad_scope.

(** ** JSON values with the Python operations the client applies to them *)

#[local] Unset Elimination Schemes.
Inductive json : Type :=
| JNull
| JBool (b : bool)
| JNum (q : Q)
| JStr (s : string)
| JArr (l : list json)
| JObj (m : gmap string json).
#[local] Set Elimination Schemes.

(** [bool(v)] *)
Definition truthy (v : json) : bool :=
  match v with
  | JNull => false
  | JBool b => b
  | JNum q => negb (Qeq_bool q 0)
  | JStr s => negb (String.eqb s "")
  | JArr l => match l with [] => false | _ => true end
  | JObj m => negb (bool_decide (m = ∅))
  end.

(** The number a value stands for in arithmetic and comparisons: [bool]
    is a subclass of [int]. *)
Definition as_number (v : json) : option Q :=
  match v with
  | JBool b => Some (if b then 1 else 0)%Q
  | JNum q => Some q
  | _ => None
  end.

(** [v[key]] for a string key. *)
Definition getitem (v : json) (key : string) : result json :=
  match v with
  | JObj m => match m !! key with
              | Some x => Ok x
              | None => Raise (KeyError key)
              end
  | _ => Raise TypeError
  end.

(** [key in v.keys()] *)
Definition has_key (v : json) (key : string) : result bool :=
  match v with
  | JObj m => Ok (bool_decide (is_Some (m !! key)))
  | _ => Raise AttributeError
  end.

(** [v / n] for a number [n]. *)
Definition truediv (v : json) (n : Q) : result Q :=
  match as_number v with
  | Some q => Ok (q / n)%Q
  | None => Raise TypeError
  end.

(** [v == n] for a number [n]. *)
Definition eq_number (v : json) (n : Q) : bool :=
  match as_number v with
  | Some q => Qeq_bool q n
  | None => false
  end.

(** [min(a, b)] and [max(a, b)]: the first argument unless the second is
    strictly better. *)
Definition py_min (a b : Q) : Q := if Qlt_le_dec b a then b else a.
Definition py_max (a b : Q) : Q := if Qlt_le_dec a b then b else a.

(** ** device.py: connection status *)

Inductive IotConnectionStatus : Type :=
| UNKNOWN
| ONLINE
| IOT_OFFLINE
| NO_IOT.

Module ConnectionStatus.

(** [enum.Flag] with [enum.auto()] values. *)
Definition OFFLINE : Z := 1.
Definition IOT_CONNECTED : Z := 2.
Definition BT_CONNECTED : Z := 4.

(** All the bits a member of the flag can have. *)
Definition all_members : Z := 7.

(** [~s]: the members that are not in [s]. *)
Definition invert (s : Z) : Z := Z.lxor all_members s.

(** The values of the flag type: any combination of the three members. *)
Definition valid (s : Z) : Prop := 0 <= s <= all_members.

(** A flag that names at least one member. *)
Definition nonempty (s : Z) : Prop := 1 <= s <= all_members.

End ConnectionStatus.

(** ** device.py: the device classes

    The class hierarchy [GoveeDevice] > [ToggleableGoveeDevice] >
    [GoveeLight] > [GoveeRgbLight] is flattened into one record; [cls]
    is the concrete class, and the fields of [GoveeRgbLight] stay [None]
    in a [GoveeWhiteBulb], which has no such attributes. *)

Inductive DeviceClass : Type :=
| GoveeWhiteBulb
| GoveeBulb
| GoveeLedStrip.

(** [colour.Color], as the red, green and blue it was built from. *)
Record Color : Type := mkColor { red : Q; green : Q; blue : Q }.

Record Device : Type := mkDevice {
  cls : DeviceClass;
  identifier : string;
  topic : string;
  sku : string;
  name : string;
  iot_device : bool;
  connection_status : Z;
  on : option bool;
  brightness : option Q;
  color : option Color;
  color_temperature : option Q
}.

Definition set_connection_status (s : Z) (d : Device) : Device :=
  mkDevice (cls d) (identifier d) (topic d) (sku d) (name d) (iot_device d)
           s (on d) (brightness d) (color d) (color_temperature d).

Definition set_on (v : option bool) (d : Device) : Device :=
  mkDevice (cls d) (identifier d) (topic d) (sku d) (name d) (iot_device d)
           (connection_status d) v (brightness d) (color d)
           (color_temperature d).

Definition set_brightness (v : option Q) (d : Device) : Device :=
  mkDevice (cls d) (identifier d) (topic d) (sku d) (name d) (iot_device d)
           (connection_status d) (on d) v (color d) (color_temperature d).

Definition set_color (v : option Color) (d : Device) : Device :=
  mkDevice (cls d) (identifier d) (topic d) (sku d) (name d) (iot_device d)
           (connection_status d) (on d) (brightness d) v
           (color_temperature d).

Definition set_color_temperature (v : option Q) (d : Device) : Device :=
  mkDevice (cls d) (identifier d) (topic d) (sku d) (name d) (iot_device d)
           (connection_status d) (on d) (brightness d) (color d) v.

Module GoveeDevice.

(** [GoveeDevice.__init__] followed by the initialisers of the
    subclasses, which set every runtime attribute to [None]. *)
Definition __init__ (c : DeviceClass) (identifier topic sku name : string)
    (iot_connected : IotConnectionStatus) : Device :=
  mkDevice c identifier topic sku name
    (match iot_connected with NO_IOT => false | _ => true end)
    (match iot_connected with
     | ONLINE => ConnectionStatus.IOT_CONNECTED
     | _ => ConnectionStatus.OFFLINE
     end)
    None None None None.

(** [_bt_address]: [identifier[6:]] *)
Definition _bt_address (d : Device) : string :=
  String.substring 6 (String.length (identifier d) - 6) (identifier d).

(** [_add_connection_status]: the status after the call and the value
    returned. *)
Definition add_status (s status : Z) : Z * bool :=
  let status_changed := negb (Z.land s status =? status) in
  let s1 := Z.lor s status in
  if negb (status =? ConnectionStatus.OFFLINE)
  then (Z.land s1 (ConnectionStatus.invert ConnectionStatus.OFFLINE), true)
  else (s1, status_changed).

Definition _add_connection_status (status : Z) : M Device bool :=
  fun d => let (s, changed) := add_status (connection_status d) status in
           (Ok changed, set_connection_status s d).

(** [_remove_connection_status]: the status after the call and the value
    returned. *)
Definition remove_status (s status : Z) : Z * bool :=
  let status_changed := Z.land s status =? status in
  let s1 := Z.land s (ConnectionStatus.invert status) in
  if s1 =? 0
  then (ConnectionStatus.OFFLINE, true)
  else (s1, status_changed).

Definition _remove_connection_status (status : Z) : M Device bool :=
  fun d => let (s, changed) := remove_status (connection_status d) status in
           (Ok changed, set_connection_status s d).

(** [GoveeDevice._update_state] *)
Definition _update_state (state : json) : M Device unit :=
  conn <- lift_result (getitem state "connected") ;;
  if match conn with
     | JBool b => b
     | JStr s => String.eqb s "true"
     | _ => false
     end
  then _ <- _add_connection_status ConnectionStatus.IOT_CONNECTED ;; ret tt
  else _ <- _remove_connection_status ConnectionStatus.IOT_CONNECTED ;; ret tt.

End GoveeDevice.

(** ** Events and the environment *)

(** The private methods of the client whose invocation the properties
    speak about; entering one is recorded as a ghost event. *)
Inductive transport : Type :=
| Broker
| Radio.

Inductive event : Type :=
| EvAttempt (t : transport) (device : string)
| EvNewDevice (device : string)
| EvDeviceUpdate (device : string) (raw : option json)
| EvError (device : option string) (message : string)
| EvHttpPost (path : string)
| EvMqttDisconnect (session : nat)
| EvMqttConfigure (session : nat)
| EvMqttConnect (session : nat)
| EvMqttSubscribe (session : nat) (topic : string)
| EvMqttPublish (session : nat) (topic : string) (cmd : string) (data : json)
| EvBtStart
| EvBtConnect (address : string)
| EvBtWrite (handle : nat) (packet : list Z)
| EvBtDisconnect (handle : nat).

(** The answer of the login service, with the fields the client reads. *)
Record LoginResponse : Type := mkLoginResponse {
  login_status : Z;
  client_token : string;
  client_A : string;
  client_topic : string
}.

(** One entry of the device list service, with the fields the client
    reads: [deviceExt.deviceSettings] and [deviceExt.lastDeviceData] are
    given parsed. *)
Record RawDevice : Type := mkRawDevice {
  raw_device : string;
  raw_sku : string;
  raw_deviceName : string;
  settings_has_address : bool;
  settings_topic : option string;
  settings_has_wifiName : bool;
  last_online : option bool
}.

Record DeviceListResponse : Type := mkDeviceListResponse {
  list_status : Z;
  list_devices : list RawDevice
}.

(** What the world outside the client answers.  Every answer may depend
    on the events so far; [false], [None] and [Raise] stand for a call
    that raises. *)
Record Env : Type := mkEnv {
  colour_Color : Q -> Q -> Q -> result Color;
  jwt_decode : list event -> string -> bool;
  cert_files_present : list event -> string -> bool;
  http_login : list event -> result LoginResponse;
  http_device_list : list event -> result DeviceListResponse;
  mqtt_connect : list event -> bool;
  mqtt_subscribe : list event -> bool;
  mqtt_publish : list event -> bool;
  bt_start : list event -> bool * option bool;
  bt_connect : list event -> string -> option nat;
  bt_char_write : list event -> bool
}.

(** ** device.py: merging a push into the device *)

Module ToggleableGoveeDevice.

Definition _update_state (state : json) : M Device unit :=
  GoveeDevice._update_state state ;;
  onOff <- lift_result (getitem state "onOff") ;;
  modify (set_on (Some (eq_number onOff 1))).

End ToggleableGoveeDevice.

Module GoveeLight.

Definition _update_state (state : json) : M Device unit :=
  ToggleableGoveeDevice._update_state state ;;
  raw <- lift_result (getitem state "brightness") ;;
  b <- lift_result (truediv raw 255) ;;
  modify (set_brightness (Some (py_max (py_min b 1) 0))).

End GoveeLight.

Module GoveeRgbLight.

Definition __fix_color_temperature (color_temperature : json) : result Q :=
  if truthy color_temperature
  then match as_number color_temperature with
       | Some q => Ok (py_max (py_min q 9000) 2000)
       | None => Raise TypeError
       end
  else Ok 0%Q.

Definition _update_state (env : Env) (state : json) : M Device unit :=
  GoveeLight._update_state state ;;
  has_temperature <- lift_result (has_key state "colorTemInKelvin") ;;
  (if has_temperature : bool
   then raw <- lift_result (getitem state "colorTemInKelvin") ;;
        fixed <- lift_result (__fix_color_temperature raw) ;;
        modify (set_color_temperature (Some fixed))
   else modify (set_color_temperature None)) ;;
  has_color <- lift_result (has_key state "color") ;;
  if has_color : bool
  then c <- lift_result (getitem state "color") ;;
       r <- lift_result (getitem c "r") ;;
       r <- lift_result (truediv r 255) ;;
       g <- lift_result (getitem c "g") ;;
       g <- lift_result (truediv g 255) ;;
       b <- lift_result (getitem c "b") ;;
       b <- lift_result (truediv b 255) ;;
       col <- lift_result (colour_Color env r g b) ;;
       modify (set_color (Some col))
  else modify (set_color None).

End GoveeRgbLight.

(** [device._update_state(state)]: the method of the device's class. *)
Definition _update_state (env : Env) (state : json) : M Device unit :=
  fun d => match cls d with
           | GoveeWhiteBulb => GoveeLight._update_state state d
           | GoveeBulb | GoveeLedStrip => GoveeRgbLight._update_state env state d
           end.

(** ** command.py *)

(** [_AbstractCommand]: the two encodings of a command.  A radio payload
    is the pair of an opcode and a Python list of integers, or [None];
    [is_StatusCommand] is [isinstance(command, StatusCommand)]. *)
Class AbstractCommand (C : Type) : Type := {
  get_iot_payload : C -> string * json;
  get_bt_payload : C -> option (Z * list Z);
  is_StatusCommand : C -> bool
}.

Inductive Command : Type :=
| StatusCommand
| TurnCommand (val : bool)
| ColorCommand (red green blue : Z)
| ColorTemperatureCommand (color_temperature red green blue : Z)
| BrightnessCommand (val : Z).

Definition JInt (n : Z) : json := JNum (inject_Z n).

Definition rgb_object (r g b : Z) : gmap string json :=
  {[ "red" := JInt r; "green" := JInt g; "blue" := JInt b ]}.

Definition Command_get_iot_payload (c : Command) : string * json :=
  match c with
  | StatusCommand => ("turn", JObj ∅)
  | TurnCommand val => ("turn", JObj {[ "val" := JBool val ]})
  | ColorCommand r g b => ("color", JObj (rgb_object r g b))
  | ColorTemperatureCommand ct r g b =>
      ("colorTem", JObj {[ "color" := JObj (rgb_object r g b);
                           "colorTemInKelvin" := JInt ct ]})
  | BrightnessCommand val => ("brightness", JObj {[ "val" := JInt val ]})
  end.

Definition Command_get_bt_payload (c : Command) : option (Z * list Z) :=
  match c with
  | StatusCommand => None
  | TurnCommand val => Some (0x01, [if val then 0x01 else 0x00])
  | ColorCommand r g b
  | ColorTemperatureCommand _ r g b =>
      Some (0x05, [0x02; 0xff; 0xff; 0xff; 0x01; r; g; b])
  | BrightnessCommand val => Some (0x04, [Z.land val 0xFF])
  end.

#[global] Instance Command_AbstractCommand : AbstractCommand Command := {
  get_iot_payload := Command_get_iot_payload;
  get_bt_payload := Command_get_bt_payload;
  is_StatusCommand c := match c with StatusCommand => true | _ => false end
}.

(** ** api.py: the radio frame *)

(** [bytes(l)] for a list of integers. *)
Definition bytes (l : list Z) : result (list Z) :=
  if forallb (fun b => (0 <=? b) && (b <? 256)) l
  then Ok l
  else Raise ValueError.

(** The XOR of all the bytes of a packet. *)
Definition xor_bytes (packet : list Z) : Z := fold_left Z.lxor packet 0.

(** The packet [__publish_bt_payload] builds from a radio payload. *)
Definition build_packet (opcode : Z) (data : list Z) : result (list Z) :=
  match bytes [0x33; opcode] with
  | Raise e => Raise e
  | Ok head =>
      match bytes data with
      | Raise e => Raise e
      | Ok body =>
          let packet := head ++ body in
          let packet := packet ++ replicate (19 - length packet) 0x00 in
          let checksum := xor_bytes packet in
          Ok (packet ++ [Z.land checksum 0xFF])
      end
  end.

(** ** api.py: the client *)

(** The state of a [Govee] client.  [devices] is the dictionary
    [__devices] in insertion order; a device object is referred to by its
    key.  [bluetooth_running] is [_running] of the Bluetooth adapter:
    [None], or an event with its [is_set()].  [mqtt_sessions] counts the
    MQTT clients created, to name them; [trace] is the history of events. *)
Record Govee : Type := mkGovee {
  login_token : option string;
  mqtt_connection : option nat;
  mqtt_sessions : nat;
  mqtt_cert_file : option string;
  mqtt_topic : option string;
  bluetooth_running : option bool;
  devices : list (string * Device);
  bluetooth_connections : gmap string nat;
  trace : list event
}.

Definition set_login_token (v : option string) (g : Govee) : Govee :=
  mkGovee v (mqtt_connection g) (mqtt_sessions g) (mqtt_cert_file g)
          (mqtt_topic g) (bluetooth_running g) (devices g)
          (bluetooth_connections g) (trace g).

Definition set_mqtt_connection (v : option nat) (n : nat) (g : Govee) : Govee :=
  mkGovee (login_token g) v n (mqtt_cert_file g)
          (mqtt_topic g) (bluetooth_running g) (devices g)
          (bluetooth_connections g) (trace g).

Definition set_mqtt_cert_file (v : option string) (g : Govee) : Govee :=
  mkGovee (login_token g) (mqtt_connection g) (mqtt_sessions g) v
          (mqtt_topic g) (bluetooth_running g) (devices g)
          (bluetooth_connections g) (trace g).

Definition set_mqtt_topic (v : option string) (g : Govee) : Govee :=
  mkGovee (login_token g) (mqtt_connection g) (mqtt_sessions g)
          (mqtt_cert_file g) v (bluetooth_running g) (devices g)
          (bluetooth_connections g) (trace g).

Definition set_bluetooth_running (v : option bool) (g : Govee) : Govee :=
  mkGovee (login_token g) (mqtt_connection g) (mqtt_sessions g)
          (mqtt_cert_file g) (mqtt_topic g) v (devices g)
          (bluetooth_connections g) (trace g).

Definition set_devices (v : list (string * Device)) (g : Govee) : Govee :=
  mkGovee (login_token g) (mqtt_connection g) (mqtt_sessions g)
          (mqtt_cert_file g) (mqtt_topic g) (bluetooth_running g) v
          (bluetooth_connections g) (trace g).

Definition set_bluetooth_connections (v : gmap string nat) (g : Govee) : Govee :=
  mkGovee (login_token g) (mqtt_connection g) (mqtt_sessions g)
          (mqtt_cert_file g) (mqtt_topic g) (bluetooth_running g) (devices g)
          v (trace g).

Definition set_trace (v : list event) (g : Govee) : Govee :=
  mkGovee (login_token g) (mqtt_connection g) (mqtt_sessions g)
          (mqtt_cert_file g) (mqtt_topic g) (bluetooth_running g) (devices g)
          (bluetooth_connections g) v.

(** Recording an event, and a call to the outside: the call is recorded
    and answered from the events up to and including it. *)
Definition emit (e : event) : M Govee unit :=
  modify (fun g => set_trace (trace g ++ [e]) g).

Definition ask {A} (f : list event -> A) : M Govee A :=
  fun g => (Ok (f (trace g)), g).

Definition call {A} (e : event) (f : list event -> A) : M Govee A :=
  emit e ;; ask f.

(** The dictionary of devices. *)
Fixpoint lookup_device (id : string) (l : list (string * Device)) : option Device :=
  match l with
  | [] => None
  | (k, d) :: l' => if String.eqb k id then Some d else lookup_device id l'
  end.

Fixpoint store_device (id : string) (d : Device) (l : list (string * Device))
  : list (string * Device) :=
  match l with
  | [] => [(id, d)]
  | (k, d0) :: l' =>
      if String.eqb k id then (k, d) :: l' else (k, d0) :: store_device id d l'
  end.

(** Running a method of the device object with key [id]; the object
    keeps what the method did to it. *)
Definition with_device {A} (id : string) (m : M Device A) : M Govee A :=
  fun g => match lookup_device id (devices g) with
           | None => (Raise (KeyError id), g)
           | Some d => let (r, d') := m d in
                       (r, set_devices (store_device id d' (devices g)) g)
           end.

(** Reading an attribute of the device object with key [id]. *)
Definition device_attr {A} (id : string) (f : Device -> A) : M Govee A :=
  with_device id (fun d => (Ok (f d), d)).

(** [for x in l: body(x)] *)
Fixpoint for_each {S A} (l : list A) (body : A -> M S unit) : M S unit :=
  match l with
  | [] => ret tt
  | x :: l' => body x ;; for_each l' body
  end.

(** [if changed: self.on_device_update(self, device, None)] *)
Definition update_if_changed (id : string) (changed : bool) : M Govee unit :=
  if changed then emit (EvDeviceUpdate id None) else ret tt.

Section Client.

Variable env : Env.

Definition falsy (o : option string) : bool :=
  match o with
  | None => true
  | Some s => String.eqb s ""
  end.

(** [__token_is_valid] *)
Definition __token_is_valid : M Govee bool :=
  g <- get ;;
  match login_token g with
  | None => ret false
  | Some token =>
      if String.eqb token "" || (String.length token <? 10)%nat
      then ret false
      else ask (fun t => jwt_decode env t token)
  end.

(** The second half of [__login_if_required], run when
    [require_mqtt_reconnect] is set: the broker session is replaced. *)
Definition mqtt_reconnect : M Govee unit :=
  g <- get ;;
  match mqtt_connection g with
  | Some old => emit (EvMqttDisconnect old)
  | None => ret tt
  end ;;
  for_each (map fst (devices g)) (fun id =>
    changed <- with_device id
      (GoveeDevice._remove_connection_status ConnectionStatus.IOT_CONNECTED) ;;
    update_if_changed id changed) ;;
  let session := mqtt_sessions g in
  modify (set_mqtt_connection (Some session) (S session)) ;;
  emit (EvMqttConfigure session) ;;
  connected <- call (EvMqttConnect session) (mqtt_connect env) ;;
  (if connected : bool then ret tt else raise ExternalError) ;;
  g <- get ;;
  subscribed <- call (EvMqttSubscribe session (default "" (mqtt_topic g)))
                     (mqtt_subscribe env) ;;
  if subscribed : bool then ret tt else raise ExternalError.

(** [__login_if_required] *)
Definition __login_if_required : M Govee bool :=
  valid <- __token_is_valid ;;
  g <- get ;;
  (if negb valid || falsy (mqtt_cert_file g) || falsy (mqtt_topic g)
   then
     res <- call (EvHttpPost "/account/rest/account/v1/login") (http_login env) ;;
     res <- lift_result res ;;
     (if login_status res =? 200 then ret tt
      else raise (GoveeException "Govee answered with login status")) ;;
     modify (set_login_token (Some (client_token res))) ;;
     valid <- __token_is_valid ;;
     (if valid : bool then ret tt
      else raise (GoveeException "Govee sent us an invalid JWT")) ;;
     modify (set_mqtt_cert_file (Some (client_A res))) ;;
     present <- ask (fun t => cert_files_present env t (client_A res)) ;;
     (if String.eqb (client_A res) "" || negb present
      then raise (GoveeException "Govee requires a certificate which is not known to us")
      else ret tt) ;;
     modify (set_mqtt_topic (Some (client_topic res))) ;;
     mqtt_reconnect
   else ret tt) ;;
  ret true.

(** [login] *)
Definition login : M Govee unit :=
  __login_if_required ;; ret tt.

(** [__init_bluetooth_if_required] *)
Definition __init_bluetooth_if_required : M Govee bool :=
  g <- get ;;
  match bluetooth_running g with
  | Some true => ret true
  | _ =>
      started <- call EvBtStart (bt_start env) ;;
      let '(raised, running) := started in
      modify (set_bluetooth_running running) ;;
      match raised, running with
      | false, Some is_set => ret is_set
      | _, _ =>
          emit (EvError None "Unable to initialize Bluetooth adapter") ;;
          ret false
      end
  end.

(** [__publish_iot_payload] *)
Definition __publish_iot_payload {C} `{AbstractCommand C}
    (id : string) (command : C) : M Govee bool :=
  emit (EvAttempt Broker id) ;;
  let int_payload := get_iot_payload command in
  g <- get ;;
  topic <- device_attr id topic ;;
  published <-
    match mqtt_connection g with
    | Some session =>
        call (EvMqttPublish session topic (fst int_payload) (snd int_payload))
             (mqtt_publish env)
    | None => ret false
    end ;;
  if published : bool
  then ret true
  else
    emit (EvError (Some id) "Unable to send data via MQTT") ;;
    changed <- with_device id
      (GoveeDevice._remove_connection_status ConnectionStatus.IOT_CONNECTED) ;;
    update_if_changed id changed ;;
    ret false.

(** The connect loop of [__publish_bt_payload]: [fuel] is the number of
    attempts left, [10 - retries]; the result is the connection, or
    [None] when [retries] has reached 10. *)
Fixpoint bt_connect_retry (id address : string) (fuel : nat) : M Govee (option nat) :=
  match fuel with
  | O => ret None
  | S fuel' =>
      connection <- call (EvBtConnect address) (fun t => bt_connect env t address) ;;
      match connection with
      | Some bt =>
          modify (fun g => set_bluetooth_connections
                             (<[address := bt]> (bluetooth_connections g)) g) ;;
          changed <- with_device id
            (GoveeDevice._add_connection_status ConnectionStatus.BT_CONNECTED) ;;
          update_if_changed id changed ;;
          ret (Some bt)
      | None => bt_connect_retry id address fuel'
      end
  end.

(** [__publish_bt_payload] *)
Definition __publish_bt_payload {C} `{AbstractCommand C}
    (id : string) (command : C) : M Govee unit :=
  emit (EvAttempt Radio id) ;;
  initialised <- __init_bluetooth_if_required ;;
  if negb initialised then ret tt else
  match get_bt_payload command with
  | None => ret tt
  | Some (opcode, data) =>
      (* [binascii.hexlify] of a list raises while the message of the
         [GoveeException] is built *)
      (if (17 <? length data)%nat then raise TypeError else ret tt) ;;
      address <- device_attr id GoveeDevice._bt_address ;;
      g <- get ;;
      bt <- match bluetooth_connections g !! address with
            | Some bt => ret (Some bt)
            | None =>
                bt <- bt_connect_retry id address 10 ;;
                match bt with
                | Some bt => ret (Some bt)
                | None =>
                    emit (EvError (Some id)
                            "Unable to connect to device via Bluetooth") ;;
                    ret None
                end
            end ;;
      match bt with
      | None => ret tt
      | Some bt =>
          packet <- lift_result (build_packet opcode data) ;;
          written <- call (EvBtWrite bt packet) (bt_char_write env) ;;
          if written : bool then ret tt
          else
            emit (EvError (Some id) "Unable to send data via Bluetooth") ;;
            changed <- with_device id
              (GoveeDevice._remove_connection_status ConnectionStatus.BT_CONNECTED) ;;
            update_if_changed id changed ;;
            emit (EvBtDisconnect bt)
      end
  end.

(** [_publish_command] *)
Definition _publish_command {C} `{AbstractCommand C}
    (id : string) (command : C) : M Govee unit :=
  iot_device <- device_attr id iot_device ;;
  status <- device_attr id connection_status ;;
  iot_sent <-
    (if iot_device &&
        ((Z.land status ConnectionStatus.IOT_CONNECTED
            =? ConnectionStatus.IOT_CONNECTED)
         || is_StatusCommand command)
     then __publish_iot_payload id command
     else ret false) ;;
  if negb iot_sent then __publish_bt_payload id command else ret tt.

(** *** device.py: the commands of a toggleable device *)

(** [ToggleableGoveeDevice.__turn] *)
Definition __turn (id : string) (val : bool) : M Govee unit :=
  cached <- device_attr id on ;;
  if negb (bool_decide (Some val = cached))
  then _publish_command id (TurnCommand val)
  else ret tt.

(** The setter of [ToggleableGoveeDevice.on] *)
Definition set_power (id : string) (val : bool) : M Govee unit :=
  __turn id val.

(** [ToggleableGoveeDevice.toggle]: [not self.on] is [True] for [None]. *)
Definition toggle (id : string) : M Govee unit :=
  cached <- device_attr id on ;;
  __turn id (negb (default false cached)).

(** [ToggleableGoveeDevice.request_status] *)
Definition request_status (id : string) : M Govee unit :=
  _publish_command id StatusCommand.

(** *** api.py: the device list *)

Inductive DeviceFactory : Type :=
| _GoveeBulbFactory
| _GoveeLedStripFactory.

(** [__get_device_factory] *)
Definition __get_device_factory (sku : string) : option DeviceFactory :=
  if (String.length sku <? 5)%nat
     || negb (String.eqb (String.substring 0 1 sku) "H")
  then None
  else
    let type_id := String.substring 1 2 sku in
    if String.eqb type_id "60" then Some _GoveeBulbFactory
    else if String.eqb type_id "61" then Some _GoveeLedStripFactory
    else None.

(** [build] of the factories in device_factory.py *)
Definition build (f : DeviceFactory) (identifier topic sku name : string)
    (iot_connected : IotConnectionStatus) : Device :=
  match f with
  | _GoveeBulbFactory =>
      if String.eqb sku "H6085"
      then GoveeDevice.__init__ GoveeWhiteBulb identifier topic sku name iot_connected
      else GoveeDevice.__init__ GoveeBulb identifier topic sku name iot_connected
  | _GoveeLedStripFactory =>
      GoveeDevice.__init__ GoveeLedStrip identifier topic sku name iot_connected
  end.

Definition set_name (v : string) (d : Device) : Device :=
  mkDevice (cls d) (identifier d) (topic d) (sku d) v (iot_device d)
           (connection_status d) (on d) (brightness d) (color d)
           (color_temperature d).

(** The body of the loop of [__http_update_device_list] for one entry;
    [continue] is [ret tt]. *)
Definition upsert_device (raw : RawDevice) : M Govee unit :=
  let identifier := raw_device raw in
  let sku := raw_sku raw in
  if String.eqb identifier "" || String.eqb sku "" then ret tt else
  let name := raw_deviceName raw in
  if negb (settings_has_address raw) && negb (bool_decide (is_Some (settings_topic raw)))
  then ret tt else
  match settings_topic raw with
  | None => raise (KeyError "topic")
  | Some topic =>
      g <- get ;;
      match lookup_device identifier (devices g) with
      | Some _ => with_device identifier (modify (set_name name))
      | None =>
          match __get_device_factory sku with
          | None => ret tt
          | Some device_factory =>
              let iot_connected :=
                match last_online raw with
                | Some true => ONLINE
                | Some false => IOT_OFFLINE
                | None => if negb (settings_has_wifiName raw) then NO_IOT else UNKNOWN
                end in
              let device := build device_factory identifier topic sku name iot_connected in
              modify (fun g => set_devices (store_device identifier device (devices g)) g) ;;
              emit (EvNewDevice identifier)
          end
      end
  end.

(** [__http_update_device_list] *)
Definition __http_update_device_list : M Govee unit :=
  __login_if_required ;;
  res <- call (EvHttpPost "/device/rest/devices/v1/list") (http_device_list env) ;;
  res <- lift_result res ;;
  (if list_status res =? 200 then ret tt
   else raise (GoveeException "Govee answered with device list status")) ;;
  for_each (list_devices res) upsert_device.

(** [update_device_list] *)
Definition update_device_list : M Govee unit :=
  __http_update_device_list ;;
  g <- get ;;
  for_each (map fst (devices g)) request_status.

(** *** api.py: inbound pushes *)

Fixpoint is_substring (p s : string) : bool :=
  String.prefix p s ||
  match s with
  | EmptyString => false
  | String _ s' => is_substring p s'
  end.

(** [key in v] for a string [key] *)
Definition contains (v : json) (key : string) : result bool :=
  match v with
  | JObj m => Ok (bool_decide (is_Some (m !! key)))
  | JArr l => Ok (existsb (fun x => match x with
                                    | JStr s => String.eqb s key
                                    | _ => false
                                    end) l)
  | JStr s => Ok (is_substring key s)
  | _ => Raise TypeError
  end.

(** [identifier in self.__devices], where the keys are strings: a list or
    a dictionary cannot be hashed. *)
Definition device_known (identifier : json) : M Govee (option string) :=
  match identifier with
  | JArr _ | JObj _ => raise TypeError
  | JStr s =>
      g <- get ;;
      ret (match lookup_device s (devices g) with
           | Some _ => Some s
           | None => None
           end)
  | _ => ret None
  end.

(** [__mqtt_topic_callback]; [message] is what
    [json.loads(message.payload.decode('utf-8'))] gives. *)
Definition __mqtt_topic_callback (message : result json) : M Govee unit :=
  raw_json <- lift_result message ;;
  has_state <- lift_result (contains raw_json "state") ;;
  if negb has_state then ret tt else
  state <- lift_result (getitem raw_json "state") ;;
  device_identifer <- lift_result (getitem state "device") ;;
  known <- device_known device_identifer ;;
  known <- match known with
           | Some id => ret (Some id)
           | None => __http_update_device_list ;; device_known device_identifer
           end ;;
  match known with
  | None => ret tt
  | Some id =>
      with_device id (_update_state env state) ;;
      emit (EvDeviceUpdate id (Some raw_json))
  end.

End Client.

(** ** Sequences of status operations, and the objects of the examples *)

Inductive StatusOp : Type :=
| AddStatus (status : Z)
| RemoveStatus (status : Z).

Definition op_flag (op : StatusOp) : Z :=
  match op with
  | AddStatus status | RemoveStatus status => status
  end.

Definition run_op (op : StatusOp) : M Device bool :=
  match op with
  | AddStatus status => GoveeDevice._add_connection_status status
  | RemoveStatus status => GoveeDevice._remove_connection_status status
  end.

Fixpoint run_ops (ops : list StatusOp) (d : Device) : Device :=
  match ops with
  | [] => d
  | op :: ops' => run_ops ops' (run_op op d).2
  end.

(** An LED strip as the factory builds it for the device list of the
    source's comments, then given a status and a cached power state. *)
Definition strip (status : Z) (power : option bool) : Device :=
  set_on power
    (set_connection_status status
       (build _GoveeLedStripFactory "A2:B2:C3:D4:E5:F6:77:88"
              "GD/123467890123467890123467890" "H6163" "Living room" ONLINE)).

Definition strip_id : string := "A2:B2:C3:D4:E5:F6:77:88".

(** The values of a byte. *)
Definition is_byte (b : Z) : Prop := 0 <= b < 256.

(** An environment in which every call to the outside succeeds: the
    [colour] library accepts components between 0 and 1, the token
    decodes, the certificate files are there, the services answer with
    status 200 and no device, and the adapter connects at once. *)
Definition quiet_env : Env := {|
  colour_Color r g b :=
    if forallb (fun x => Qle_bool 0 x && Qle_bool x 1) [r; g; b]
    then Ok (mkColor r g b) else Raise ValueError;
  jwt_decode _ _ := true;
  cert_files_present _ _ := true;
  http_login _ := Ok (mkLoginResponse 200 "eyJhbGciOiJIUzI1NiJ9.e30.sig" "testiot.cert" "GA/account");
  http_device_list _ := Ok (mkDeviceListResponse 200 []);
  mqtt_connect _ := true;
  mqtt_subscribe _ := true;
  mqtt_publish _ := true;
  bt_start _ := (false, Some true);
  bt_connect _ _ := Some 0%nat;
  bt_char_write _ := true
|}.

(** A client that is logged in, with a broker session and a running
    Bluetooth adapter, knowing the devices [ds]. *)
Definition client (ds : list (string * Device)) : Govee := {|
  login_token := Some "eyJhbGciOiJIUzI1NiJ9.e30.sig";
  mqtt_connection := Some 0%nat;
  mqtt_sessions := 1;
  mqtt_cert_file := Some "testiot.cert";
  mqtt_topic := Some "GA/account";
  bluetooth_running := Some true;
  devices := ds;
  bluetooth_connections := ∅;
  trace := []
|}.

(** The state of the second example push of the source, and the same
    without [onOff]. *)
Definition push_state : gmap string json :=
  {[ "onOff" := JInt 1; "brightness" := JInt 159; "connected" := JStr "true";
     "sku" := JStr "H6163"; "device" := JStr strip_id ]}.

Definition push_state_without_onOff : gmap string json :=
  delete "onOff" push_state.

(** A device of one of the classes derived from [GoveeRgbLight]. *)
Definition is_rgb (d : Device) : bool :=
  match cls d with
  | GoveeWhiteBulb => false
  | GoveeBulb | GoveeLedStrip => true
  end.

(** What [GoveeRgbLight._update_state] does after the call of the method
    of [GoveeLight]. *)
Definition rgb_merge (env : Env) (state : json) : M Device unit :=
  has_temperature <- lift_result (has_key state "colorTemInKelvin") ;;
  (if has_temperature : bool
   then raw <- lift_result (getitem state "colorTemInKelvin") ;;
        fixed <- lift_result (GoveeRgbLight.__fix_color_temperature raw) ;;
        modify (set_color_temperature (Some fixed))
   else modify (set_color_temperature None)) ;;
  has_color <- lift_result (has_key state "color") ;;
  if has_color : bool
  then c <- lift_result (getitem state "color") ;;
       r <- lift_result (getitem c "r") ;;
       r <- lift_result (truediv r 255) ;;
       g <- lift_result (getitem c "g") ;;
       g <- lift_result (truediv g 255) ;;
       b <- lift_result (getitem c "b") ;;
       b <- lift_result (truediv b 255) ;;
       col <- lift_result (colour_Color env r g b) ;;
       modify (set_color (Some col))
  else modify (set_color None).

(** The outcomes of [GoveeLight._update_state] on a dictionary [m] and a
    device [d]: the exception or normal return, and the device left. *)
Inductive light_merge (m : gmap string json) (d : Device)
  : result unit -> Device -> Prop :=
| merge_no_connected :
    m !! "connected" = None ->
    light_merge m d (Raise (KeyError "connected")) d
| merge_no_onOff s :
    is_Some (m !! "connected") -> m !! "onOff" = None ->
    light_merge m d (Raise (KeyError "onOff")) (set_connection_status s d)
| merge_no_brightness s onOff :
    is_Some (m !! "connected") -> m !! "onOff" = Some onOff ->
    m !! "brightness" = None ->
    light_merge m d (Raise (KeyError "brightness"))
      (set_on (Some (eq_number onOff 1)) (set_connection_status s d))
| merge_bad_brightness s onOff raw :
    is_Some (m !! "connected") -> m !! "onOff" = Some onOff ->
    m !! "brightness" = Some raw -> as_number raw = None ->
    light_merge m d (Raise TypeError)
      (set_on (Some (eq_number onOff 1)) (set_connection_status s d))
| merge_light s onOff raw b :
    is_Some (m !! "connected") -> m !! "onOff" = Some onOff ->
    m !! "brightness" = Some raw -> truediv raw 255 = Ok b ->
    light_merge m d (Ok tt)
      (set_brightness (Some (py_max (py_min b 1) 0))
         (set_on (Some (eq_number onOff 1)) (set_connection_status s d))).

(** ** Traces *)

(** [g'] has the history of [g] followed by events that all satisfy [P]. *)
Definition extends (P : event -> Prop) (g g' : Govee) : Prop :=
  exists new, trace g' = trace g ++ new /\ Forall P new.

(** Whatever the state, [m] only adds events that satisfy [P]. *)
Definition emits {A} (P : event -> Prop) (m : M Govee A) : Prop :=
  forall g, extends P g (m g).2.

(** Events other than the entry into a transport. *)
Definition not_attempt (e : event) : Prop :=
  match e with
  | EvAttempt _ _ => False
  | _ => True
  end.

(** Events other than a connect or a write on the radio transport. *)
Definition no_radio_io (e : event) : Prop :=
  match e with
  | EvBtConnect _ | EvBtWrite _ _ => False
  | _ => True
  end.

Definition is_attempt (e : event) : bool :=
  match e with
  | EvAttempt _ _ => true
  | _ => false
  end.

Definition is_device_update (e : event) : bool :=
  match e with
  | EvDeviceUpdate _ _ => true
  | _ => false
  end.

Definition is_mqtt_connect (e : event) : bool :=
  match e with
  | EvMqttConnect _ => true
  | _ => false
  end.

(** The position of the first event that satisfies [p]. *)
Fixpoint first_index (p : event -> bool) (l : list event) : option nat :=
  match l with
  | [] => None
  | e :: l' => if p e then Some O else S <$> first_index p l'
  end.

(** The condition under which [_publish_command] takes the broker. *)
Definition takes_broker {C} `{AbstractCommand C} (d : Device) (command : C) : bool :=
  iot_device d &&
  ((Z.land (connection_status d) ConnectionStatus.IOT_CONNECTED
      =? ConnectionStatus.IOT_CONNECTED)
   || is_StatusCommand command).

(** A command of a subclass of [_AbstractCommand] written by a user of
    the library, which gives its two encodings as they are. *)
Record FrameCommand : Type := mkFrameCommand {
  frame_iot : string * json;
  frame_bt : option (Z * list Z)
}.

#[global] Instance FrameCommand_AbstractCommand : AbstractCommand FrameCommand := {
  get_iot_payload := frame_iot;
  get_bt_payload := frame_bt;
  is_StatusCommand _ := false
}.

(** A payload of 18 bytes. *)
Definition long_command : FrameCommand :=
  mkFrameCommand ("raw", JObj ∅) (Some (0x05, replicate 18 0x00)).

(** The keys of the devices whose status has the flag [IOT_CONNECTED]. *)
Definition iot_connected_ids (ds : list (string * Device)) : list string :=
  map fst (List.filter (fun kd => Z.land (connection_status kd.2) ConnectionStatus.IOT_CONNECTED
                               =? ConnectionStatus.IOT_CONNECTED) ds).

(** Every device has a status that is a non-empty flag value, and no key
    occurs twice. *)
Definition well_formed (ds : list (string * Device)) : Prop :=
  NoDup (map fst ds) /\
  Forall (fun kd => ConnectionStatus.nonempty (connection_status kd.2)) ds.

(** An identifier that is not the key of a known device: a string that
    is not a key, or a value that is no string but can be hashed. *)
Definition unknown (identifier : json) (g : Govee) : Prop :=
  match identifier with
  | JStr s => lookup_device s (devices g) = None
  | JArr _ | JObj _ => False
  | _ => True
  end.

(** The example push without the [device] field of its state. *)
Definition push_without_device : json :=
  JObj {[ "proType" := JInt 0; "state" := JObj (delete "device" push_state) ]}.

(** A push for a device the client does not know. *)
Definition push_for_stranger : json :=
  JObj {[ "proType" := JInt 0;
          "state" := JObj (<[ "device" := JStr "00:00:00:00:00:00:00:00" ]> push_state) ]}.

(** A device after [_remove_connection_status(IOT_CONNECTED)], and the
    dictionary after the loop over all devices of the session reset. *)
Definition clear_iot (d : Device) : Device :=
  set_connection_status
    (GoveeDevice.remove_status (connection_status d) ConnectionStatus.IOT_CONNECTED).1 d.

Definition clear_all (ds : list (string * Device)) : list (string * Device) :=
  map (fun kd => (kd.1, clear_iot kd.2)) ds.

(** One update event, without raw data, for each device whose status has
    the flag [IOT_CONNECTED], in the order of the dictionary. *)
Definition update_events (ds : list (string * Device)) : list event :=
  map (fun id => EvDeviceUpdate id None) (iot_connected_ids ds).

(** The body of the loop of the session reset. *)
Definition clear_and_notify (id : string) : M Govee unit :=
  changed <- with_device id
    (GoveeDevice._remove_connection_status ConnectionStatus.IOT_CONNECTED) ;;
  update_if_changed id changed.

(** A client whose token is gone, with one strip connected to the broker. *)
Definition expired_client : Govee :=
  set_login_token None
    (client [(strip_id, strip ConnectionStatus.IOT_CONNECTED None)]).

(** ** The statuses and flags the client works with *)

(** A status in which OFFLINE stands for the absence of both connectivity
    flags: OFFLINE alone, or one or both of IOT_CONNECTED and
    BT_CONNECTED without OFFLINE. *)
Definition canonical (s : Z) : Prop :=
  s = ConnectionStatus.OFFLINE \/
  s = ConnectionStatus.IOT_CONNECTED \/
  s = ConnectionStatus.BT_CONNECTED \/
  s = Z.lor ConnectionStatus.IOT_CONNECTED ConnectionStatus.BT_CONNECTED.

(** The two flags api.py adds and removes. *)
Definition connectivity_flag (f : Z) : Prop :=
  f = ConnectionStatus.IOT_CONNECTED \/ f = ConnectionStatus.BT_CONNECTED.

(** [s] has all the bits of [f]. *)
Definition has_flag (s f : Z) : bool := Z.land s f =? f.

(** [(isinstance(conn, bool) and conn) or conn == 'true'] *)
Definition says_connected (conn : json) : bool :=
  match conn with
  | JBool b => b
  | JStr s => String.eqb s "true"
  | _ => false
  end.

(** A method of the device that leaves the attribute read by [f] as it
    is, whether it returns or raises. *)
Definition keeps {A B} (f : Device -> B) (m : M Device A) : Prop :=
  forall d, f (m d).2 = f d.

(** The colour components of a command, which go into the radio payload
    as they are, are bytes. *)
Definition byte_components (c : Command) : Prop :=
  match c with
  | ColorCommand r g b | ColorTemperatureCommand _ r g b =>
      is_byte r /\ is_byte g /\ is_byte b
  | _ => True
  end.

(** The frame of an opcode and a payload of at most 17 bytes. *)
Definition frame_of (opcode : Z) (data : list Z) : list Z :=
  let body := [0x33; opcode] ++ data ++ replicate (17 - length data) 0x00 in
  body ++ [xor_bytes body].

(** The quiet environment with a radio link on which nothing can be
    reached: every connect raises. *)
Definition unreachable_env : Env := {|
  colour_Color := colour_Color quiet_env;
  jwt_decode := jwt_decode quiet_env;
  cert_files_present := cert_files_present quiet_env;
  http_login := http_login quiet_env;
  http_device_list := http_device_list quiet_env;
  mqtt_connect := mqtt_connect quiet_env;
  mqtt_subscribe := mqtt_subscribe quiet_env;
  mqtt_publish := mqtt_publish quiet_env;
  bt_start := bt_start quiet_env;
  bt_connect _ _ := None;
  bt_char_write := bt_char_write quiet_env
|}.

(** The quiet environment in which every write on the radio link and
    every publish on the broker raises. *)
Definition lossy_env : Env := {|
  colour_Color := colour_Color quiet_env;
  jwt_decode := jwt_decode quiet_env;
  cert_files_present := cert_files_present quiet_env;
  http_login := http_login quiet_env;
  http_device_list := http_device_list quiet_env;
  mqtt_connect := mqtt_connect quiet_env;
  mqtt_subscribe := mqtt_subscribe quiet_env;
  mqtt_publish _ := false;
  bt_start := bt_start quiet_env;
  bt_connect := bt_connect quiet_env;
  bt_char_write _ := false
|}.

(** The radio address of the strip of the examples. *)
Definition strip_address : string := "C3:D4:E5:F6:77:88".

(** What [__token_is_valid] returns in the state [g]. *)
Definition token_ok (env : Env) (g : Govee) : bool :=
  match login_token g with
  | None => false
  | Some token =>
      if String.eqb token "" || (String.length token <? 10)%nat
      then false
      else jwt_decode env (trace g) token
  end.

(** The condition under which [__login_if_required] logs in. *)
Definition login_required (env : Env) (g : Govee) : bool :=
  negb (token_ok env g) || falsy (mqtt_cert_file g) || falsy (mqtt_topic g).

Definition login_path : string := "/account/rest/account/v1/login".

(** The events of the disconnect of the old session, if there is one. *)
Definition disconnect_events (g : Govee) : list event :=
  match mqtt_connection g with
  | Some old => [EvMqttDisconnect old]
  | None => []
  end.

(** An environment that accepts the login answered with [res]: the
    login service answers [res], its token decodes, its certificate
    files are there, and the broker accepts the connection and the
    subscription. *)
Definition accepts_login (env : Env) (res : LoginResponse) : Prop :=
  (forall t, http_login env t = Ok res) /\
  (forall t, jwt_decode env t (client_token res) = true) /\
  (forall t, cert_files_present env t (client_A res) = true) /\
  (forall t, mqtt_connect env t = true) /\
  (forall t, mqtt_subscribe env t = true).

(** A login response the client can work with: status 200, a token of at
    least 10 characters, and a certificate and a topic that are not
    empty. *)
Definition usable_login (res : LoginResponse) : Prop :=
  login_status res = 200 /\
  (10 <= String.length (client_token res))%nat /\
  client_A res <> "" /\ client_topic res <> "".

(** The quiet environment with a login service that answers 401. *)
Definition rejecting_env : Env := {|
  colour_Color := colour_Color quiet_env;
  jwt_decode := jwt_decode quiet_env;
  cert_files_present := cert_files_present quiet_env;
  http_login _ := Ok (mkLoginResponse 401 "" "" "");
  http_device_list := http_device_list quiet_env;
  mqtt_connect := mqtt_connect quiet_env;
  mqtt_subscribe := mqtt_subscribe quiet_env;
  mqtt_publish := mqtt_publish quiet_env;
  bt_start := bt_start quiet_env;
  bt_connect := bt_connect quiet_env;
  bt_char_write := bt_char_write quiet_env
|}.

(** The answer of the login service of the quiet environment. *)
Definition quiet_login : LoginResponse :=
  mkLoginResponse 200 "eyJhbGciOiJIUzI1NiJ9.e30.sig" "testiot.cert" "GA/account".

(** ** Relations between the dictionary of devices before and after *)

(** A method of the client under which the dictionary of devices moves
    along the relation [R], whether the method returns or raises. *)
Definition devsteps {A} (R : list (string * Device) -> list (string * Device) -> Prop)
    (m : M Govee A) : Prop :=
  forall g, R (devices g) (devices (m g).2).

(** [d'] is [d] with, at most, another connection status. *)
Definition frozen (d d' : Device) : Prop :=
  d' = set_connection_status (connection_status d') d.

(** The two dictionaries have the same keys in the same order, and under
    each key devices that differ at most in their connection status. *)
Definition attributes_frozen (l l' : list (string * Device)) : Prop :=
  Forall2 (fun a b => a.1 = b.1 /\ frozen a.2 b.2) l l'.

(** The invariant of the dictionary of devices: no key twice, each
    device under its identifier, each status one in which OFFLINE stands
    for no connectivity. *)
Definition registry_ok (l : list (string * Device)) : Prop :=
  NoDup (map fst l) /\
  Forall (fun kd => identifier kd.2 = kd.1 /\ canonical (connection_status kd.2)) l.

Definition keeps_registry (l l' : list (string * Device)) : Prop :=
  registry_ok l -> registry_ok l'.

(** [d'] is [d] with, at most, another name and another connection
    status. *)
Definition renamed (d d' : Device) : Prop :=
  d' = set_name (name d') (set_connection_status (connection_status d') d).

(** Every device of [l] is still in [l'], under its key, with at most
    another name and another connection status. *)
Definition devices_kept (l l' : list (string * Device)) : Prop :=
  forall id d, lookup_device id l = Some d ->
    exists d', lookup_device id l' = Some d' /\ renamed d d'.

(** The connection hint [__http_update_device_list] derives from an
    entry of the device list. *)
Definition iot_hint (raw : RawDevice) : IotConnectionStatus :=
  match last_online raw with
  | Some true => ONLINE
  | Some false => IOT_OFFLINE
  | None => if negb (settings_has_wifiName raw) then NO_IOT else UNKNOWN
  end.

(** An entry the loop of [__http_update_device_list] does not skip: an
    identifier and a product code that are not empty, a topic in the
    settings, and a product code that has a factory. *)
Definition accepted (raw : RawDevice) (topic : string) (f : DeviceFactory) : Prop :=
  raw_device raw <> "" /\ raw_sku raw <> "" /\
  settings_topic raw = Some topic /\
  __get_device_factory (raw_sku raw) = Some f.


(** The device the client builds for an accepted entry. *)
Definition device_of (raw : RawDevice) (topic : string) (f : DeviceFactory) : Device :=
  build f (raw_device raw) topic (raw_sku raw) (raw_deviceName raw) (iot_hint raw).

(** The quiet environment with a device list service that answers with
    the entries [raws]. *)
Definition listing_env (raws : list RawDevice) : Env := {|
  colour_Color := colour_Color quiet_env;
  jwt_decode := jwt_decode quiet_env;
  cert_files_present := cert_files_present quiet_env;
  http_login := http_login quiet_env;
  http_device_list _ := Ok (mkDeviceListResponse 200 raws);
  mqtt_connect := mqtt_connect quiet_env;
  mqtt_subscribe := mqtt_subscribe quiet_env;
  mqtt_publish := mqtt_publish quiet_env;
  bt_start := bt_start quiet_env;
  bt_connect := bt_connect quiet_env;
  bt_char_write := bt_char_write quiet_env
|}.

(** The two entries of the device list of the source's comments. *)
Definition raw_kitchen : RawDevice :=
  mkRawDevice "AA:BB:CC:DD:EE:FF:11:22" "H6159" "Kitchen light"
              true (Some "GD/123467890123467890123467890") true (Some false).

Definition raw_living_room : RawDevice :=
  mkRawDevice "A2:B2:C3:D4:E5:F6:77:88" "H6163" "Living room"
              true (Some "GD/123467890123467890123467890") true (Some false).

(** ** device.py: the brightness of a light *)

Section Brightness.

Variable env : Env.

(** [int(round(x))] on a float, taken as it is. *)
Variable round : Q -> Z.




End Brightness.


(** * Properties *)

(** ** Properties of the connection status *)

Ltac flag_cases s :=
  let H := fresh "Hcase" in
  assert (H : s = 0 \/ s = 1 \/ s = 2 \/ s = 3 \/ s = 4 \/ s = 5 \/ s = 6 \/ s = 7)
    by (unfold ConnectionStatus.nonempty, ConnectionStatus.valid,
          ConnectionStatus.all_members in *; lia);
  repeat (destruct H as [H | H]); subst s.

Lemma add_status_nonempty (s status : Z) :
  ConnectionStatus.valid s -> ConnectionStatus.nonempty status ->
  ConnectionStatus.nonempty (GoveeDevice.add_status s status).1.
Proof.
  intros Hs Hst. flag_cases s; flag_cases status;
    vm_compute; try (split; discriminate);
    exfalso; unfold ConnectionStatus.nonempty in Hst; lia.
Qed.

Lemma remove_status_nonempty (s status : Z) :
  ConnectionStatus.valid s -> ConnectionStatus.valid status ->
  ConnectionStatus.nonempty (GoveeDevice.remove_status s status).1.
Proof.
  intros Hs Hst. flag_cases s; flag_cases status;
    vm_compute; split; discriminate.
Qed.

Lemma nonempty_valid (s : Z) :
  ConnectionStatus.nonempty s -> ConnectionStatus.valid s.
Proof.
  unfold ConnectionStatus.nonempty, ConnectionStatus.valid. lia.
Qed.

Lemma run_op_status (op : StatusOp) (d : Device) :
  connection_status (run_op op d).2 =
  match op with
  | AddStatus status => (GoveeDevice.add_status (connection_status d) status).1
  | RemoveStatus status => (GoveeDevice.remove_status (connection_status d) status).1
  end.
Proof.
  destruct op; simpl;
    unfold GoveeDevice._add_connection_status, GoveeDevice._remove_connection_status;
    [destruct (GoveeDevice.add_status _ _) | destruct (GoveeDevice.remove_status _ _)];
    reflexivity.
Qed.

Lemma run_ops_nonempty (ops : list StatusOp) (d : Device) :
  Forall (fun op => ConnectionStatus.nonempty (op_flag op)) ops ->
  ConnectionStatus.nonempty (connection_status d) ->
  ConnectionStatus.nonempty (connection_status (run_ops ops d)).
Proof.
  intros Hops. revert d.
  induction Hops as [| op ops Hop _ IH]; intros d Hd; simpl; [exact Hd |].
  apply IH. rewrite run_op_status.
  destruct op; simpl in Hop.
  - apply add_status_nonempty; auto using nonempty_valid.
  - apply remove_status_nonempty; auto using nonempty_valid.
Qed.

Lemma init_status (c : DeviceClass) (identifier topic sku name : string)
    (iot_connected : IotConnectionStatus) :
  let d := GoveeDevice.__init__ c identifier topic sku name iot_connected in
  connection_status d = ConnectionStatus.IOT_CONNECTED \/
  connection_status d = ConnectionStatus.OFFLINE.
Proof. destruct iot_connected; simpl; auto. Qed.

(** C1 (the code departs from the claim).  The claim: add and remove
    return true exactly when the observable status changed.  On a device
    whose status is IOT_CONNECTED, adding IOT_CONNECTED returns true and
    leaves the device as it was; on an OFFLINE device, removing OFFLINE
    returns true and leaves the device as it was. *)
Theorem status_reported_changed_when_unchanged :
  GoveeDevice._add_connection_status ConnectionStatus.IOT_CONNECTED
      (strip ConnectionStatus.IOT_CONNECTED None)
    = (Ok true, strip ConnectionStatus.IOT_CONNECTED None)
  /\ GoveeDevice._remove_connection_status ConnectionStatus.OFFLINE
      (strip ConnectionStatus.OFFLINE None)
    = (Ok true, strip ConnectionStatus.OFFLINE None).
Proof. split; reflexivity. Qed.

(** Adding a flag other than OFFLINE returns true whatever the status
    was: the assignment in the branch that clears OFFLINE overrides the
    comparison made first. *)
Lemma add_status_connected_returns_true (s status : Z) :
  status <> ConnectionStatus.OFFLINE ->
  (GoveeDevice.add_status s status).2 = true.
Proof.
  intros Hne. unfold GoveeDevice.add_status.
  destruct (Z.eqb_spec status ConnectionStatus.OFFLINE); [contradiction | reflexivity].
Qed.

(** Outside the two patterns above the value returned is right: for the
    named members and the statuses they can build, removing says true
    exactly when the status changes, unless OFFLINE is removed from
    OFFLINE. *)
Lemma remove_status_changed_iff (s status : Z) :
  ConnectionStatus.nonempty s -> ConnectionStatus.nonempty status ->
  (status = 1 \/ status = 2 \/ status = 4) ->
  ~ (s = 1 /\ status = 1) ->
  ((GoveeDevice.remove_status s status).2 = true <->
   (GoveeDevice.remove_status s status).1 <> s).
Proof.
  intros Hs Hst Hm Hex.
  flag_cases s; try (exfalso; unfold ConnectionStatus.nonempty in Hs; lia);
    destruct Hm as [-> | [-> | ->]];
    try (exfalso; apply Hex; split; reflexivity);
    vm_compute; split; intros H; try discriminate; try reflexivity;
    exfalso; apply H; reflexivity.
Qed.

(** C4.  A device is constructed with IOT_CONNECTED or OFFLINE; after any
    sequence of add and remove operations with non-empty flags its stored
    status is not the empty flag set; and a removal that leaves no flag
    stores exactly OFFLINE. *)
Theorem connection_status_never_empty
    (c : DeviceClass) (identifier topic sku name : string)
    (iot_connected : IotConnectionStatus) (ops : list StatusOp) :
  Forall (fun op => ConnectionStatus.nonempty (op_flag op)) ops ->
  let d0 := GoveeDevice.__init__ c identifier topic sku name iot_connected in
  let d := run_ops ops d0 in
  (connection_status d0 = ConnectionStatus.IOT_CONNECTED \/
   connection_status d0 = ConnectionStatus.OFFLINE) /\
  connection_status d <> 0 /\
  forall status,
    Z.land (connection_status d) (ConnectionStatus.invert status) = 0 ->
    connection_status (GoveeDevice._remove_connection_status status d).2
      = ConnectionStatus.OFFLINE.
Proof.
  intros Hops d0 d. split; [apply init_status |]. split.
  - assert (Hd : ConnectionStatus.nonempty (connection_status d)).
    { apply run_ops_nonempty; [exact Hops |].
      destruct (init_status c identifier topic sku name iot_connected) as [H | H];
        fold d0 in H; rewrite H; vm_compute; split; discriminate. }
    unfold ConnectionStatus.nonempty in Hd. lia.
  - intros status Hlast.
    unfold GoveeDevice._remove_connection_status, GoveeDevice.remove_status.
    rewrite Hlast. reflexivity.
Qed.

Lemma connection_status_never_empty_witness :
  let ops := [AddStatus ConnectionStatus.BT_CONNECTED;
              RemoveStatus ConnectionStatus.IOT_CONNECTED;
              RemoveStatus ConnectionStatus.BT_CONNECTED] in
  Forall (fun op => ConnectionStatus.nonempty (op_flag op)) ops /\
  connection_status
    (run_ops ops (GoveeDevice.__init__ GoveeBulb "A" "T" "H6001" "N" ONLINE))
    = ConnectionStatus.OFFLINE.
Proof.
  simpl. split.
  - repeat constructor; vm_compute; discriminate.
  - pose proof (connection_status_never_empty GoveeBulb "A" "T" "H6001" "N" ONLINE
                  [AddStatus ConnectionStatus.BT_CONNECTED;
                   RemoveStatus ConnectionStatus.IOT_CONNECTED]) as H.
    simpl in H.
    destruct H as (_ & _ & Hlast).
    + repeat constructor; vm_compute; discriminate.
    + apply (Hlast ConnectionStatus.BT_CONNECTED). reflexivity.
Defined.

(** ** The radio frame *)

Lemma lxor_byte (a b : Z) : is_byte a -> is_byte b -> is_byte (Z.lxor a b).
Proof.
  unfold is_byte. intros [Ha0 Ha] [Hb0 Hb].
  assert (H0 : 0 <= Z.lxor a b) by (apply Z.lxor_nonneg; tauto).
  split; [exact H0 |].
  destruct (Z.eq_dec (Z.lxor a b) 0) as [-> | Hne]; [lia |].
  apply (Z.log2_lt_pow2 _ 8); [lia |].
  pose proof (Z.log2_lxor a b Ha0 Hb0) as Hl.
  assert (Z.log2 a < 8).
  { destruct (Z.eq_dec a 0) as [-> | ?]; [reflexivity | apply Z.log2_lt_pow2; lia]. }
  assert (Z.log2 b < 8).
  { destruct (Z.eq_dec b 0) as [-> | ?]; [reflexivity | apply Z.log2_lt_pow2; lia]. }
  lia.
Qed.

Lemma xor_bytes_byte (l : list Z) (a : Z) :
  is_byte a -> Forall is_byte l -> is_byte (fold_left Z.lxor l a).
Proof.
  intros Ha Hl. revert a Ha.
  induction Hl as [| b l Hb _ IH]; intros a Ha; simpl; [exact Ha |].
  apply IH. apply lxor_byte; assumption.
Qed.

Lemma land_byte (x : Z) : is_byte x -> Z.land x 255 = x.
Proof.
  intros [H0 H]. change 255 with (Z.ones 8).
  rewrite Z.land_ones by lia. apply Z.mod_small. lia.
Qed.

Lemma bytes_in_range (l : list Z) : Forall is_byte l -> bytes l = Ok l.
Proof.
  intros H. unfold bytes.
  replace (forallb _ l) with true; [reflexivity |].
  symmetry. apply forallb_forall. intros b Hb.
  rewrite Forall_forall in H.
  assert (is_byte b) as [? ?] by (apply H; apply list_elem_of_In; exact Hb).
  apply andb_true_intro. split; [apply Z.leb_le | apply Z.ltb_lt]; lia.
Qed.

(** C5.  For an opcode byte and a payload of at most 17 bytes the frame
    is built, the same one each time, and it has 20 bytes: 0x33, the
    opcode, the payload, zeros up to byte 18, and in byte 19 the XOR of
    bytes 0 to 18. *)
Theorem radio_frame_layout (opcode : Z) (data : list Z) :
  is_byte opcode -> Forall is_byte data -> (length data <= 17)%nat ->
  exists frame,
    build_packet opcode data = Ok frame /\
    (forall frame', build_packet opcode data = Ok frame' -> frame' = frame) /\
    frame = [0x33; opcode] ++ data ++ replicate (17 - length data) 0
              ++ [xor_bytes (take 19 frame)] /\
    length frame = 20%nat /\
    frame !! 0%nat = Some 0x33 /\
    frame !! 1%nat = Some opcode /\
    (forall i x, data !! i = Some x -> frame !! (2 + i)%nat = Some x) /\
    (forall i, (2 + length data <= i < 19)%nat -> frame !! i = Some 0) /\
    frame !! 19%nat = Some (xor_bytes (take 19 frame)).
Proof.
  intros Hop Hdata Hlen.
  set (body := [0x33; opcode] ++ data ++ replicate (17 - length data) 0).
  assert (Hbody_len : length body = 19%nat).
  { unfold body. rewrite !length_app, length_replicate. simpl. lia. }
  assert (Hbody : Forall is_byte body).
  { unfold body. apply Forall_app_2; [| apply Forall_app_2].
    - constructor; [unfold is_byte; lia |].
      constructor; [exact Hop | constructor].
    - exact Hdata.
    - apply Forall_replicate. unfold is_byte; lia. }
  assert (Hbuild : build_packet opcode data = Ok (body ++ [xor_bytes body])).
  { unfold build_packet.
    rewrite (bytes_in_range [0x33; opcode])
      by (constructor; [unfold is_byte; lia |];
          constructor; [exact Hop | constructor]).
    rewrite (bytes_in_range data) by assumption.
    rewrite length_app. simpl (length [_; _]).
    replace (19 - (2 + length data))%nat with (17 - length data)%nat by lia.
    change (([0x33; opcode] ++ data) ++ replicate (17 - length data) 0) with body.
    rewrite land_byte; [reflexivity |].
    apply xor_bytes_byte; [unfold is_byte; lia | exact Hbody]. }
  exists (body ++ [xor_bytes body]).
  assert (Htake : take 19 (body ++ [xor_bytes body]) = body).
  { rewrite <- Hbody_len. apply take_app_length. }
  split; [exact Hbuild |]. split; [congruence |].
  rewrite Htake.
  split; [unfold body; rewrite <- !app_assoc; reflexivity |].
  split; [rewrite length_app, Hbody_len; reflexivity |].
  split; [reflexivity |]. split; [reflexivity |].
  split; [| split].
  - intros i x Hi. unfold body. simpl.
    rewrite <- app_assoc. apply lookup_app_l_Some. exact Hi.
  - intros i Hi. rewrite lookup_app_l by lia. unfold body.
    destruct i as [| [| i]]; [lia | lia |]. simpl.
    rewrite lookup_app_r by lia.
    apply lookup_replicate_2. lia.
  - rewrite lookup_app_r by lia. rewrite Hbody_len. reflexivity.
Qed.

Lemma radio_frame_layout_witness :
  let data := [0x02; 0xff; 0xff; 0xff; 0x01; 255; 215; 0] in
  is_byte 0x05 /\ Forall is_byte data /\ (length data <= 17)%nat /\
  exists frame,
    build_packet 0x05 data = Ok frame /\
    length frame = 20%nat /\
    frame !! 19%nat = Some (xor_bytes (take 19 frame)).
Proof.
  assert (Hop : is_byte 0x05) by (unfold is_byte; lia).
  assert (Hdata : Forall is_byte [0x02; 0xff; 0xff; 0xff; 0x01; 255; 215; 0])
    by (repeat (constructor; [unfold is_byte; lia |]); constructor).
  assert (Hlen : (length [0x02; 0xff; 0xff; 0xff; 0x01; 255; 215; 0] <= 17)%nat)
    by (simpl; lia).
  intros data. split; [exact Hop |]. split; [exact Hdata |]. split; [exact Hlen |].
  destruct (radio_frame_layout 0x05 _ Hop Hdata Hlen)
    as (frame & Hbuild & _ & _ & Hlength & _ & _ & _ & _ & Hsum).
  exists frame. auto.
Defined.

(** The frame of the colour command for the colour of the source's
    example push. *)
Example radio_frame_of_color :
  build_packet 0x05 [0x02; 0xff; 0xff; 0xff; 0x01; 255; 215; 0]
  = Ok [0x33; 0x05; 0x02; 0xff; 0xff; 0xff; 0x01; 255; 215; 0;
        0; 0; 0; 0; 0; 0; 0; 0; 0; 0xe2].
Proof. reflexivity. Qed.

(** ** Merging a push into a device *)

Lemma add_connection_status_eq (status : Z) (d : Device) :
  GoveeDevice._add_connection_status status d =
  (Ok (GoveeDevice.add_status (connection_status d) status).2,
   set_connection_status (GoveeDevice.add_status (connection_status d) status).1 d).
Proof.
  unfold GoveeDevice._add_connection_status.
  destruct (GoveeDevice.add_status _ _); reflexivity.
Qed.

Lemma remove_connection_status_eq (status : Z) (d : Device) :
  GoveeDevice._remove_connection_status status d =
  (Ok (GoveeDevice.remove_status (connection_status d) status).2,
   set_connection_status (GoveeDevice.remove_status (connection_status d) status).1 d).
Proof.
  unfold GoveeDevice._remove_connection_status.
  destruct (GoveeDevice.remove_status _ _); reflexivity.
Qed.

Lemma base_update_state_Ok (m : gmap string json) (d : Device) (conn : json) :
  m !! "connected" = Some conn ->
  exists s, GoveeDevice._update_state (JObj m) d = (Ok tt, set_connection_status s d).
Proof.
  intros Hc. unfold GoveeDevice._update_state, getitem, bind, lift_result.
  rewrite Hc.
  destruct (match conn with JBool b => b | JStr s => String.eqb s "true" | _ => false end).
  - rewrite add_connection_status_eq. eexists. reflexivity.
  - rewrite remove_connection_status_eq. eexists. reflexivity.
Qed.

Lemma base_update_state_missing (m : gmap string json) (d : Device) :
  m !! "connected" = None ->
  GoveeDevice._update_state (JObj m) d = (Raise (KeyError "connected"), d).
Proof.
  intros Hc. unfold GoveeDevice._update_state, getitem, bind, lift_result.
  rewrite Hc. reflexivity.
Qed.

Lemma bind_Ok {S A B} (m : M S A) (k : A -> M S B) (s s' : S) (a : A) :
  m s = (Ok a, s') -> bind m k s = k a s'.
Proof. intros H. unfold bind. rewrite H. reflexivity. Qed.

Lemma bind_Raise {S A B} (m : M S A) (k : A -> M S B) (s s' : S) (e : exn) :
  m s = (Raise e, s') -> bind m k s = (Raise e, s').
Proof. intros H. unfold bind. rewrite H. reflexivity. Qed.

Lemma light_update_state_spec (m : gmap string json) (d : Device) :
  light_merge m d (GoveeLight._update_state (JObj m) d).1
                  (GoveeLight._update_state (JObj m) d).2.
Proof.
  unfold GoveeLight._update_state, ToggleableGoveeDevice._update_state.
  destruct (m !! "connected") as [conn |] eqn:Hconn.
  2: { rewrite (bind_Raise _ _ d d (KeyError "connected"));
         [apply merge_no_connected; exact Hconn |].
       apply bind_Raise, base_update_state_missing, Hconn. }
  destruct (base_update_state_Ok m d conn Hconn) as [s Hbase].
  assert (Hsome : is_Some (m !! "connected")) by (rewrite Hconn; eauto).
  destruct (m !! "onOff") as [onOff |] eqn:HonOff.
  2: { rewrite (bind_Raise _ _ d (set_connection_status s d) (KeyError "onOff"));
         [apply merge_no_onOff; assumption |].
       rewrite (bind_Ok _ _ _ _ _ Hbase).
       unfold bind, lift_result, getitem. rewrite HonOff. reflexivity. }
  rewrite (bind_Ok _ _ d
             (set_on (Some (eq_number onOff 1)) (set_connection_status s d)) tt).
  2: { rewrite (bind_Ok _ _ _ _ _ Hbase).
       unfold bind, lift_result, getitem. rewrite HonOff. reflexivity. }
  unfold bind, lift_result, getitem.
  destruct (m !! "brightness") as [raw |] eqn:Hbright.
  2: { apply merge_no_brightness; assumption. }
  destruct (truediv raw 255) as [b | e] eqn:Hdiv.
  - eapply merge_light; eassumption.
  - unfold truediv in Hdiv. destruct (as_number raw) eqn:Hnum; [discriminate |].
    injection Hdiv as <-. eapply merge_bad_brightness; eassumption.
Qed.

Lemma light_merge_missing (m : gmap string json) (d d1 : Device) (r : result unit) :
  light_merge m d r d1 ->
  (m !! "connected" = None ->
     r = Raise (KeyError "connected") /\ d1 = d) /\
  (is_Some (m !! "connected") -> m !! "onOff" = None ->
     r = Raise (KeyError "onOff") /\ on d1 = on d /\
     brightness d1 = brightness d /\ color d1 = color d /\
     color_temperature d1 = color_temperature d) /\
  (is_Some (m !! "connected") -> is_Some (m !! "onOff") ->
   m !! "brightness" = None ->
     r = Raise (KeyError "brightness") /\ brightness d1 = brightness d /\
     color d1 = color d /\ color_temperature d1 = color_temperature d).
Proof.
  intros Hmerge.
  destruct Hmerge as [Hc | s Hc Ho | s onOff Hc Ho Hb | s onOff raw Hc Ho Hb Hn
                     | s onOff raw b Hc Ho Hb Hn];
    (split; [| split]); intros; auto;
    repeat match goal with
           | H : is_Some ?x, H' : ?x = None |- _ =>
               rewrite H' in H; destruct H as [? H]; discriminate H
           | H : ?x = Some _, H' : ?x = None |- _ =>
               rewrite H' in H; discriminate H
           end.
Qed.

Lemma rgb_update_state_eq (env : Env) (state : json) :
  GoveeRgbLight._update_state env state =
  bind (GoveeLight._update_state state) (fun _ => rgb_merge env state).
Proof. reflexivity. Qed.

Lemma rgb_merge_clears (env : Env) (m : gmap string json) (d d' : Device) :
  rgb_merge env (JObj m) d = (Ok tt, d') ->
  (m !! "colorTemInKelvin" = None -> color_temperature d' = None) /\
  (m !! "color" = None -> color d' = None).
Proof.
  unfold rgb_merge, has_key, getitem, bind, lift_result, modify.
  destruct (m !! "colorTemInKelvin") as [ct |] eqn:Hct; simpl.
  - destruct (GoveeRgbLight.__fix_color_temperature ct) as [fixed |];
      [| discriminate].
    destruct (m !! "color") as [c |] eqn:Hcol; simpl.
    + intros _. split; discriminate.
    + intros [= <-]. split; [discriminate | reflexivity].
  - destruct (m !! "color") as [c |] eqn:Hcol; simpl.
    + intros H. split; [| discriminate]. intros _.
      repeat match type of H with
             | context [match ?x with _ => _ end] =>
                 destruct x; try discriminate H
             end.
      injection H as <-. reflexivity.
    + intros [= <-]. split; reflexivity.
Qed.

Lemma rgb_push_merge (env : Env) (m : gmap string json) (d d' : Device) (r : result unit) :
  GoveeRgbLight._update_state env (JObj m) d = (r, d') ->
  (m !! "connected" = None ->
     r = Raise (KeyError "connected") /\ d' = d) /\
  (is_Some (m !! "connected") -> m !! "onOff" = None ->
     r = Raise (KeyError "onOff") /\ on d' = on d /\
     brightness d' = brightness d /\ color d' = color d /\
     color_temperature d' = color_temperature d) /\
  (is_Some (m !! "connected") -> is_Some (m !! "onOff") ->
   m !! "brightness" = None ->
     r = Raise (KeyError "brightness") /\ brightness d' = brightness d /\
     color d' = color d /\ color_temperature d' = color_temperature d) /\
  (r = Ok tt -> true = true ->
     (m !! "colorTemInKelvin" = None -> color_temperature d' = None) /\
     (m !! "color" = None -> color d' = None)).
Proof.
  intros Hrun. rewrite rgb_update_state_eq in Hrun.
  pose proof (light_update_state_spec m d) as Hlight.
  destruct (GoveeLight._update_state (JObj m) d) as [[[] | e] d1] eqn:Hl;
    simpl in Hlight.
  - rewrite (bind_Ok _ _ _ _ _ Hl) in Hrun.
    destruct (light_merge_missing m d d1 _ Hlight) as (H1 & H2 & H3).
    split; [intros H; destruct (H1 H); discriminate |].
    split; [intros H H'; destruct (H2 H H'); discriminate |].
    split; [intros H H' H''; destruct (H3 H H' H''); discriminate |].
    intros -> _. apply (rgb_merge_clears env m d1 d' Hrun).
  - rewrite (bind_Raise _ _ _ _ _ Hl) in Hrun. injection Hrun as <- <-.
    destruct (light_merge_missing m d d1 _ Hlight) as (H1 & H2 & H3).
    split; [exact H1 |]. split; [exact H2 |]. split; [exact H3 |].
    intros Hf. discriminate Hf.
Qed.

(** C2 (amended).  The claim: a field absent from a push leaves its
    attribute unchanged and the push does not fail, colour and colour
    temperature being cleared instead.  The code reads [connected],
    [onOff] and [brightness] without looking whether they are there: a
    push without one of them raises KeyError, and the attribute of the
    missing field, like those read after it, keeps its value.  When the
    merge returns on an RGB light, colour and colour temperature are
    unknown if their field is absent. *)
Theorem push_merge (env : Env) (m : gmap string json) (d d' : Device) (r : result unit) :
  _update_state env (JObj m) d = (r, d') ->
  (m !! "connected" = None ->
     r = Raise (KeyError "connected") /\ d' = d) /\
  (is_Some (m !! "connected") -> m !! "onOff" = None ->
     r = Raise (KeyError "onOff") /\ on d' = on d /\
     brightness d' = brightness d /\ color d' = color d /\
     color_temperature d' = color_temperature d) /\
  (is_Some (m !! "connected") -> is_Some (m !! "onOff") ->
   m !! "brightness" = None ->
     r = Raise (KeyError "brightness") /\ brightness d' = brightness d /\
     color d' = color d /\ color_temperature d' = color_temperature d) /\
  (r = Ok tt -> is_rgb d = true ->
     (m !! "colorTemInKelvin" = None -> color_temperature d' = None) /\
     (m !! "color" = None -> color d' = None)).
Proof.
  intros Hrun.
  pose proof (light_update_state_spec m d) as Hlight.
  unfold _update_state, is_rgb in *.
  destruct (cls d) eqn:Hcls.
  - rewrite Hrun in Hlight. simpl in Hlight.
    destruct (light_merge_missing m d d' r Hlight) as (H1 & H2 & H3).
    split; [exact H1 |]. split; [exact H2 |]. split; [exact H3 |].
    intros _ Hf. discriminate Hf.
  - apply (rgb_push_merge env). exact Hrun.
  - apply (rgb_push_merge env). exact Hrun.
Qed.

Lemma push_merge_witness :
  let d := strip ConnectionStatus.OFFLINE None in
  let r := _update_state quiet_env (JObj push_state) d in
  r.1 = Ok tt /\ is_rgb d = true /\
  color_temperature r.2 = None /\ color r.2 = None /\
  on r.2 = Some true /\ connection_status r.2 = ConnectionStatus.IOT_CONNECTED.
Proof.
  intros d r.
  destruct (push_merge quiet_env push_state d r.2 r.1) as (_ & _ & _ & Hclear).
  - apply surjective_pairing.
  - destruct (Hclear eq_refl eq_refl) as [Htemp Hcol].
    split; [reflexivity |]. split; [reflexivity |].
    split; [apply Htemp; reflexivity |]. split; [apply Hcol; reflexivity |].
    split; reflexivity.
Defined.

(** C2 (counterexample).  The second example push of the source without
    its [onOff] field, applied to a strip that is on: the merge raises
    KeyError, so the push does fail. *)
Lemma push_without_onOff_fails :
  let d := strip ConnectionStatus.IOT_CONNECTED (Some true) in
  let r := _update_state quiet_env (JObj push_state_without_onOff) d in
  r.1 = Raise (KeyError "onOff") /\ r.1 <> Ok tt /\ on r.2 = Some true.
Proof.
  simpl. split; [reflexivity |]. split; [discriminate | reflexivity].
Qed.

(** ** Events added by the methods of the client *)

Section Emits.

Context {P : event -> Prop}.

Lemma extends_refl (g g' : Govee) : trace g' = trace g -> extends P g g'.
Proof. intros H. exists []. rewrite app_nil_r. auto. Qed.

Lemma extends_trans (g1 g2 g3 : Govee) :
  extends P g1 g2 -> extends P g2 g3 -> extends P g1 g3.
Proof.
  intros (n1 & H1 & F1) (n2 & H2 & F2). exists (n1 ++ n2).
  rewrite H2, H1, app_assoc. split; [reflexivity | apply Forall_app_2; assumption].
Qed.

Lemma emits_ret {A} (a : A) : emits P (ret a).
Proof. intros g. apply extends_refl. reflexivity. Qed.

Lemma emits_raise {A} (e : exn) : emits P (raise (A := A) e).
Proof. intros g. apply extends_refl. reflexivity. Qed.

Lemma emits_lift_result {A} (r : result A) : emits P (lift_result r).
Proof. intros g. apply extends_refl. reflexivity. Qed.

Lemma emits_get : emits P get.
Proof. intros g. apply extends_refl. reflexivity. Qed.

Lemma emits_ask {A} (f : list event -> A) : emits P (ask f).
Proof. intros g. apply extends_refl. reflexivity. Qed.

Lemma emits_modify (f : Govee -> Govee) :
  (forall g, trace (f g) = trace g) -> emits P (modify f).
Proof. intros H g. apply extends_refl. apply H. Qed.

Lemma emits_emit (e : event) : P e -> emits P (emit e).
Proof. intros H g. exists [e]. split; [reflexivity | constructor; auto]. Qed.

Lemma emits_bind {A B} (m : M Govee A) (k : A -> M Govee B) :
  emits P m -> (forall a, emits P (k a)) -> emits P (bind m k).
Proof.
  intros Hm Hk g. unfold bind. specialize (Hm g).
  destruct (m g) as [[a | e] g1]; simpl in *; [| exact Hm].
  eapply extends_trans; [exact Hm | apply Hk].
Qed.

Lemma emits_call {A} (e : event) (f : list event -> A) : P e -> emits P (call e f).
Proof.
  intros H. unfold call. apply emits_bind; [apply emits_emit, H |].
  intros _. apply emits_ask.
Qed.

Lemma emits_with_device {A} (id : string) (m : M Device A) :
  emits P (with_device id m).
Proof.
  intros g. apply extends_refl. unfold with_device.
  destruct (lookup_device id (devices g)); [| reflexivity].
  destruct (m d); reflexivity.
Qed.

Lemma emits_for_each {A} (l : list A) (body : A -> M Govee unit) :
  (forall x, emits P (body x)) -> emits P (for_each l body).
Proof.
  intros H. induction l as [| x l IH]; simpl; [apply emits_ret |].
  apply emits_bind; [apply H | intros _; exact IH].
Qed.

End Emits.

(** One step in the proof that a method only adds events of a kind. *)
Ltac emits_step :=
  lazymatch goal with
  | |- emits _ (bind _ _) => apply emits_bind; [| intros ?]
  | |- emits _ (ret _) => apply emits_ret
  | |- emits _ (raise _) => apply emits_raise
  | |- emits _ (lift_result _) => apply emits_lift_result
  | |- emits _ get => apply emits_get
  | |- emits _ (ask _) => apply emits_ask
  | |- emits _ (emit _) => apply emits_emit; exact I
  | |- emits _ (call _ _) => apply emits_call; exact I
  | |- emits _ (modify _) => apply emits_modify; intros ?; reflexivity
  | |- emits _ (with_device _ _) => apply emits_with_device
  | |- emits _ (device_attr _ _) => apply emits_with_device
  | |- emits _ (update_if_changed _ ?c) => unfold update_if_changed; destruct c
  | |- emits _ (match ?x with _ => _ end) => destruct x
  end.

Ltac emits_auto := repeat emits_step.

Lemma init_bluetooth_emits (P : event -> Prop) (env : Env) :
  P EvBtStart -> (forall d m, P (EvError d m)) ->
  emits P (__init_bluetooth_if_required env).
Proof.
  intros Hs He. unfold __init_bluetooth_if_required.
  apply emits_bind; [apply emits_get |]. intros g.
  destruct (bluetooth_running g) as [[] |]; [apply emits_ret | |];
    (apply emits_bind; [apply emits_call, Hs |]; intros [raised running];
     apply emits_bind; [emits_auto |]; intros _;
     destruct raised, running;
     try apply emits_ret;
     (apply emits_bind; [apply emits_emit, He | intros _; apply emits_ret])).
Qed.

Lemma store_device_same (id : string) (d : Device) (l : list (string * Device)) :
  lookup_device id l = Some d -> store_device id d l = l.
Proof.
  induction l as [| [k d0] l IH]; simpl; [discriminate |].
  destruct (String.eqb k id); [intros [= ->]; reflexivity |].
  intros H. rewrite (IH H). reflexivity.
Qed.

Lemma lookup_store_device (id : string) (d : Device) (l : list (string * Device)) :
  lookup_device id (store_device id d l) = Some d.
Proof.
  induction l as [| [k d0] l IH]; simpl.
  - rewrite String.eqb_refl. reflexivity.
  - destruct (String.eqb k id) eqn:E; simpl; rewrite E; [reflexivity | exact IH].
Qed.

Lemma set_devices_same (g : Govee) : set_devices (devices g) g = g.
Proof. destruct g; reflexivity. Qed.

Lemma with_device_present {A} (id : string) (m : M Device A) (g : Govee) (d : Device) :
  lookup_device id (devices g) = Some d ->
  with_device id m g = ((m d).1, set_devices (store_device id (m d).2 (devices g)) g).
Proof.
  intros H. unfold with_device. rewrite H. destruct (m d); reflexivity.
Qed.

Lemma device_attr_present {A} (id : string) (f : Device -> A) (g : Govee) (d : Device) :
  lookup_device id (devices g) = Some d ->
  device_attr id f g = (Ok (f d), g).
Proof.
  intros H. unfold device_attr. rewrite (with_device_present _ _ _ _ H). simpl.
  rewrite (store_device_same _ _ _ H), set_devices_same. reflexivity.
Qed.

Lemma emits_after_emit {A} (P : event -> Prop) (e : event) (k : unit -> M Govee A) :
  emits P (k tt) ->
  forall g, exists rest,
    trace (bind (emit e) k g).2 = trace g ++ e :: rest /\ Forall P rest.
Proof.
  intros Hk g. unfold bind, emit, modify. simpl.
  destruct (Hk (set_trace (trace g ++ [e]) g)) as (rest & Ht & HP).
  exists rest. rewrite Ht. simpl. rewrite <- app_assoc. auto.
Qed.

Lemma bt_connect_retry_emits (P : event -> Prop) (env : Env) (id address : string) (fuel : nat) :
  (forall a, P (EvBtConnect a)) -> (forall i r, P (EvDeviceUpdate i r)) ->
  emits P (bt_connect_retry env id address fuel).
Proof.
  intros Hc Hu. induction fuel as [| fuel IH]; simpl; [apply emits_ret |].
  apply emits_bind; [apply emits_call, Hc |]. intros [bt |]; [| exact IH].
  apply emits_bind; [emits_auto |]. intros _.
  apply emits_bind; [emits_auto |]. intros changed.
  apply emits_bind; [| intros _; apply emits_ret].
  destruct changed; [apply emits_emit, Hu | apply emits_ret].
Qed.

Ltac emits_client :=
  repeat first
    [ emits_step
    | apply init_bluetooth_emits; [exact I | intros; exact I]
    | apply bt_connect_retry_emits; intros; exact I ].

Lemma publish_bt_trace {C} `{AbstractCommand C} (env : Env) (id : string) (command : C) (g : Govee) :
  exists rest,
    trace (__publish_bt_payload env id command g).2
      = trace g ++ EvAttempt Radio id :: rest /\
    Forall not_attempt rest.
Proof.
  unfold __publish_bt_payload. apply emits_after_emit. emits_client.
Qed.

Lemma publish_iot_trace {C} `{AbstractCommand C} (env : Env) (id : string) (command : C) (g : Govee) :
  exists rest,
    trace (__publish_iot_payload env id command g).2
      = trace g ++ EvAttempt Broker id :: rest /\
    Forall not_attempt rest.
Proof.
  unfold __publish_iot_payload. apply emits_after_emit. emits_client.
Qed.

(** Running the monad one layer down, without unfolding the methods. *)
Ltac run := cbv beta iota delta [bind emit modify get ret call ask update_if_changed].

Lemma publish_iot_returns {C} `{AbstractCommand C} (env : Env) (id : string) (command : C)
    (g : Govee) (d : Device) :
  lookup_device id (devices g) = Some d ->
  exists sent, (__publish_iot_payload env id command g).1 = Ok sent.
Proof.
  intros Hd. unfold __publish_iot_payload. run.
  rewrite (device_attr_present id topic _ d) by exact Hd.
  destruct (mqtt_connection _) as [session |]; run.
  - destruct (mqtt_publish env _); run; [eexists; reflexivity |].
    rewrite (with_device_present id _ _ d) by exact Hd.
    rewrite remove_connection_status_eq. run. cbn [fst snd].
    destruct (GoveeDevice.remove_status _ _).2; eexists; reflexivity.
  - rewrite (with_device_present id _ _ d) by exact Hd.
    rewrite remove_connection_status_eq. run. cbn [fst snd].
    destruct (GoveeDevice.remove_status _ _).2; eexists; reflexivity.
Qed.

Lemma not_attempt_not_in (t : transport) (id : string) (l : list event) :
  Forall not_attempt l -> ~ In (EvAttempt t id) l.
Proof.
  intros HF Hin. rewrite Forall_forall in HF.
  apply (HF (EvAttempt t id)). apply list_elem_of_In. exact Hin.
Qed.

(** C3.  When a command is dispatched for a known device, the broker
    transport is entered exactly when the device is an IOT device and its
    IOT_CONNECTED flag is set or the command is a status request; it is
    then entered first, also for a status request on a device whose flag
    is clear; the radio transport is entered exactly when the broker was
    not taken or its attempt returned false. *)
Theorem publish_command_transports {C} `{AbstractCommand C}
    (env : Env) (id : string) (command : C) (g : Govee) (d : Device) :
  lookup_device id (devices g) = Some d ->
  exists new,
    trace (_publish_command env id command g).2 = trace g ++ new /\
    (In (EvAttempt Broker id) new <-> takes_broker d command = true) /\
    (In (EvAttempt Radio id) new <->
       takes_broker d command = false \/
       (__publish_iot_payload env id command g).1 = Ok false) /\
    (takes_broker d command = true ->
       exists rest, new = EvAttempt Broker id :: rest) /\
    (is_StatusCommand command = true -> iot_device d = true ->
       exists rest, new = EvAttempt Broker id :: rest).
Proof.
  intros Hd. unfold _publish_command. run.
  rewrite (device_attr_present id iot_device g d Hd).
  rewrite (device_attr_present id connection_status g d Hd).
  assert (Hstatus : is_StatusCommand command = true -> iot_device d = true ->
                    takes_broker d command = true).
  { intros Hs Hi. unfold takes_broker. rewrite Hs, Hi, orb_true_r. reflexivity. }
  fold (takes_broker d command).
  destruct (takes_broker d command) eqn:Hbroker.
  - destruct (publish_iot_returns env id command g d Hd) as [sent Hsent].
    destruct (publish_iot_trace env id command g) as (rest1 & Ht1 & Hn1).
    destruct (__publish_iot_payload env id command g) as [r g1].
    simpl in Hsent, Ht1. subst r.
    destruct sent; cbn [negb].
    + exists (EvAttempt Broker id :: rest1).
      split; [exact Ht1 |]. split; [split; [reflexivity | left; reflexivity] |].
      split; [| split; eauto].
      split.
      * intros [Hin | Hin]; [discriminate |].
        exfalso. exact (not_attempt_not_in _ _ _ Hn1 Hin).
      * intros [Hf | Hf]; discriminate.
    + destruct (publish_bt_trace env id command g1) as (rest2 & Ht2 & Hn2).
      exists (EvAttempt Broker id :: rest1 ++ EvAttempt Radio id :: rest2).
      split.
      { rewrite Ht2, Ht1, <- app_assoc. reflexivity. }
      split; [split; [reflexivity | left; reflexivity] |].
      split; [| split; eauto].
      split; [intros _; right; reflexivity |].
      intros _. right. apply in_or_app. right. left. reflexivity.
  - cbn [negb].
    destruct (publish_bt_trace env id command g) as (rest2 & Ht2 & Hn2).
    exists (EvAttempt Radio id :: rest2).
    split; [exact Ht2 |].
    split.
    { split; [| discriminate].
      intros [Hin | Hin]; [discriminate |].
      exfalso. exact (not_attempt_not_in _ _ _ Hn2 Hin). }
    split; [split; [intros _; left; reflexivity | intros _; left; reflexivity] |].
    split; [discriminate |].
    intros Hs Hi. specialize (Hstatus Hs Hi). discriminate.
Qed.

Lemma publish_command_transports_witness :
  let g := client [(strip_id, strip ConnectionStatus.OFFLINE None)] in
  lookup_device strip_id (devices g) = Some (strip ConnectionStatus.OFFLINE None) /\
  exists rest,
    trace (request_status quiet_env strip_id g).2 = EvAttempt Broker strip_id :: rest.
Proof.
  intros g.
  assert (Hd : lookup_device strip_id (devices g)
               = Some (strip ConnectionStatus.OFFLINE None)) by reflexivity.
  split; [exact Hd |].
  destruct (publish_command_transports quiet_env strip_id StatusCommand g _ Hd)
    as (new & Htrace & _ & _ & _ & Hfirst).
  destruct (Hfirst eq_refl eq_refl) as [rest ->].
  exists rest. exact Htrace.
Defined.

(** ** Commands without a radio frame *)

Lemma init_bluetooth_returns (env : Env) (g : Govee) :
  exists b, (__init_bluetooth_if_required env g).1 = Ok b /\
            (bluetooth_running g = Some true ->
             b = true /\ (__init_bluetooth_if_required env g).2 = g).
Proof.
  unfold __init_bluetooth_if_required. run.
  destruct (bluetooth_running g) as [[] |].
  - exists true. auto.
  - destruct (bt_start env _) as [[] [[] |]]; eexists; (split; [reflexivity | discriminate]).
  - destruct (bt_start env _) as [[] [[] |]]; eexists; (split; [reflexivity | discriminate]).
Qed.

(** C6 (amended).  The claim: a command without a radio encoding, or
    with a payload of more than 17 bytes, fails with a validation error
    and nothing is sent.  In the code a command without a radio encoding
    makes the method return, without an exception; a payload of more than
    17 bytes raises an exception when the Bluetooth adapter is running,
    and the method returns when the adapter cannot be started.  In all
    these cases no connect and no write happens. *)
Theorem radio_dispatch_without_frame {C} `{AbstractCommand C}
    (env : Env) (id : string) (command : C) (g : Govee) :
  (get_bt_payload command = None \/
   exists opcode data,
     get_bt_payload command = Some (opcode, data) /\ (17 < length data)%nat) ->
  let r := __publish_bt_payload env id command g in
  (exists new, trace r.2 = trace g ++ new /\ Forall no_radio_io new) /\
  (get_bt_payload command = None -> r.1 = Ok tt) /\
  (get_bt_payload command <> None -> bluetooth_running g = Some true ->
     exists e, r.1 = Raise e) /\
  (r.1 = Ok tt \/ exists e, r.1 = Raise e).
Proof.
  intros Hpayload r. subst r. unfold __publish_bt_payload. run.
  set (g0 := set_trace (trace g ++ [EvAttempt Radio id]) g).
  destruct (init_bluetooth_returns env g0) as (b & Hb & Hrun).
  pose proof (init_bluetooth_emits no_radio_io env I (fun _ _ => I) g0) as Hext.
  destruct (__init_bluetooth_if_required env g0) as [r1 g1].
  simpl in Hb, Hext, Hrun. subst r1.
  assert (Htrace : exists new, trace g1 = trace g ++ new /\ Forall no_radio_io new).
  { destruct Hext as (new & Ht & Hn). exists (EvAttempt Radio id :: new).
    rewrite Ht. unfold g0. simpl. rewrite <- app_assoc.
    split; [reflexivity | constructor; [exact I | exact Hn]]. }
  destruct b; cbn [negb].
  - destruct Hpayload as [Hnone | (opcode & data & Hsome & Hlong)].
    + rewrite Hnone. simpl. repeat split; auto; congruence.
    + rewrite Hsome. apply Nat.ltb_lt in Hlong. rewrite Hlong.
      unfold raise. simpl. repeat split; eauto; try congruence.
  - simpl. split; [exact Htrace |]. split; [reflexivity |]. split; [| auto].
    intros _ Hr. destruct (Hrun Hr) as [Hf _]. discriminate.
Qed.

Lemma radio_dispatch_without_frame_witness :
  let g := client [(strip_id, strip ConnectionStatus.OFFLINE None)] in
  let r := __publish_bt_payload quiet_env strip_id long_command g in
  (exists opcode data,
     get_bt_payload long_command = Some (opcode, data) /\ (17 < length data)%nat) /\
  (exists e, r.1 = Raise e) /\
  (exists new, trace r.2 = trace g ++ new /\ Forall no_radio_io new).
Proof.
  intros g r.
  assert (Hlong : exists opcode data,
             get_bt_payload long_command = Some (opcode, data) /\
             (17 < length data)%nat).
  { exists 0x05, (replicate 18 0x00). split; [reflexivity | simpl; lia]. }
  split; [exact Hlong |].
  destruct (radio_dispatch_without_frame quiet_env strip_id long_command g
              (or_intror Hlong)) as (Htrace & _ & Hraise & _).
  split; [| exact Htrace].
  apply Hraise; [discriminate | reflexivity].
Defined.

(** C6 (counterexample).  A status request sent over the radio transport
    with a running adapter: the command has no radio encoding, and the
    method returns without raising. *)
Lemma status_request_over_radio_returns :
  let g := client [(strip_id, strip ConnectionStatus.OFFLINE None)] in
  let r := __publish_bt_payload quiet_env strip_id StatusCommand g in
  get_bt_payload StatusCommand = None /\
  r.1 = Ok tt /\ ~ (exists e, r.1 = Raise e).
Proof.
  simpl. split; [reflexivity |]. split; [reflexivity |].
  intros [e He]. discriminate He.
Qed.

(** ** Inbound pushes that are not applied *)

Lemma device_known_unknown (identifier : json) (g : Govee) :
  unknown identifier g -> device_known identifier g = (Ok None, g).
Proof.
  destruct identifier; simpl; try reflexivity; try contradiction.
  intros H. unfold device_known. run. rewrite H. reflexivity.
Qed.

(** C7 (amended).  The claim: a push without the device identifier, or
    for a device that one refresh of the device list does not resolve, is
    dropped silently.  In the code the second half holds: when the
    refresh returns and the device is still unknown, the callback
    returns in the state the refresh left, with no exception, no device
    touched and no event of its own; when the refresh raises, its
    exception goes to the caller.  A push whose state has no [device]
    makes the callback raise KeyError, with nothing mutated and no event. *)
Theorem push_not_applied (env : Env) (top m : gmap string json) (g : Govee) :
  top !! "state" = Some (JObj m) ->
  (m !! "device" = None ->
     __mqtt_topic_callback env (Ok (JObj top)) g = (Raise (KeyError "device"), g)) /\
  (forall identifier g1,
     m !! "device" = Some identifier ->
     unknown identifier g ->
     __http_update_device_list env g = (Ok tt, g1) ->
     unknown identifier g1 ->
     __mqtt_topic_callback env (Ok (JObj top)) g = (Ok tt, g1)) /\
  (forall identifier e g1,
     m !! "device" = Some identifier ->
     unknown identifier g ->
     __http_update_device_list env g = (Raise e, g1) ->
     __mqtt_topic_callback env (Ok (JObj top)) g = (Raise e, g1)).
Proof.
  intros Hstate.
  unfold __mqtt_topic_callback, lift_result, contains, getitem. run.
  rewrite Hstate.
  rewrite (bool_decide_eq_true_2 (is_Some (Some (JObj m)))) by eauto.
  cbn [negb]. cbv beta iota.
  split; [| split].
  - intros Hdev. rewrite Hdev. reflexivity.
  - intros identifier g1 Hdev Hunknown Hrefresh Hstill. rewrite Hdev. run.
    rewrite (device_known_unknown _ _ Hunknown). run. rewrite Hrefresh. run.
    rewrite (device_known_unknown _ _ Hstill). reflexivity.
  - intros identifier e g1 Hdev Hunknown Hrefresh. rewrite Hdev. run.
    rewrite (device_known_unknown _ _ Hunknown). run. rewrite Hrefresh.
    reflexivity.
Qed.

Lemma push_not_applied_witness :
  let g := client [(strip_id, strip ConnectionStatus.OFFLINE None)] in
  let g1 := set_trace [EvHttpPost "/device/rest/devices/v1/list"] g in
  __mqtt_topic_callback quiet_env (Ok push_for_stranger) g = (Ok tt, g1).
Proof.
  intros g g1.
  destruct (push_not_applied quiet_env
              {[ "proType" := JInt 0;
                 "state" := JObj (<[ "device" := JStr "00:00:00:00:00:00:00:00" ]> push_state) ]}
              (<[ "device" := JStr "00:00:00:00:00:00:00:00" ]> push_state) g)
    as (_ & Hdrop & _).
  - reflexivity.
  - apply (Hdrop (JStr "00:00:00:00:00:00:00:00") g1); reflexivity.
Defined.

(** C7 (counterexample).  The example push of the source without the
    [device] field of its state: the callback raises KeyError, so an
    exception does reach the caller. *)
Lemma push_without_device_raises :
  let g := client [(strip_id, strip ConnectionStatus.OFFLINE None)] in
  let r := __mqtt_topic_callback quiet_env (Ok push_without_device) g in
  r.1 = Raise (KeyError "device") /\ r.1 <> Ok tt /\ r.2 = g.
Proof.
  simpl. split; [reflexivity |]. split; [discriminate | reflexivity].
Qed.

(** A message without [state] is dropped. *)
Lemma no_state_dropped (env : Env) (top : gmap string json) (g : Govee) :
  top !! "state" = None ->
  __mqtt_topic_callback env (Ok (JObj top)) g = (Ok tt, g).
Proof.
  intros Hstate.
  unfold __mqtt_topic_callback, lift_result, contains, getitem. run.
  rewrite Hstate. reflexivity.
Qed.

(** ** Power commands *)

Lemma publish_command_enters {C} `{AbstractCommand C}
    (env : Env) (id : string) (command : C) (g : Govee) (d : Device) :
  lookup_device id (devices g) = Some d ->
  exists t rest,
    trace (_publish_command env id command g).2 = trace g ++ EvAttempt t id :: rest.
Proof.
  intros Hd. unfold _publish_command. run.
  rewrite (device_attr_present id iot_device g d Hd).
  rewrite (device_attr_present id connection_status g d Hd).
  match goal with |- context [if ?c then __publish_iot_payload _ _ _ else _] =>
    destruct c end.
  - destruct (publish_iot_returns env id command g d Hd) as [sent Hsent].
    destruct (publish_iot_trace env id command g) as (rest1 & Ht1 & _).
    destruct (__publish_iot_payload env id command g) as [r g1].
    simpl in Hsent, Ht1. subst r.
    destruct sent; cbn [negb].
    + exists Broker, rest1. exact Ht1.
    + destruct (publish_bt_trace env id command g1) as (rest2 & Ht2 & _).
      exists Broker, (rest1 ++ EvAttempt Radio id :: rest2).
      rewrite Ht2, Ht1, <- app_assoc. reflexivity.
  - cbn [negb].
    destruct (publish_bt_trace env id command g) as (rest2 & Ht2 & _).
    exists Radio, rest2. exact Ht2.
Qed.

Lemma turn_cached (env : Env) (id : string) (val : bool) (g : Govee) (d : Device) :
  lookup_device id (devices g) = Some d -> on d = Some val ->
  __turn env id val g = (Ok tt, g).
Proof.
  intros Hd Hon. unfold __turn. run.
  rewrite (device_attr_present id on g d Hd), Hon.
  rewrite bool_decide_eq_true_2 by reflexivity. reflexivity.
Qed.

Lemma turn_not_cached (env : Env) (id : string) (val : bool) (g : Govee) (d : Device) :
  lookup_device id (devices g) = Some d -> on d <> Some val ->
  __turn env id val g = _publish_command env id (TurnCommand val) g.
Proof.
  intros Hd Hon. unfold __turn. run.
  rewrite (device_attr_present id on g d Hd).
  rewrite bool_decide_eq_false_2 by congruence. reflexivity.
Qed.

(** C9 (amended).  The claim: the same power command issued twice on a
    device whose cached power state equals the requested value gives one
    send attempt, the second call being a no-op.  In the code a power
    command whose value equals the cached state publishes nothing, and
    nothing but a push changes the cached state: both calls are no-ops,
    and the two together leave the client as it was, with no send
    attempt. *)
Theorem repeated_power_command (env : Env) (id : string) (val : bool)
    (g : Govee) (d : Device) :
  lookup_device id (devices g) = Some d -> on d = Some val ->
  set_power env id val g = (Ok tt, g) /\
  bind (set_power env id val) (fun _ => set_power env id val) g = (Ok tt, g) /\
  List.filter is_attempt
    (trace (bind (set_power env id val) (fun _ => set_power env id val) g).2)
  = List.filter is_attempt (trace g).
Proof.
  intros Hd Hon. unfold set_power.
  pose proof (turn_cached env id val g d Hd Hon) as Hturn.
  assert (Htwice : bind (__turn env id val) (fun _ => __turn env id val) g = (Ok tt, g)).
  { rewrite (bind_Ok _ _ _ _ _ Hturn). exact Hturn. }
  split; [exact Hturn |]. split; [exact Htwice |].
  rewrite Htwice. reflexivity.
Qed.

Lemma repeated_power_command_witness :
  let g := client [(strip_id, strip ConnectionStatus.IOT_CONNECTED (Some true))] in
  lookup_device strip_id (devices g)
    = Some (strip ConnectionStatus.IOT_CONNECTED (Some true)) /\
  bind (set_power quiet_env strip_id true)
       (fun _ => set_power quiet_env strip_id true) g = (Ok tt, g).
Proof.
  intros g. split; [reflexivity |].
  apply (repeated_power_command quiet_env strip_id true g
           (strip ConnectionStatus.IOT_CONNECTED (Some true))); reflexivity.
Defined.

(** C9 (counterexample).  A strip that is on, turned on twice: the number
    of send attempts is zero, not one. *)
Lemma repeated_power_command_sends_nothing :
  let g := client [(strip_id, strip ConnectionStatus.IOT_CONNECTED (Some true))] in
  let g2 := (bind (set_power quiet_env strip_id true)
                  (fun _ => set_power quiet_env strip_id true) g).2 in
  on (strip ConnectionStatus.IOT_CONNECTED (Some true)) = Some true /\
  length (List.filter is_attempt (trace g2)) = 0%nat /\
  length (List.filter is_attempt (trace g2)) <> 1%nat.
Proof.
  simpl. split; [reflexivity |]. split; [reflexivity | discriminate].
Qed.

(** C10.  On a device whose cached power state is unknown, [toggle]
    publishes the command [TurnCommand(True)], whose encodings are
    ("turn", val true) for the broker and opcode 1 with payload 1 for the
    radio, and a transport is entered for it. *)
Theorem toggle_unknown_turns_on (env : Env) (id : string) (g : Govee) (d : Device) :
  lookup_device id (devices g) = Some d -> on d = None ->
  toggle env id g = _publish_command env id (TurnCommand true) g /\
  get_iot_payload (TurnCommand true) = ("turn", JObj {[ "val" := JBool true ]}) /\
  get_bt_payload (TurnCommand true) = Some (0x01, [0x01]) /\
  exists t rest, trace (toggle env id g).2 = trace g ++ EvAttempt t id :: rest.
Proof.
  intros Hd Hon.
  assert (Htoggle : toggle env id g = _publish_command env id (TurnCommand true) g).
  { unfold toggle. run. rewrite (device_attr_present id on g d Hd), Hon.
    simpl. apply (turn_not_cached env id true g d Hd). rewrite Hon. discriminate. }
  split; [exact Htoggle |]. split; [reflexivity |]. split; [reflexivity |].
  rewrite Htoggle. apply (publish_command_enters env id _ g d Hd).
Qed.

Lemma toggle_unknown_turns_on_witness :
  let g := client [(strip_id, strip ConnectionStatus.IOT_CONNECTED None)] in
  trace (toggle quiet_env strip_id g).2
  = [EvAttempt Broker strip_id;
     EvMqttPublish 0 "GD/123467890123467890123467890" "turn"
       (JObj {[ "val" := JBool true ]})].
Proof.
  intros g.
  destruct (toggle_unknown_turns_on quiet_env strip_id g
              (strip ConnectionStatus.IOT_CONNECTED None) eq_refl eq_refl)
    as (Htoggle & _).
  rewrite Htoggle. reflexivity.
Defined.

(** ** The reset of the broker session *)

Lemma lookup_device_app_fresh (k : string) (d : Device)
    (done rest : list (string * Device)) :
  ~ In k (map fst done) ->
  lookup_device k (done ++ (k, d) :: rest) = Some d.
Proof.
  induction done as [| [k0 d0] done IH]; simpl; intros Hk.
  - rewrite String.eqb_refl. reflexivity.
  - destruct (String.eqb_spec k0 k) as [-> | Hne]; [exfalso; auto |].
    apply IH. auto.
Qed.

Lemma store_device_app_fresh (k : string) (d d' : Device)
    (done rest : list (string * Device)) :
  ~ In k (map fst done) ->
  store_device k d' (done ++ (k, d) :: rest) = done ++ (k, d') :: rest.
Proof.
  induction done as [| [k0 d0] done IH]; simpl; intros Hk.
  - rewrite String.eqb_refl. reflexivity.
  - destruct (String.eqb_spec k0 k) as [-> | Hne]; [exfalso; auto |].
    rewrite IH by auto. reflexivity.
Qed.

Lemma remove_iot_changed (s : Z) :
  ConnectionStatus.nonempty s ->
  (GoveeDevice.remove_status s ConnectionStatus.IOT_CONNECTED).2
  = (Z.land s ConnectionStatus.IOT_CONNECTED =? ConnectionStatus.IOT_CONNECTED).
Proof.
  intros Hs. flag_cases s; try reflexivity.
  exfalso. unfold ConnectionStatus.nonempty in Hs. lia.
Qed.

Lemma remove_iot_cleared (s : Z) :
  Z.land (GoveeDevice.remove_status s ConnectionStatus.IOT_CONNECTED).1
         ConnectionStatus.IOT_CONNECTED = 0.
Proof.
  unfold GoveeDevice.remove_status.
  destruct (Z.land s _ =? 0); [reflexivity |]. cbn [fst].
  rewrite <- Z.land_assoc. change (Z.land _ ConnectionStatus.IOT_CONNECTED) with 0.
  apply Z.land_0_r.
Qed.

Lemma clear_and_notify_step (k : string) (d : Device)
    (done rest : list (string * Device)) (g : Govee) :
  devices g = done ++ (k, d) :: rest ->
  ~ In k (map fst done) ->
  ConnectionStatus.nonempty (connection_status d) ->
  clear_and_notify k g =
  (Ok tt, set_trace (trace g ++ update_events [(k, d)])
            (set_devices (done ++ (k, clear_iot d) :: rest) g)).
Proof.
  intros Hdev Hfresh Hs. unfold clear_and_notify. run.
  rewrite (with_device_present k _ g d)
    by (rewrite Hdev; apply lookup_device_app_fresh, Hfresh).
  rewrite remove_connection_status_eq. cbn [fst snd].
  rewrite Hdev, (store_device_app_fresh k d _ done rest Hfresh).
  rewrite (remove_iot_changed _ Hs).
  unfold update_events, iot_connected_ids. simpl.
  destruct (Z.land (connection_status d) ConnectionStatus.IOT_CONNECTED
              =? ConnectionStatus.IOT_CONNECTED); simpl.
  - reflexivity.
  - rewrite app_nil_r. destruct g; reflexivity.
Qed.

Lemma update_events_cons (kd : string * Device) (ds : list (string * Device)) :
  update_events (kd :: ds) = update_events [kd] ++ update_events ds.
Proof.
  unfold update_events, iot_connected_ids. simpl.
  destruct (Z.land _ _ =? _); reflexivity.
Qed.

Lemma clear_flags_loop (todo done : list (string * Device)) (g : Govee) :
  devices g = done ++ todo ->
  NoDup (map fst (done ++ todo)) ->
  Forall (fun kd => ConnectionStatus.nonempty (connection_status kd.2)) todo ->
  for_each (map fst todo) clear_and_notify g =
  (Ok tt, set_trace (trace g ++ update_events todo)
            (set_devices (done ++ clear_all todo) g)).
Proof.
  revert done g. induction todo as [| [k d] todo IH]; intros done g Hdev Hnodup Hs.
  - simpl. unfold ret, update_events. simpl. rewrite !app_nil_r in *.
    rewrite <- Hdev. destruct g; reflexivity.
  - simpl. inversion Hs as [| ? ? Hd Hrest]; subst. simpl in Hd.
    assert (Hfresh : ~ In k (map fst done)).
    { rewrite map_app in Hnodup. apply NoDup_app in Hnodup.
      destruct Hnodup as (_ & Hdisj & _).
      intros Hin. apply (Hdisj k); [apply list_elem_of_In, Hin |].
      simpl. left. }
    rewrite (bind_Ok _ _ _ _ _ (clear_and_notify_step k d done todo g Hdev Hfresh Hd)).
    rewrite (IH (done ++ [(k, clear_iot d)])).
    + rewrite (update_events_cons (k, d) todo). simpl.
      rewrite <- !app_assoc. simpl. reflexivity.
    + simpl. rewrite <- app_assoc. reflexivity.
    + rewrite <- app_assoc. simpl. rewrite !map_app in *. simpl in *. exact Hnodup.
    + exact Hrest.
Qed.

Lemma clear_all_cleared (ds : list (string * Device)) :
  Forall (fun kd => Z.land (connection_status kd.2) ConnectionStatus.IOT_CONNECTED = 0)
         (clear_all ds).
Proof.
  unfold clear_all. apply Forall_forall. intros kd Hin.
  apply list_elem_of_In, in_map_iff in Hin. destruct Hin as ([k d] & <- & _).
  apply remove_iot_cleared.
Qed.

(** C8 (amended).  The claim: in a session reset the broker session is
    re-established first, then the IOT_CONNECTED flag of every device is
    cleared, and only then are sends accepted.  In the code the old
    session is disconnected first; then the flag of every known device is
    cleared, with one update event for each device whose flag was set, in
    the order of the dictionary; and only after that is the new session
    created, configured, connected and subscribed, so that a send on the
    new session comes after the flags are cleared. *)
Theorem session_reset_order (env : Env) (g : Govee) :
  well_formed (devices g) ->
  let r := mqtt_reconnect env g in
  let session := mqtt_sessions g in
  exists tail,
    trace r.2 = trace g
      ++ match mqtt_connection g with
         | Some old => [EvMqttDisconnect old]
         | None => []
         end
      ++ update_events (devices g)
      ++ [EvMqttConfigure session; EvMqttConnect session]
      ++ tail /\
    (tail = [] \/ tail = [EvMqttSubscribe session (default "" (mqtt_topic g))]) /\
    (r.1 = Ok tt -> tail = [EvMqttSubscribe session (default "" (mqtt_topic g))]) /\
    mqtt_connection r.2 = Some session /\
    devices r.2 = clear_all (devices g) /\
    Forall (fun kd => Z.land (connection_status kd.2)
                        ConnectionStatus.IOT_CONNECTED = 0) (devices r.2).
Proof.
  intros [Hnodup Hstatus] r session. subst r.
  unfold mqtt_reconnect. run.
  change (fun id : string => _) with clear_and_notify.
  set (g0 := match mqtt_connection g with
             | Some old => set_trace (trace g ++ [EvMqttDisconnect old]) g
             | None => g
             end).
  assert (Hg0 : devices g0 = devices g /\ mqtt_topic g0 = mqtt_topic g /\
                trace g0 = trace g ++ match mqtt_connection g with
                                      | Some old => [EvMqttDisconnect old]
                                      | None => []
                                      end).
  { unfold g0. destruct (mqtt_connection g); simpl; rewrite ?app_nil_r; auto. }
  destruct Hg0 as (Hdev0 & Htopic0 & Htrace0).
  assert (Hloop := clear_flags_loop (devices g) [] g0 Hdev0 Hnodup Hstatus).
  simpl app in Hloop.
  replace (match mqtt_connection g with
           | Some old => _
           | None => _
           end g) with (Ok tt, g0) by (unfold g0; destruct (mqtt_connection g); reflexivity).
  cbv beta iota. rewrite Hloop. cbv beta iota.
  pose proof (clear_all_cleared (devices g)) as Hcleared.
  destruct (mqtt_connect env _); cbv beta iota.
  - destruct (mqtt_subscribe env _); cbv beta iota; simpl;
      exists [EvMqttSubscribe session (default "" (mqtt_topic g))];
      rewrite Htrace0, Htopic0, <- !app_assoc; simpl;
      repeat split; auto.
  - exists []. unfold raise. simpl. rewrite Htrace0, <- !app_assoc. simpl.
    repeat split; auto. discriminate.
Qed.

Lemma session_reset_order_witness :
  well_formed (devices expired_client) /\
  devices (mqtt_reconnect quiet_env expired_client).2
    = clear_all (devices expired_client) /\
  mqtt_connection (mqtt_reconnect quiet_env expired_client).2 = Some 1%nat.
Proof.
  assert (Hwf : well_formed (devices expired_client)).
  { split.
    - simpl. apply NoDup_singleton.
    - simpl. constructor; [vm_compute; split; discriminate | constructor]. }
  split; [exact Hwf |].
  destruct (session_reset_order quiet_env expired_client Hwf)
    as (tail & _ & _ & _ & Hsession & Hdevices & _).
  split; [exact Hdevices | exact Hsession].
Defined.

(** C8 (counterexample).  A client whose token is gone logs in again while
    one strip has the flag IOT_CONNECTED: the update event of the cleared
    flag is the third event, the connect of the new session the fifth,
    so the session is not re-established before the flags are cleared. *)
Lemma reset_clears_flags_before_connecting :
  let t := trace (login quiet_env expired_client).2 in
  t = [EvHttpPost "/account/rest/account/v1/login";
       EvMqttDisconnect 0;
       EvDeviceUpdate strip_id None;
       EvMqttConfigure 1;
       EvMqttConnect 1;
       EvMqttSubscribe 1 "GA/account"] /\
  first_index is_device_update t = Some 2%nat /\
  first_index is_mqtt_connect t = Some 4%nat /\
  ~ (exists i j, first_index is_mqtt_connect t = Some i /\
                 first_index is_device_update t = Some j /\ (i < j)%nat).
Proof.
  simpl. split; [reflexivity |]. split; [reflexivity |]. split; [reflexivity |].
  intros (i & j & [= <-] & [= <-] & Hlt). lia.
Qed.

(** ** The algebra of the connectivity flags *)

Ltac canonical_cases H :=
  unfold canonical in H; destruct H as [H | [H | [H | H]]]; rewrite H in *; clear H.

Ltac flag_choice H :=
  unfold connectivity_flag in H; destruct H as [H | H]; rewrite H in *; clear H.

Lemma add_status_canonical (s f : Z) :
  canonical s -> connectivity_flag f -> canonical (GoveeDevice.add_status s f).1.
Proof.
  intros Hs Hf. canonical_cases Hs; flag_choice Hf; vm_compute; auto.
Qed.

Lemma remove_status_canonical (s f : Z) :
  canonical s -> connectivity_flag f -> canonical (GoveeDevice.remove_status s f).1.
Proof.
  intros Hs Hf. canonical_cases Hs; flag_choice Hf; vm_compute; auto.
Qed.

Lemma run_ops_canonical (ops : list StatusOp) (d : Device) :
  Forall (fun op => connectivity_flag (op_flag op)) ops ->
  canonical (connection_status d) ->
  canonical (connection_status (run_ops ops d)).
Proof.
  intros Hops. revert d.
  induction Hops as [| op ops Hop _ IH]; intros d Hd; simpl; [exact Hd |].
  apply IH. rewrite run_op_status.
  destruct op; simpl in Hop.
  - apply add_status_canonical; assumption.
  - apply remove_status_canonical; assumption.
Qed.

(** X1.  From its construction on, through any sequence of additions and
    removals of IOT_CONNECTED and BT_CONNECTED, a device's status is one
    of OFFLINE, IOT_CONNECTED, BT_CONNECTED and both connectivity flags:
    OFFLINE is stored exactly when no connectivity flag is. *)
Theorem status_stays_canonical
    (c : DeviceClass) (identifier topic sku name : string)
    (iot_connected : IotConnectionStatus) (ops : list StatusOp) :
  Forall (fun op => connectivity_flag (op_flag op)) ops ->
  let s := connection_status
             (run_ops ops (GoveeDevice.__init__ c identifier topic sku name iot_connected)) in
  canonical s /\
  (has_flag s ConnectionStatus.OFFLINE = true <->
   has_flag s ConnectionStatus.IOT_CONNECTED = false /\
   has_flag s ConnectionStatus.BT_CONNECTED = false).
Proof.
  intros Hops s.
  assert (Hs : canonical s).
  { apply run_ops_canonical; [exact Hops |].
    destruct iot_connected; vm_compute; auto. }
  split; [exact Hs |].
  canonical_cases Hs; vm_compute; split; try tauto; try discriminate;
    intros [? ?]; discriminate.
Qed.

Lemma status_stays_canonical_witness :
  let ops := [AddStatus ConnectionStatus.BT_CONNECTED;
              AddStatus ConnectionStatus.IOT_CONNECTED;
              RemoveStatus ConnectionStatus.BT_CONNECTED] in
  Forall (fun op => connectivity_flag (op_flag op)) ops /\
  canonical (connection_status
               (run_ops ops (GoveeDevice.__init__ GoveeLedStrip "A" "T" "H6163" "N" UNKNOWN))).
Proof.
  intros ops.
  assert (Hops : Forall (fun op => connectivity_flag (op_flag op)) ops).
  { unfold ops. repeat (apply Forall_cons_2; [vm_compute; auto |]). constructor. }
  split; [exact Hops |].
  apply (status_stays_canonical GoveeLedStrip "A" "T" "H6163" "N" UNKNOWN ops Hops).
Defined.

(** X2.  On such a status, adding a connectivity flag sets it and
    removing it clears it, and neither touches the other connectivity
    flag. *)
Theorem connectivity_flags_independent (s f f' : Z) :
  canonical s -> connectivity_flag f -> connectivity_flag f' -> f <> f' ->
  has_flag (GoveeDevice.add_status s f).1 f = true /\
  has_flag (GoveeDevice.remove_status s f).1 f = false /\
  has_flag (GoveeDevice.add_status s f).1 f' = has_flag s f' /\
  has_flag (GoveeDevice.remove_status s f).1 f' = has_flag s f'.
Proof.
  intros Hs Hf Hf' Hne.
  canonical_cases Hs; flag_choice Hf; flag_choice Hf';
    try (exfalso; apply Hne; reflexivity); vm_compute; auto.
Qed.

Lemma connectivity_flags_independent_witness :
  has_flag (GoveeDevice.remove_status 6 ConnectionStatus.IOT_CONNECTED).1
           ConnectionStatus.BT_CONNECTED = true.
Proof.
  destruct (connectivity_flags_independent 6 ConnectionStatus.IOT_CONNECTED
              ConnectionStatus.BT_CONNECTED) as (_ & _ & _ & H).
  - unfold canonical. right. right. right. reflexivity.
  - left. reflexivity.
  - right. reflexivity.
  - discriminate.
  - rewrite H. reflexivity.
Defined.

(** X3.  On such a status, removing a connectivity flag returns true
    exactly when the flag was set, which is exactly when the stored
    status changes; a flag that was clear is clear again after it is
    added and removed, with the status it had. *)
Theorem remove_reports_change (s f : Z) :
  canonical s -> connectivity_flag f ->
  ((GoveeDevice.remove_status s f).2 = has_flag s f) /\
  ((GoveeDevice.remove_status s f).2 = true <-> (GoveeDevice.remove_status s f).1 <> s) /\
  (has_flag s f = false ->
   (GoveeDevice.remove_status (GoveeDevice.add_status s f).1 f).1 = s).
Proof.
  intros Hs Hf.
  canonical_cases Hs; flag_choice Hf; vm_compute;
    (split; [reflexivity |]); (split; [| intros; congruence]);
    split; intros H; try discriminate; try reflexivity;
    exfalso; apply H; reflexivity.
Qed.

Lemma remove_reports_change_witness :
  (GoveeDevice.remove_status ConnectionStatus.OFFLINE ConnectionStatus.BT_CONNECTED).2
  = false.
Proof.
  destruct (remove_reports_change ConnectionStatus.OFFLINE ConnectionStatus.BT_CONNECTED)
    as (H & _).
  - left. reflexivity.
  - right. reflexivity.
  - rewrite H. reflexivity.
Defined.

(** ** What a push leaves in the device *)

Lemma keeps_bind {A B C} (f : Device -> C) (m : M Device A) (k : A -> M Device B) :
  keeps f m -> (forall a, keeps f (k a)) -> keeps f (bind m k).
Proof.
  intros Hm Hk d. unfold bind. specialize (Hm d).
  destruct (m d) as [[a | e] d1]; simpl in *; [| exact Hm].
  rewrite (Hk a d1). exact Hm.
Qed.

Lemma keeps_ret {A C} (f : Device -> C) (a : A) : keeps f (ret a).
Proof. intros d. reflexivity. Qed.

Lemma keeps_lift_result {A C} (f : Device -> C) (r : result A) :
  keeps f (lift_result r).
Proof. intros d. reflexivity. Qed.

Lemma keeps_modify {C} (f : Device -> C) (h : Device -> Device) :
  (forall d, f (h d) = f d) -> keeps f (modify h).
Proof. intros H d. apply H. Qed.

Ltac keeps_step :=
  lazymatch goal with
  | |- keeps _ (bind _ _) => apply keeps_bind; [| intros ?]
  | |- keeps _ (ret _) => apply keeps_ret
  | |- keeps _ (lift_result _) => apply keeps_lift_result
  | |- keeps _ (modify _) => apply keeps_modify; intros ?; reflexivity
  | |- keeps _ (match ?x with _ => _ end) => destruct x
  end.

Lemma rgb_merge_keeps_light (env : Env) (state : json) :
  keeps connection_status (rgb_merge env state) /\
  keeps on (rgb_merge env state) /\
  keeps brightness (rgb_merge env state).
Proof. unfold rgb_merge. repeat split; repeat keeps_step. Qed.

Lemma base_update_state_status (m : gmap string json) (d : Device) (conn : json) :
  m !! "connected" = Some conn ->
  GoveeDevice._update_state (JObj m) d =
  (Ok tt,
   set_connection_status
     (if says_connected conn
      then (GoveeDevice.add_status (connection_status d) ConnectionStatus.IOT_CONNECTED).1
      else (GoveeDevice.remove_status (connection_status d) ConnectionStatus.IOT_CONNECTED).1)
     d).
Proof.
  intros Hc. unfold GoveeDevice._update_state, getitem, bind, lift_result.
  rewrite Hc. fold (says_connected conn).
  destruct (says_connected conn).
  - rewrite add_connection_status_eq. reflexivity.
  - rewrite remove_connection_status_eq. reflexivity.
Qed.

Lemma light_after_base (state : json) :
  forall d, connection_status (GoveeLight._update_state state d).2
            = connection_status (GoveeDevice._update_state state d).2.
Proof.
  intros d. unfold GoveeLight._update_state, ToggleableGoveeDevice._update_state.
  unfold bind at 1. unfold bind at 1.
  destruct (GoveeDevice._update_state state d) as [[[] | e] d1]; simpl; [| reflexivity].
  assert (H : keeps connection_status
                (bind (lift_result (getitem state "onOff"))
                      (fun onOff => modify (set_on (Some (eq_number onOff 1)))))).
  { repeat keeps_step. }
  specialize (H d1).
  destruct (bind _ _ d1) as [[[] | e] d2]; simpl in *; [| exact H].
  assert (H2 : keeps connection_status
                 (bind (lift_result (getitem state "brightness"))
                       (fun raw => bind (lift_result (truediv raw 255))
                          (fun b => modify (set_brightness (Some (py_max (py_min b 1) 0))))))).
  { repeat keeps_step. }
  rewrite (H2 d2). exact H.
Qed.

Lemma update_state_after_base (env : Env) (state : json) (d : Device) :
  connection_status (_update_state env state d).2
  = connection_status (GoveeDevice._update_state state d).2.
Proof.
  unfold _update_state. destruct (cls d).
  - apply light_after_base.
  - rewrite rgb_update_state_eq. unfold bind.
    pose proof (light_after_base state d) as Hl.
    destruct (GoveeLight._update_state state d) as [[[] | e] d1]; simpl in *; [| exact Hl].
    destruct (rgb_merge_keeps_light env state) as (Hk & _). rewrite (Hk d1). exact Hl.
  - rewrite rgb_update_state_eq. unfold bind.
    pose proof (light_after_base state d) as Hl.
    destruct (GoveeLight._update_state state d) as [[[] | e] d1]; simpl in *; [| exact Hl].
    destruct (rgb_merge_keeps_light env state) as (Hk & _). rewrite (Hk d1). exact Hl.
Qed.

(** X4.  Whatever else a push holds or lacks, once its [connected] field
    is read the device has the flag IOT_CONNECTED exactly when the field
    is the boolean true or the string "true"; the flag BT_CONNECTED is
    as before, and the status is again one in which OFFLINE stands for
    no connectivity. *)
Theorem push_sets_connectivity (env : Env) (m : gmap string json) (d : Device)
    (conn : json) :
  m !! "connected" = Some conn ->
  canonical (connection_status d) ->
  let s' := connection_status (_update_state env (JObj m) d).2 in
  has_flag s' ConnectionStatus.IOT_CONNECTED = says_connected conn /\
  has_flag s' ConnectionStatus.BT_CONNECTED
    = has_flag (connection_status d) ConnectionStatus.BT_CONNECTED /\
  canonical s'.
Proof.
  intros Hc Hs s'. subst s'.
  rewrite update_state_after_base, (base_update_state_status m d conn Hc).
  simpl. destruct (says_connected conn); canonical_cases Hs; vm_compute; auto 6.
Qed.

Lemma push_sets_connectivity_witness :
  let d := strip ConnectionStatus.BT_CONNECTED None in
  let s' := connection_status
              (_update_state quiet_env (JObj push_state_without_onOff) d).2 in
  push_state_without_onOff !! "connected" = Some (JStr "true") /\
  has_flag s' ConnectionStatus.IOT_CONNECTED = true /\
  has_flag s' ConnectionStatus.BT_CONNECTED = true.
Proof.
  intros d s'.
  assert (Hc : push_state_without_onOff !! "connected" = Some (JStr "true"))
    by reflexivity.
  assert (Hs : canonical (connection_status d))
    by (right; right; left; reflexivity).
  destruct (push_sets_connectivity quiet_env push_state_without_onOff d _ Hc Hs)
    as (Hiot & Hbt & _).
  split; [exact Hc |]. split; [exact Hiot | exact Hbt].
Defined.






(** ** The frames of the commands of command.py *)

Lemma build_packet_frame_of (opcode : Z) (data : list Z) :
  is_byte opcode -> Forall is_byte data -> (length data <= 17)%nat ->
  build_packet opcode data = Ok (frame_of opcode data).
Proof.
  intros Hop Hdata Hlen. unfold build_packet, frame_of.
  assert (Hhead : Forall is_byte [0x33; opcode]).
  { apply Forall_cons_2; [unfold is_byte; lia |].
    apply Forall_cons_2; [exact Hop | constructor]. }
  rewrite (bytes_in_range _ Hhead), (bytes_in_range data Hdata).
  rewrite length_app. simpl (length [_; _]).
  replace (19 - (2 + length data))%nat with (17 - length data)%nat by lia.
  set (body := [0x33; opcode] ++ data ++ replicate (17 - length data) 0).
  change (([0x33; opcode] ++ data) ++ replicate (17 - length data) 0) with body.
  rewrite land_byte; [reflexivity |].
  apply xor_bytes_byte; [unfold is_byte; lia |].
  unfold body. apply Forall_app_2; [exact Hhead |].
  apply Forall_app_2; [exact Hdata |].
  apply Forall_replicate. unfold is_byte. lia.
Qed.

Lemma frame_of_length (opcode : Z) (data : list Z) :
  (length data <= 17)%nat -> length (frame_of opcode data) = 20%nat.
Proof.
  intros H. unfold frame_of. rewrite !length_app, length_replicate. simpl. lia.
Qed.

Lemma bytes_out_of_range (l : list Z) :
  ~ Forall is_byte l -> bytes l = Raise ValueError.
Proof.
  intros H. unfold bytes.
  destruct (forallb _ l) eqn:E; [| reflexivity].
  exfalso. apply H. apply Forall_forall. intros b Hb.
  rewrite forallb_forall in E. specialize (E b (proj1 (list_elem_of_In _ _) Hb)).
  apply andb_prop in E. destruct E as [E1 E2].
  apply Z.leb_le in E1. apply Z.ltb_lt in E2. split; assumption.
Qed.

Lemma land_255_byte (v : Z) : is_byte (Z.land v 255).
Proof.
  change 255 with (Z.ones 8). rewrite Z.land_ones by lia.
  unfold is_byte. pose proof (Z.mod_pos_bound v (2 ^ 8)). lia.
Qed.

(** X6.  Of the commands of command.py only the status request has no
    radio encoding.  The payload of the others has at most 8 bytes, so
    the length test of the radio path never fires for them, and their
    opcode is a byte.  A power or brightness command, and a colour
    command whose components are bytes, always has a frame of 20 bytes;
    a colour command with a component outside 0..255 makes the
    construction of the frame raise ValueError. *)
Theorem command_frames (c : Command) :
  (get_bt_payload c = None <-> c = StatusCommand) /\
  forall opcode data, get_bt_payload c = Some (opcode, data) ->
    is_byte opcode /\ (length data <= 8)%nat /\
    (byte_components c ->
       build_packet opcode data = Ok (frame_of opcode data) /\
       length (frame_of opcode data) = 20%nat) /\
    (~ byte_components c -> build_packet opcode data = Raise ValueError).
Proof.
  split.
  - destruct c; simpl; split; intros H; try discriminate; reflexivity.
  - intros opcode data Hp.
    assert (Hshape : is_byte opcode /\ (length data <= 8)%nat).
    { destruct c; simpl in Hp; try discriminate; injection Hp as <- <-;
        simpl; unfold is_byte; split; lia. }
    destruct Hshape as [Hop Hlen].
    split; [exact Hop |]. split; [exact Hlen |].
    split.
    + intros Hbytes.
      split; [| apply frame_of_length; lia].
      apply build_packet_frame_of; [exact Hop | | lia].
      destruct c; simpl in Hp, Hbytes; try discriminate; injection Hp as <- <-.
      * apply Forall_cons_2; [destruct val; unfold is_byte; lia | constructor].
      * destruct Hbytes as (Hr & Hg & Hb).
        repeat (apply Forall_cons_2; [first [assumption | unfold is_byte; lia] |]).
        constructor.
      * destruct Hbytes as (Hr & Hg & Hb).
        repeat (apply Forall_cons_2; [first [assumption | unfold is_byte; lia] |]).
        constructor.
      * apply Forall_cons_2; [apply land_255_byte | constructor].
    + intros Hbad. unfold build_packet.
      rewrite (bytes_in_range [0x33; opcode])
        by (apply Forall_cons_2; [unfold is_byte; lia |];
            apply Forall_cons_2; [exact Hop | constructor]).
      rewrite bytes_out_of_range; [reflexivity |].
      intros Hall. apply Hbad.
      destruct c; simpl in Hp |- *; try discriminate; try exact I;
        injection Hp as <- <-;
        repeat match goal with
               | H : Forall _ (_ :: _) |- _ => apply Forall_cons_1 in H; destruct H
               end; auto.
Qed.

(** The frame that switches a device on. *)
Example frame_of_turn_on :
  frame_of 0x01 [0x01]
  = [0x33; 0x01; 0x01; 0; 0; 0; 0; 0; 0; 0; 0; 0; 0; 0; 0; 0; 0; 0; 0; 0x33].
Proof. reflexivity. Qed.

Lemma command_frames_witness :
  build_packet 0x04 [Z.land 300 0xFF] = Ok (frame_of 0x04 [44]) /\
  build_packet 0x05 [0x02; 0xff; 0xff; 0xff; 0x01; 300; 0; 0] = Raise ValueError.
Proof.
  split.
  - destruct (command_frames (BrightnessCommand 300)) as [_ H].
    destruct (H 0x04 [Z.land 300 0xFF] eq_refl) as (_ & _ & Hok & _).
    exact (proj1 (Hok I)).
  - destruct (command_frames (ColorCommand 300 0 0)) as [_ H].
    destruct (H 0x05 _ eq_refl) as (_ & _ & _ & Hbad).
    apply Hbad. simpl. unfold is_byte. intros [[_ Hr] _]. lia.
Defined.

(** ** The radio path *)

(** Bringing a history to the form [trace g ++ [e1; ...; en]]. *)
Ltac norm_trace :=
  cbn [trace set_trace set_devices set_bluetooth_connections];
  rewrite <- ?app_assoc;
  repeat match goal with
         | |- context [(?x :: ?l) ++ ?m] =>
             change ((x :: l) ++ m) with (x :: (l ++ m))
         | |- context [[] ++ ?m] => change ([] ++ m) with m
         end.

Lemma bt_connect_retry_all_fail (env : Env) (id address : string) (n : nat) (g : Govee) :
  (forall t, bt_connect env t address = None) ->
  bt_connect_retry env id address n g
  = (Ok None, set_trace (trace g ++ replicate n (EvBtConnect address)) g).
Proof.
  intros Hfail. revert g. induction n as [| n IH]; intros g.
  - simpl. unfold ret. rewrite app_nil_r. destruct g; reflexivity.
  - simpl. run. rewrite Hfail. rewrite IH.
    destruct g; simpl. rewrite <- app_assoc. reflexivity.
Qed.

Lemma init_bluetooth_running (env : Env) (g : Govee) :
  bluetooth_running g = Some true ->
  __init_bluetooth_if_required env g = (Ok true, g).
Proof.
  intros Hrun. unfold __init_bluetooth_if_required. run. rewrite Hrun. reflexivity.
Qed.

(** X7.  With the adapter running, a payload that fits and no pooled
    connection, when every connect attempt fails the method makes
    exactly 10 attempts, reports one error and returns: nothing is
    written, and the devices, among them the flag BT_CONNECTED, and the
    pool are as before. *)
Theorem radio_connect_exhausted {C} `{AbstractCommand C}
    (env : Env) (id : string) (command : C) (g : Govee) (d : Device)
    (opcode : Z) (data : list Z) :
  lookup_device id (devices g) = Some d ->
  bluetooth_running g = Some true ->
  get_bt_payload command = Some (opcode, data) ->
  (length data <= 17)%nat ->
  bluetooth_connections g !! GoveeDevice._bt_address d = None ->
  (forall t, bt_connect env t (GoveeDevice._bt_address d) = None) ->
  __publish_bt_payload env id command g
  = (Ok tt,
     set_trace
       (trace g ++ EvAttempt Radio id
          :: replicate 10 (EvBtConnect (GoveeDevice._bt_address d))
          ++ [EvError (Some id) "Unable to connect to device via Bluetooth"]) g).
Proof.
  intros Hd Hrun Hp Hlen Hpool Hfail.
  unfold __publish_bt_payload. run.
  rewrite (init_bluetooth_running env
             (set_trace (trace g ++ [EvAttempt Radio id]) g) Hrun).
  cbn [negb]. rewrite Hp.
  assert (Hfit : (17 <? length data)%nat = false) by (apply Nat.ltb_ge; lia).
  rewrite Hfit.
  rewrite (device_attr_present id GoveeDevice._bt_address _ d) by exact Hd.
  cbn [bluetooth_connections set_trace]. rewrite Hpool.
  rewrite (bt_connect_retry_all_fail env id _ 10 _ Hfail).
  destruct g; simpl. rewrite <- !app_assoc. reflexivity.
Qed.

Lemma radio_connect_exhausted_witness :
  let g := client [(strip_id, strip ConnectionStatus.OFFLINE None)] in
  __publish_bt_payload unreachable_env strip_id (TurnCommand true) g
  = (Ok tt,
     set_trace (EvAttempt Radio strip_id
                  :: replicate 10 (EvBtConnect strip_address)
                  ++ [EvError (Some strip_id) "Unable to connect to device via Bluetooth"]) g).
Proof.
  intros g.
  apply (radio_connect_exhausted unreachable_env strip_id (TurnCommand true) g
           (strip ConnectionStatus.OFFLINE None) 0x01 [0x01]);
    try reflexivity.
  simpl. lia.
Defined.

(** X8.  With the adapter running and a connection pooled for the
    device's address, a command whose frame can be built is written on
    that connection without a connect; when the write succeeds nothing
    else happens: the client is as before but for the two events. *)
Theorem radio_write_on_pooled_connection {C} `{AbstractCommand C}
    (env : Env) (id : string) (command : C) (g : Govee) (d : Device)
    (opcode : Z) (data packet : list Z) (bt : nat) :
  lookup_device id (devices g) = Some d ->
  bluetooth_running g = Some true ->
  get_bt_payload command = Some (opcode, data) ->
  (length data <= 17)%nat ->
  build_packet opcode data = Ok packet ->
  bluetooth_connections g !! GoveeDevice._bt_address d = Some bt ->
  bt_char_write env (trace g ++ [EvAttempt Radio id; EvBtWrite bt packet]) = true ->
  __publish_bt_payload env id command g
  = (Ok tt, set_trace (trace g ++ [EvAttempt Radio id; EvBtWrite bt packet]) g).
Proof.
  intros Hd Hrun Hp Hlen Hpacket Hpool Hwrite.
  unfold __publish_bt_payload. run.
  rewrite (init_bluetooth_running env
             (set_trace (trace g ++ [EvAttempt Radio id]) g) Hrun).
  cbn [negb]. rewrite Hp.
  assert (Hfit : (17 <? length data)%nat = false) by (apply Nat.ltb_ge; lia).
  rewrite Hfit.
  rewrite (device_attr_present id GoveeDevice._bt_address _ d) by exact Hd.
  cbn [bluetooth_connections set_trace]. rewrite Hpool.
  unfold lift_result. rewrite Hpacket.
  norm_trace. rewrite Hwrite.
  destruct g; reflexivity.
Qed.

Lemma radio_write_on_pooled_connection_witness :
  let g := set_bluetooth_connections {[ strip_address := 7%nat ]}
             (client [(strip_id, strip ConnectionStatus.BT_CONNECTED None)]) in
  __publish_bt_payload quiet_env strip_id (BrightnessCommand 128) g
  = (Ok tt, set_trace [EvAttempt Radio strip_id;
                       EvBtWrite 7 (frame_of 0x04 [128])] g).
Proof.
  intros g.
  apply (radio_write_on_pooled_connection quiet_env strip_id (BrightnessCommand 128) g
           (strip ConnectionStatus.BT_CONNECTED None) 0x04 [128]);
    try reflexivity.
  simpl. lia.
Defined.

(** X9.  In the same situation, when the write raises, the method still
    returns; it reports the error, removes the flag BT_CONNECTED from
    the device, fires an update event exactly when that removal says the
    status changed, and disconnects; the connection stays in the pool. *)
Theorem radio_write_failure {C} `{AbstractCommand C}
    (env : Env) (id : string) (command : C) (g : Govee) (d : Device)
    (opcode : Z) (data packet : list Z) (bt : nat) :
  lookup_device id (devices g) = Some d ->
  bluetooth_running g = Some true ->
  get_bt_payload command = Some (opcode, data) ->
  (length data <= 17)%nat ->
  build_packet opcode data = Ok packet ->
  bluetooth_connections g !! GoveeDevice._bt_address d = Some bt ->
  bt_char_write env (trace g ++ [EvAttempt Radio id; EvBtWrite bt packet]) = false ->
  let removal := GoveeDevice.remove_status (connection_status d)
                   ConnectionStatus.BT_CONNECTED in
  let r := __publish_bt_payload env id command g in
  r.1 = Ok tt /\
  trace r.2 = trace g
    ++ [EvAttempt Radio id; EvBtWrite bt packet;
        EvError (Some id) "Unable to send data via Bluetooth"]
    ++ (if removal.2 then [EvDeviceUpdate id None] else [])
    ++ [EvBtDisconnect bt] /\
  devices r.2 = store_device id (set_connection_status removal.1 d) (devices g) /\
  bluetooth_connections r.2 = bluetooth_connections g.
Proof.
  intros Hd Hrun Hp Hlen Hpacket Hpool Hwrite removal r. subst r.
  unfold __publish_bt_payload. run.
  rewrite (init_bluetooth_running env
             (set_trace (trace g ++ [EvAttempt Radio id]) g) Hrun).
  cbn [negb]. rewrite Hp.
  assert (Hfit : (17 <? length data)%nat = false) by (apply Nat.ltb_ge; lia).
  rewrite Hfit.
  rewrite (device_attr_present id GoveeDevice._bt_address _ d) by exact Hd.
  cbn [bluetooth_connections set_trace]. rewrite Hpool.
  unfold lift_result. rewrite Hpacket.
  norm_trace. rewrite Hwrite.
  rewrite (with_device_present id _ _ d) by exact Hd.
  rewrite remove_connection_status_eq. cbn [fst snd]. fold removal.
  destruct (removal.2); simpl; rewrite <- !app_assoc; simpl; auto.
Qed.

Lemma radio_write_failure_witness :
  let g := set_bluetooth_connections {[ strip_address := 7%nat ]}
             (client [(strip_id, strip ConnectionStatus.BT_CONNECTED None)]) in
  let r := __publish_bt_payload lossy_env strip_id (TurnCommand false) g in
  r.1 = Ok tt /\
  devices r.2 = [(strip_id, strip ConnectionStatus.OFFLINE None)] /\
  bluetooth_connections r.2 !! strip_address = Some 7%nat.
Proof.
  intros g r.
  destruct (radio_write_failure lossy_env strip_id (TurnCommand false) g
              (strip ConnectionStatus.BT_CONNECTED None) 0x01 [0x00]
              (frame_of 0x01 [0x00]) 7%nat)
    as (Hr & _ & Hdev & Hpool); try reflexivity.
  - simpl. lia.
  - split; [exact Hr |]. split.
    + etransitivity; [exact Hdev | reflexivity].
    + etransitivity;
        [exact (f_equal (fun m : gmap string nat => m !! strip_address) Hpool)
        | reflexivity].
Defined.

(** X10.  With the adapter running, a frame that can be built and no
    pooled connection, when the first connect succeeds the connection is
    put into the pool under the device's address, the device gets the
    flag BT_CONNECTED and an update event is fired, and the frame is
    written on the new connection. *)
Theorem radio_first_connect {C} `{AbstractCommand C}
    (env : Env) (id : string) (command : C) (g : Govee) (d : Device)
    (opcode : Z) (data packet : list Z) (bt : nat) :
  lookup_device id (devices g) = Some d ->
  bluetooth_running g = Some true ->
  get_bt_payload command = Some (opcode, data) ->
  (length data <= 17)%nat ->
  build_packet opcode data = Ok packet ->
  let address := GoveeDevice._bt_address d in
  bluetooth_connections g !! address = None ->
  bt_connect env (trace g ++ [EvAttempt Radio id; EvBtConnect address]) address
    = Some bt ->
  let events := [EvAttempt Radio id; EvBtConnect address;
                 EvDeviceUpdate id None; EvBtWrite bt packet] in
  bt_char_write env (trace g ++ events) = true ->
  __publish_bt_payload env id command g
  = (Ok tt,
     set_trace (trace g ++ events)
       (set_devices
          (store_device id
             (set_connection_status
                (GoveeDevice.add_status (connection_status d)
                   ConnectionStatus.BT_CONNECTED).1 d) (devices g))
          (set_bluetooth_connections (<[address := bt]> (bluetooth_connections g)) g))).
Proof.
  intros Hd Hrun Hp Hlen Hpacket address Hpool Hconnect events Hwrite.
  unfold __publish_bt_payload. run.
  rewrite (init_bluetooth_running env
             (set_trace (trace g ++ [EvAttempt Radio id]) g) Hrun).
  cbn [negb]. rewrite Hp.
  assert (Hfit : (17 <? length data)%nat = false) by (apply Nat.ltb_ge; lia).
  rewrite Hfit.
  rewrite (device_attr_present id GoveeDevice._bt_address _ d) by exact Hd.
  fold address.
  cbn [bluetooth_connections set_trace]. rewrite Hpool.
  simpl bt_connect_retry. run.
  norm_trace. rewrite Hconnect.
  rewrite (with_device_present id _ _ d) by exact Hd.
  rewrite add_connection_status_eq. cbn [fst snd].
  rewrite (add_status_connected_returns_true _ ConnectionStatus.BT_CONNECTED)
    by discriminate.
  unfold lift_result. rewrite Hpacket.
  norm_trace. fold events. rewrite Hwrite.
  destruct g; reflexivity.
Qed.

Lemma radio_first_connect_witness :
  let g := client [(strip_id, strip ConnectionStatus.OFFLINE None)] in
  let r := __publish_bt_payload quiet_env strip_id (TurnCommand true) g in
  r.1 = Ok tt /\
  bluetooth_connections r.2 !! strip_address = Some 0%nat /\
  devices r.2 = [(strip_id, strip ConnectionStatus.BT_CONNECTED None)] /\
  trace r.2 = [EvAttempt Radio strip_id; EvBtConnect strip_address;
               EvDeviceUpdate strip_id None; EvBtWrite 0 (frame_of 0x01 [0x01])].
Proof.
  intros g r.
  assert (Hr : r = __publish_bt_payload quiet_env strip_id (TurnCommand true) g)
    by reflexivity.
  rewrite (radio_first_connect quiet_env strip_id (TurnCommand true) g
             (strip ConnectionStatus.OFFLINE None) 0x01 [0x01]
             (frame_of 0x01 [0x01]) 0%nat) in Hr; try reflexivity.
  - rewrite Hr. repeat split; reflexivity.
  - simpl. lia.
Defined.

(** ** The broker path *)

(** X11.  For a device that takes the broker, with a broker session on
    which the publish succeeds, a command is published once on the
    device's topic with the broker encoding of the command; the radio
    transport is not entered and the client is as before but for the
    two events. *)
Theorem dispatch_over_broker {C} `{AbstractCommand C}
    (env : Env) (id : string) (command : C) (g : Govee) (d : Device) (session : nat) :
  lookup_device id (devices g) = Some d ->
  takes_broker d command = true ->
  mqtt_connection g = Some session ->
  let events := [EvAttempt Broker id;
                 EvMqttPublish session (topic d)
                   (get_iot_payload command).1 (get_iot_payload command).2] in
  mqtt_publish env (trace g ++ events) = true ->
  _publish_command env id command g = (Ok tt, set_trace (trace g ++ events) g).
Proof.
  intros Hd Hbroker Hsession events Hpublish.
  unfold _publish_command. run.
  rewrite (device_attr_present id iot_device g d Hd).
  rewrite (device_attr_present id connection_status g d Hd).
  fold (takes_broker d command). rewrite Hbroker.
  unfold __publish_iot_payload. run.
  rewrite (device_attr_present id topic _ d) by exact Hd.
  cbn [mqtt_connection set_trace]. rewrite Hsession.
  norm_trace. fold events. rewrite Hpublish. cbn [negb].
  destruct g; reflexivity.
Qed.

Lemma dispatch_over_broker_witness :
  let g := client [(strip_id, strip ConnectionStatus.IOT_CONNECTED None)] in
  _publish_command quiet_env strip_id (BrightnessCommand 128) g
  = (Ok tt,
     set_trace [EvAttempt Broker strip_id;
                EvMqttPublish 0 "GD/123467890123467890123467890" "brightness"
                  (JObj {[ "val" := JInt 128 ]})] g).
Proof.
  intros g.
  exact (dispatch_over_broker quiet_env strip_id (BrightnessCommand 128) g
           (strip ConnectionStatus.IOT_CONNECTED None) 0%nat
           eq_refl eq_refl eq_refl eq_refl).
Defined.

(** X12.  When the client has no broker session, or the publish raises,
    the broker attempt returns false after it has reported the error
    and removed the flag IOT_CONNECTED from the device, with an update
    event exactly when that removal says the status changed; without a
    session nothing is published. *)
Theorem broker_publish_failure {C} `{AbstractCommand C}
    (env : Env) (id : string) (command : C) (g : Govee) (d : Device) :
  lookup_device id (devices g) = Some d ->
  let publish :=
    match mqtt_connection g with
    | Some session =>
        [EvMqttPublish session (topic d)
           (get_iot_payload command).1 (get_iot_payload command).2]
    | None => []
    end in
  (mqtt_connection g = None \/
   mqtt_publish env (trace g ++ EvAttempt Broker id :: publish) = false) ->
  let removal := GoveeDevice.remove_status (connection_status d)
                   ConnectionStatus.IOT_CONNECTED in
  let r := __publish_iot_payload env id command g in
  r.1 = Ok false /\
  trace r.2 = trace g ++ EvAttempt Broker id :: publish
    ++ [EvError (Some id) "Unable to send data via MQTT"]
    ++ (if removal.2 then [EvDeviceUpdate id None] else []) /\
  devices r.2 = store_device id (set_connection_status removal.1 d) (devices g) /\
  has_flag removal.1 ConnectionStatus.IOT_CONNECTED = false.
Proof.
  intros Hd publish Hfail removal r. subst r.
  assert (Hcleared : has_flag removal.1 ConnectionStatus.IOT_CONNECTED = false).
  { unfold has_flag, removal. rewrite remove_iot_cleared. reflexivity. }
  unfold __publish_iot_payload. run.
  rewrite (device_attr_present id topic _ d) by exact Hd.
  cbn [mqtt_connection set_trace].
  destruct (mqtt_connection g) as [session |] eqn:Hsession.
  - destruct Hfail as [Hf | Hf]; [discriminate |].
    norm_trace. unfold publish in Hf. rewrite Hf.
    rewrite (with_device_present id _ _ d) by exact Hd.
    rewrite remove_connection_status_eq. cbn [fst snd]. fold removal.
    destruct (removal.2); simpl; rewrite <- ?app_assoc; simpl; auto.
  - rewrite (with_device_present id _ _ d) by exact Hd.
    rewrite remove_connection_status_eq. cbn [fst snd]. fold removal.
    destruct (removal.2); simpl; rewrite <- ?app_assoc; simpl; auto.
Qed.

Lemma broker_publish_failure_witness :
  let g := client [(strip_id, strip ConnectionStatus.IOT_CONNECTED None)] in
  let r := __publish_iot_payload lossy_env strip_id StatusCommand g in
  r.1 = Ok false /\
  devices r.2 = [(strip_id, strip ConnectionStatus.OFFLINE None)].
Proof.
  intros g r.
  destruct (broker_publish_failure lossy_env strip_id StatusCommand g
              (strip ConnectionStatus.IOT_CONNECTED None) eq_refl
              (or_intror eq_refl))
    as (Hr & _ & Hdev & _).
  split; [exact Hr |]. etransitivity; [exact Hdev | reflexivity].
Defined.

(** ** Logging in *)

Lemma token_is_valid_eq (env : Env) (g : Govee) :
  __token_is_valid env g = (Ok (token_ok env g), g).
Proof.
  unfold __token_is_valid, token_ok. run.
  destruct (login_token g) as [token |]; [| reflexivity].
  destruct (String.eqb token "" || (String.length token <? 10)%nat); reflexivity.
Qed.

Lemma login_skipped (env : Env) (g : Govee) :
  login_required env g = false ->
  __login_if_required env g = (Ok true, g).
Proof.
  intros Hreq. unfold __login_if_required. run.
  rewrite token_is_valid_eq. fold (login_required env g). rewrite Hreq.
  reflexivity.
Qed.

(** X13.  When the token is still valid and the certificate and the
    topic are known, [__login_if_required] returns True and does
    nothing: no request, no reset of the broker session, no event, and
    the client is as before; [login] then returns and leaves the client
    as it was too. *)
Theorem login_not_required (env : Env) (g : Govee) :
  login_required env g = false ->
  __login_if_required env g = (Ok true, g) /\
  login env g = (Ok tt, g).
Proof.
  intros Hreq. pose proof (login_skipped env g Hreq) as Hskip.
  split; [exact Hskip |].
  unfold login. rewrite (bind_Ok _ _ _ _ _ Hskip). reflexivity.
Qed.

Lemma login_not_required_witness :
  let g := client [(strip_id, strip ConnectionStatus.IOT_CONNECTED (Some true))] in
  login_required quiet_env g = false /\
  __login_if_required quiet_env g = (Ok true, g).
Proof.
  intros g. split; [reflexivity |].
  apply (login_not_required quiet_env g). reflexivity.
Defined.

(** X14.  When a login is required and the service answers with a
    status other than 200, or the request raises, the exception reaches
    the caller and only the request is recorded: the token, the broker
    session and the devices are as before. *)
Theorem login_rejected (env : Env) (g : Govee) :
  login_required env g = true ->
  let g1 := set_trace (trace g ++ [EvHttpPost login_path]) g in
  (forall res, http_login env (trace g1) = Ok res -> login_status res <> 200 ->
     __login_if_required env g
     = (Raise (GoveeException "Govee answered with login status"), g1)) /\
  (forall e, http_login env (trace g1) = Raise e ->
     __login_if_required env g = (Raise e, g1)).
Proof.
  intros Hreq g1. unfold __login_if_required. run.
  rewrite token_is_valid_eq. fold (login_required env g). rewrite Hreq.
  unfold lift_result, raise. split.
  - intros res Hres Hstatus. fold login_path. fold g1. rewrite Hres.
    apply Z.eqb_neq in Hstatus. rewrite Hstatus. reflexivity.
  - intros e Hres. fold login_path. fold g1. rewrite Hres. reflexivity.
Qed.

Lemma login_rejected_witness :
  login_required rejecting_env expired_client = true /\
  __login_if_required rejecting_env expired_client
  = (Raise (GoveeException "Govee answered with login status"),
     set_trace [EvHttpPost login_path] expired_client).
Proof.
  assert (Hreq : login_required rejecting_env expired_client = true) by reflexivity.
  split; [exact Hreq |].
  destruct (login_rejected rejecting_env expired_client Hreq) as [Hstatus _].
  apply (Hstatus (mkLoginResponse 401 "" "" "")); [reflexivity | discriminate].
Defined.

Lemma mqtt_reconnect_accepted (env : Env) (g : Govee) :
  (forall t, mqtt_connect env t = true) ->
  (forall t, mqtt_subscribe env t = true) ->
  well_formed (devices g) ->
  let session := mqtt_sessions g in
  mqtt_reconnect env g
  = (Ok tt,
     set_trace
       (trace g ++ disconnect_events g ++ update_events (devices g)
          ++ [EvMqttConfigure session; EvMqttConnect session;
              EvMqttSubscribe session (default "" (mqtt_topic g))])
       (set_mqtt_connection (Some session) (S session)
          (set_devices (clear_all (devices g)) g))).
Proof.
  intros Hconnect Hsubscribe [Hnodup Hstatus] session.
  unfold mqtt_reconnect. run.
  change (fun id : string => _) with clear_and_notify.
  set (g0 := match mqtt_connection g with
             | Some old => set_trace (trace g ++ [EvMqttDisconnect old]) g
             | None => g
             end).
  assert (Hg0 : g0 = set_trace (trace g ++ disconnect_events g) g).
  { unfold g0, disconnect_events. destruct (mqtt_connection g); [reflexivity |].
    rewrite app_nil_r. destruct g; reflexivity. }
  replace (match mqtt_connection g with
           | Some old => _
           | None => _
           end g) with (Ok tt, g0)
    by (unfold g0; destruct (mqtt_connection g); reflexivity).
  cbv beta iota.
  rewrite (clear_flags_loop (devices g) [] g0)
    by (rewrite ?Hg0; first [reflexivity | assumption]).
  cbv beta iota. rewrite Hconnect. cbv beta iota. rewrite Hsubscribe.
  rewrite Hg0. destruct g; simpl. rewrite <- !app_assoc. reflexivity.
Qed.

(** X15.  When a login is required and the environment accepts it with
    an answer the client can work with, [__login_if_required] returns
    True with the token, the certificate and the topic of the answer
    stored, a new broker session in place of the old one and the flag
    IOT_CONNECTED removed from every device; a second call right after
    it does nothing. *)
Theorem login_accepted (env : Env) (g : Govee) (res : LoginResponse) :
  login_required env g = true ->
  accepts_login env res -> usable_login res ->
  well_formed (devices g) ->
  let r := __login_if_required env g in
  r.1 = Ok true /\
  login_token r.2 = Some (client_token res) /\
  mqtt_cert_file r.2 = Some (client_A res) /\
  mqtt_topic r.2 = Some (client_topic res) /\
  mqtt_connection r.2 = Some (mqtt_sessions g) /\
  devices r.2 = clear_all (devices g) /\
  __login_if_required env r.2 = (Ok true, r.2).
Proof.
  intros Hreq (Hhttp & Hjwt & Hcert & Hconnect & Hsubscribe)
         (Hstatus & Hlen & HA & Htopic) Hwf r.
  assert (Htoken : forall g', login_token g' = Some (client_token res) ->
                     token_ok env g' = true).
  { intros g' Hg'. unfold token_ok. rewrite Hg'.
    destruct (String.eqb_spec (client_token res) "") as [E | _].
    - rewrite E in Hlen. simpl in Hlen. lia.
    - apply Nat.ltb_ge in Hlen. rewrite Hlen. simpl. apply Hjwt. }
  assert (Hrun : exists g', __login_if_required env g = (Ok true, g') /\
            login_token g' = Some (client_token res) /\
            mqtt_cert_file g' = Some (client_A res) /\
            mqtt_topic g' = Some (client_topic res) /\
            mqtt_connection g' = Some (mqtt_sessions g) /\
            devices g' = clear_all (devices g)).
  { unfold __login_if_required. run.
    rewrite token_is_valid_eq. fold (login_required env g). rewrite Hreq.
    rewrite Hhttp. unfold lift_result. rewrite Hstatus. cbn [Z.eqb Pos.eqb].
    rewrite token_is_valid_eq. rewrite Htoken by reflexivity.
    rewrite Hcert. apply String.eqb_neq in HA. rewrite HA. cbn [orb negb].
    rewrite mqtt_reconnect_accepted by assumption.
    eexists. split; [reflexivity |]. repeat split; reflexivity. }
  destruct Hrun as (g' & Hrun & Htok & Hc & Ht & Hs & Hd).
  subst r. rewrite Hrun. cbn [fst snd].
  repeat (split; [assumption || reflexivity |]).
  apply login_skipped. unfold login_required.
  rewrite (Htoken g' Htok), Hc, Ht. simpl.
  apply String.eqb_neq in HA. apply String.eqb_neq in Htopic.
  rewrite HA, Htopic. reflexivity.
Qed.

Lemma login_accepted_witness :
  let r := __login_if_required quiet_env expired_client in
  login_required quiet_env expired_client = true /\
  r.1 = Ok true /\
  devices r.2 = [(strip_id, strip ConnectionStatus.OFFLINE None)] /\
  mqtt_connection r.2 = Some 1%nat /\
  __login_if_required quiet_env r.2 = (Ok true, r.2).
Proof.
  intros r.
  assert (Hreq : login_required quiet_env expired_client = true) by reflexivity.
  assert (Haccepts : accepts_login quiet_env quiet_login).
  { repeat split; intros; reflexivity. }
  assert (Husable : usable_login quiet_login).
  { repeat split; try discriminate. simpl. lia. }
  assert (Hwf : well_formed (devices expired_client)).
  { split.
    - simpl. apply NoDup_singleton.
    - simpl. constructor; [vm_compute; split; discriminate | constructor]. }
  destruct (login_accepted quiet_env expired_client quiet_login
              Hreq Haccepts Husable Hwf)
    as (Hr & _ & _ & _ & Hsession & Hdev & Hagain).
  split; [exact Hreq |]. split; [exact Hr |].
  split; [etransitivity; [exact Hdev | reflexivity] |].
  split; [exact Hsession | exact Hagain].
Defined.

(** ** How the methods move the dictionary of devices *)

Section DevSteps.

Variable R : list (string * Device) -> list (string * Device) -> Prop.
Hypothesis R_refl : forall l, R l l.
Hypothesis R_trans : forall l1 l2 l3, R l1 l2 -> R l2 l3 -> R l1 l3.

Lemma devsteps_same {A} (m : M Govee A) :
  (forall g, devices (m g).2 = devices g) -> devsteps R m.
Proof. intros H g. rewrite H. apply R_refl. Qed.

Lemma devsteps_ret {A} (a : A) : devsteps R (ret a).
Proof. apply devsteps_same. reflexivity. Qed.

Lemma devsteps_raise {A} (e : exn) : devsteps R (raise (A := A) e).
Proof. apply devsteps_same. reflexivity. Qed.

Lemma devsteps_lift_result {A} (r : result A) : devsteps R (lift_result r).
Proof. apply devsteps_same. reflexivity. Qed.

Lemma devsteps_get : devsteps R get.
Proof. apply devsteps_same. reflexivity. Qed.

Lemma devsteps_ask {A} (f : list event -> A) : devsteps R (ask f).
Proof. apply devsteps_same. reflexivity. Qed.

Lemma devsteps_emit (e : event) : devsteps R (emit e).
Proof. apply devsteps_same. reflexivity. Qed.

Lemma devsteps_modify (f : Govee -> Govee) :
  (forall g, devices (f g) = devices g) -> devsteps R (modify f).
Proof. intros H. apply devsteps_same. exact H. Qed.

Lemma devsteps_bind {A B} (m : M Govee A) (k : A -> M Govee B) :
  devsteps R m -> (forall a, devsteps R (k a)) -> devsteps R (bind m k).
Proof.
  intros Hm Hk g. unfold bind. specialize (Hm g).
  destruct (m g) as [[a | e] g1]; simpl in *; [| exact Hm].
  eapply R_trans; [exact Hm | apply Hk].
Qed.

Lemma devsteps_call {A} (e : event) (f : list event -> A) : devsteps R (call e f).
Proof.
  unfold call. apply devsteps_bind; [apply devsteps_emit | intros _; apply devsteps_ask].
Qed.

Lemma devsteps_for_each {A} (l : list A) (body : A -> M Govee unit) :
  (forall x, devsteps R (body x)) -> devsteps R (for_each l body).
Proof.
  intros H. induction l as [| x l IH]; simpl; [apply devsteps_ret |].
  apply devsteps_bind; [apply H | intros _; exact IH].
Qed.

Lemma devsteps_with_device {A} (id : string) (m : M Device A) :
  (forall l d, lookup_device id l = Some d -> R l (store_device id (m d).2 l)) ->
  devsteps R (with_device id m).
Proof.
  intros H g. unfold with_device.
  destruct (lookup_device id (devices g)) as [d |] eqn:Hd; [| apply R_refl].
  specialize (H _ _ Hd). destruct (m d); exact H.
Qed.

Lemma devsteps_device_attr {A} (id : string) (f : Device -> A) :
  devsteps R (device_attr id f).
Proof.
  apply devsteps_with_device. intros l d Hd. simpl.
  rewrite (store_device_same _ _ _ Hd). apply R_refl.
Qed.

End DevSteps.

(** One step in the proof that a method moves the dictionary along a
    relation; [status] proves it for the methods run on one device. *)
Ltac devsteps_step refl trans status :=
  lazymatch goal with
  | |- devsteps _ (bind _ _) => apply (devsteps_bind _ trans); [| intros ?]
  | |- devsteps _ (ret _) => apply (devsteps_ret _ refl)
  | |- devsteps _ (raise _) => apply (devsteps_raise _ refl)
  | |- devsteps _ (lift_result _) => apply (devsteps_lift_result _ refl)
  | |- devsteps _ get => apply (devsteps_get _ refl)
  | |- devsteps _ (ask _) => apply (devsteps_ask _ refl)
  | |- devsteps _ (emit _) => apply (devsteps_emit _ refl)
  | |- devsteps _ (call _ _) => apply (devsteps_call _ refl trans)
  | |- devsteps _ (modify _) => apply (devsteps_modify _ refl); intros ?; reflexivity
  | |- devsteps _ (device_attr _ _) => apply (devsteps_device_attr _ refl)
  | |- devsteps _ (with_device _ _) => apply (devsteps_with_device _ refl); status
  | |- devsteps _ (update_if_changed _ ?c) => unfold update_if_changed; destruct c
  | |- devsteps _ (match ?x with _ => _ end) => destruct x
  end.

Lemma attributes_frozen_refl (l : list (string * Device)) : attributes_frozen l l.
Proof.
  unfold attributes_frozen. induction l as [| [k d] l IH]; constructor; [| exact IH].
  split; [reflexivity |]. unfold frozen. destruct d; reflexivity.
Qed.

Lemma frozen_trans (d1 d2 d3 : Device) : frozen d1 d2 -> frozen d2 d3 -> frozen d1 d3.
Proof. unfold frozen. intros H12 H23. rewrite H23, H12. reflexivity. Qed.

Lemma attributes_frozen_trans (l1 l2 l3 : list (string * Device)) :
  attributes_frozen l1 l2 -> attributes_frozen l2 l3 -> attributes_frozen l1 l3.
Proof.
  unfold attributes_frozen. intros H12. revert l3.
  induction H12 as [| a b l1 l2 [Hk Hf] _ IH]; intros l3 H23;
    inversion H23 as [| ? c ? l3' [Hk' Hf'] Hrest]; subst; constructor.
  - split; [congruence | eapply frozen_trans; eassumption].
  - apply IH. exact Hrest.
Qed.

Lemma attributes_frozen_store (id : string) (d d' : Device) (l : list (string * Device)) :
  lookup_device id l = Some d -> frozen d d' ->
  attributes_frozen l (store_device id d' l).
Proof.
  intros Hd Hf. induction l as [| [k d0] l IH]; simpl in *; [discriminate |].
  destruct (String.eqb k id).
  - injection Hd as ->. constructor; [split; [reflexivity | exact Hf] |].
    apply attributes_frozen_refl.
  - constructor; [| apply IH; exact Hd].
    split; [reflexivity |]. unfold frozen. destruct d0; reflexivity.
Qed.

Lemma attributes_frozen_add (id : string) (status : Z)
    (l : list (string * Device)) (d : Device) :
  lookup_device id l = Some d ->
  attributes_frozen l (store_device id (GoveeDevice._add_connection_status status d).2 l).
Proof.
  intros Hd. apply (attributes_frozen_store id d _ l Hd).
  rewrite add_connection_status_eq. reflexivity.
Qed.

Lemma attributes_frozen_remove (id : string) (status : Z)
    (l : list (string * Device)) (d : Device) :
  lookup_device id l = Some d ->
  attributes_frozen l (store_device id (GoveeDevice._remove_connection_status status d).2 l).
Proof.
  intros Hd. apply (attributes_frozen_store id d _ l Hd).
  rewrite remove_connection_status_eq. reflexivity.
Qed.

Ltac frozen_status :=
  first [apply attributes_frozen_add | apply attributes_frozen_remove].

Ltac frozen_steps :=
  repeat devsteps_step attributes_frozen_refl attributes_frozen_trans frozen_status.

Lemma init_bluetooth_frozen (env : Env) :
  devsteps attributes_frozen (__init_bluetooth_if_required env).
Proof.
  unfold __init_bluetooth_if_required.
  apply (devsteps_bind _ attributes_frozen_trans);
    [apply (devsteps_get _ attributes_frozen_refl) |].
  intros g. destruct (bluetooth_running g) as [[] |]; frozen_steps.
Qed.

Lemma bt_connect_retry_frozen (env : Env) (id address : string) (fuel : nat) :
  devsteps attributes_frozen (bt_connect_retry env id address fuel).
Proof.
  induction fuel as [| fuel IH]; simpl; [frozen_steps |].
  apply (devsteps_bind _ attributes_frozen_trans);
    [apply (devsteps_call _ attributes_frozen_refl attributes_frozen_trans) |].
  intros [bt |]; [frozen_steps | exact IH].
Qed.

Lemma publish_bt_frozen {C} `{AbstractCommand C} (env : Env) (id : string) (command : C) :
  devsteps attributes_frozen (__publish_bt_payload env id command).
Proof.
  unfold __publish_bt_payload.
  repeat first
    [ apply init_bluetooth_frozen
    | apply bt_connect_retry_frozen
    | devsteps_step attributes_frozen_refl attributes_frozen_trans frozen_status ].
Qed.

Lemma publish_iot_frozen {C} `{AbstractCommand C} (env : Env) (id : string) (command : C) :
  devsteps attributes_frozen (__publish_iot_payload env id command).
Proof. unfold __publish_iot_payload. frozen_steps. Qed.

Lemma publish_command_frozen {C} `{AbstractCommand C} (env : Env) (id : string) (command : C) :
  devsteps attributes_frozen (_publish_command env id command).
Proof.
  unfold _publish_command.
  repeat first
    [ apply publish_iot_frozen
    | apply publish_bt_frozen
    | devsteps_step attributes_frozen_refl attributes_frozen_trans frozen_status ].
Qed.

Lemma mqtt_reconnect_frozen (env : Env) :
  devsteps attributes_frozen (mqtt_reconnect env).
Proof.
  unfold mqtt_reconnect.
  repeat first
    [ apply (devsteps_for_each _ attributes_frozen_refl attributes_frozen_trans); intros ?
    | devsteps_step attributes_frozen_refl attributes_frozen_trans frozen_status ].
Qed.

Lemma token_is_valid_frozen (env : Env) :
  devsteps attributes_frozen (__token_is_valid env).
Proof. unfold __token_is_valid. frozen_steps. Qed.

Lemma login_frozen (env : Env) :
  devsteps attributes_frozen (__login_if_required env).
Proof.
  unfold __login_if_required.
  repeat first
    [ apply token_is_valid_frozen
    | apply mqtt_reconnect_frozen
    | devsteps_step attributes_frozen_refl attributes_frozen_trans frozen_status ].
Qed.

Lemma attributes_frozen_lookup (l l' : list (string * Device)) (id : string) (d : Device) :
  attributes_frozen l l' -> lookup_device id l = Some d ->
  exists d', lookup_device id l' = Some d' /\ frozen d d'.
Proof.
  intros Hf. induction Hf as [| [k a] [k' b] l l' [Hk Hab] _ IH]; simpl; [discriminate |].
  simpl in Hk, Hab. subst k'.
  destruct (String.eqb k id); [intros [= <-]; eauto | exact IH].
Qed.

(** X16.  Dispatching a command, over whichever transport and whatever
    the outcome, and logging in leave every device in the dictionary,
    under its key and in its place, with all its attributes; only the
    connection status of a device can differ afterwards.  In
    particular no command changes the cached power state, brightness,
    colour or colour temperature: only a push does. *)
Theorem commands_keep_attributes {C} `{AbstractCommand C}
    (env : Env) (id : string) (command : C) (g : Govee) :
  attributes_frozen (devices g) (devices (_publish_command env id command g).2) /\
  attributes_frozen (devices g) (devices (__login_if_required env g).2) /\
  forall k d, lookup_device k (devices g) = Some d ->
    exists d', lookup_device k (devices (_publish_command env id command g).2) = Some d' /\
               on d' = on d /\ brightness d' = brightness d /\
               color d' = color d /\ color_temperature d' = color_temperature d.
Proof.
  pose proof (publish_command_frozen env id command g) as Hp.
  split; [exact Hp |]. split; [apply login_frozen |].
  intros k d Hd.
  destruct (attributes_frozen_lookup _ _ k d Hp Hd) as (d' & Hd' & Hf).
  exists d'. split; [exact Hd' |]. unfold frozen in Hf. rewrite Hf.
  repeat split; reflexivity.
Qed.

Lemma commands_keep_attributes_witness :
  let g := client [(strip_id, strip ConnectionStatus.IOT_CONNECTED (Some false))] in
  exists d', lookup_device strip_id
               (devices (_publish_command lossy_env strip_id (TurnCommand true) g).2)
             = Some d' /\ on d' = Some false.
Proof.
  intros g.
  destruct (commands_keep_attributes lossy_env strip_id (TurnCommand true) g)
    as (_ & _ & Hkeep).
  destruct (Hkeep strip_id (strip ConnectionStatus.IOT_CONNECTED (Some false)) eq_refl)
    as (d' & Hd' & Hon & _).
  exists d'. split; [exact Hd' | exact Hon].
Defined.

(** X17.  A power command whose value differs from the cached power
    state is dispatched, and as it leaves the cached state as it is,
    the same command issued again is dispatched again: two identical
    power commands on a device whose cache differs give two
    dispatches, each entering a transport. *)
Theorem repeated_power_command_resent (env : Env) (id : string) (val : bool)
    (g : Govee) (d : Device) :
  lookup_device id (devices g) = Some d -> on d <> Some val ->
  let g1 := (set_power env id val g).2 in
  let g2 := (set_power env id val g1).2 in
  set_power env id val g = _publish_command env id (TurnCommand val) g /\
  set_power env id val g1 = _publish_command env id (TurnCommand val) g1 /\
  exists t1 rest1 t2 rest2,
    trace g2 = trace g ++ EvAttempt t1 id :: rest1 ++ EvAttempt t2 id :: rest2.
Proof.
  intros Hd Hon g1 g2. unfold set_power in *.
  pose proof (turn_not_cached env id val g d Hd Hon) as H1.
  assert (Hd1 : exists d1, lookup_device id (devices g1) = Some d1 /\ on d1 <> Some val).
  { subst g1. rewrite H1.
    destruct (attributes_frozen_lookup _ _ id d
                (publish_command_frozen env id (TurnCommand val) g) Hd)
      as (d1 & Hd1 & Hf).
    exists d1. split; [exact Hd1 |]. unfold frozen in Hf. rewrite Hf. exact Hon. }
  destruct Hd1 as (d1 & Hd1 & Hon1).
  pose proof (turn_not_cached env id val g1 d1 Hd1 Hon1) as H2.
  split; [exact H1 |]. split; [exact H2 |].
  destruct (publish_command_enters env id (TurnCommand val) g d Hd) as (t1 & rest1 & Ht1).
  destruct (publish_command_enters env id (TurnCommand val) g1 d1 Hd1) as (t2 & rest2 & Ht2).
  exists t1, rest1, t2, rest2.
  subst g2. rewrite H2, Ht2. subst g1. rewrite H1, Ht1.
  rewrite <- app_assoc. reflexivity.
Qed.

Lemma repeated_power_command_resent_witness :
  let g := client [(strip_id, strip ConnectionStatus.IOT_CONNECTED (Some false))] in
  let g2 := (bind (set_power quiet_env strip_id true)
                  (fun _ => set_power quiet_env strip_id true) g).2 in
  length (List.filter is_attempt (trace g2)) = 2%nat.
Proof.
  intros g g2.
  destruct (repeated_power_command_resent quiet_env strip_id true g
              (strip ConnectionStatus.IOT_CONNECTED (Some false)) eq_refl)
    as (_ & _ & _); [discriminate |].
  reflexivity.
Defined.

(** ** The invariant of the dictionary of devices *)

Lemma keeps_registry_refl (l : list (string * Device)) : keeps_registry l l.
Proof. intros H. exact H. Qed.

Lemma keeps_registry_trans (l1 l2 l3 : list (string * Device)) :
  keeps_registry l1 l2 -> keeps_registry l2 l3 -> keeps_registry l1 l3.
Proof. unfold keeps_registry. auto. Qed.

Lemma lookup_device_None (id : string) (l : list (string * Device)) :
  lookup_device id l = None <-> ~ In id (map fst l).
Proof.
  induction l as [| [k d] l IH]; simpl; [tauto |].
  destruct (String.eqb_spec k id) as [-> | Hne]; split.
  - discriminate.
  - intros H. exfalso. apply H. left. reflexivity.
  - intros H [Hk | Hin]; [contradiction | apply IH in H; contradiction].
  - intros H. apply IH. intros Hin. apply H. right. exact Hin.
Qed.

Lemma store_device_absent (id : string) (d : Device) (l : list (string * Device)) :
  lookup_device id l = None -> store_device id d l = l ++ [(id, d)].
Proof.
  induction l as [| [k d0] l IH]; simpl; [reflexivity |].
  destruct (String.eqb k id); [discriminate |].
  intros H. rewrite (IH H). reflexivity.
Qed.

Lemma store_device_keys (id : string) (d d' : Device) (l : list (string * Device)) :
  lookup_device id l = Some d -> map fst (store_device id d' l) = map fst l.
Proof.
  induction l as [| [k d0] l IH]; simpl; [discriminate |].
  destruct (String.eqb k id); [reflexivity |].
  intros H. simpl. rewrite (IH H). reflexivity.
Qed.

Lemma store_device_Forall (P : string * Device -> Prop) (id : string) (d : Device)
    (l : list (string * Device)) :
  Forall P l -> P (id, d) -> Forall P (store_device id d l).
Proof.
  intros Hl Hd. induction Hl as [| [k d0] l H0 Hrest IH]; simpl.
  - constructor; [exact Hd | constructor].
  - destruct (String.eqb_spec k id) as [-> | Hne].
    + constructor; assumption.
    + constructor; assumption.
Qed.

Lemma registry_ok_store (id : string) (d : Device) (l : list (string * Device)) :
  registry_ok l -> identifier d = id -> canonical (connection_status d) ->
  registry_ok (store_device id d l).
Proof.
  intros [Hnodup Hall] Hid Hs. split.
  - destruct (lookup_device id l) as [d0 |] eqn:Hd.
    + rewrite (store_device_keys id d0 d l Hd). exact Hnodup.
    + rewrite (store_device_absent id d l Hd), map_app. simpl.
      apply NoDup_app. split; [exact Hnodup |]. split; [| apply NoDup_singleton].
      intros x Hx Hx'. apply list_elem_of_In in Hx.
      apply list_elem_of_In in Hx'. destruct Hx' as [<- | []].
      apply lookup_device_None in Hd. contradiction.
  - apply store_device_Forall; [exact Hall | split; assumption].
Qed.

Lemma registry_ok_lookup (id : string) (d : Device) (l : list (string * Device)) :
  registry_ok l -> lookup_device id l = Some d ->
  identifier d = id /\ canonical (connection_status d).
Proof.
  intros [_ Hall]. induction Hall as [| [k d0] l [Hk Hs] _ IH]; simpl; [discriminate |].
  destruct (String.eqb_spec k id) as [-> | Hne]; [| exact IH].
  intros [= <-]. simpl in *. auto.
Qed.

Lemma keeps_registry_add (id : string) (status : Z) :
  connectivity_flag status ->
  forall l d, lookup_device id l = Some d ->
  keeps_registry l (store_device id (GoveeDevice._add_connection_status status d).2 l).
Proof.
  intros Hflag l d Hd Hok. destruct (registry_ok_lookup id d l Hok Hd) as [Hid Hs].
  rewrite add_connection_status_eq. cbn [snd].
  apply registry_ok_store; [exact Hok | exact Hid |].
  simpl. apply add_status_canonical; assumption.
Qed.

Lemma keeps_registry_remove (id : string) (status : Z) :
  connectivity_flag status ->
  forall l d, lookup_device id l = Some d ->
  keeps_registry l (store_device id (GoveeDevice._remove_connection_status status d).2 l).
Proof.
  intros Hflag l d Hd Hok. destruct (registry_ok_lookup id d l Hok Hd) as [Hid Hs].
  rewrite remove_connection_status_eq. cbn [snd].
  apply registry_ok_store; [exact Hok | exact Hid |].
  simpl. apply remove_status_canonical; assumption.
Qed.

Ltac registry_status :=
  first [ apply keeps_registry_add | apply keeps_registry_remove ];
  first [ left; reflexivity | right; reflexivity ].

Ltac registry_steps :=
  repeat devsteps_step keeps_registry_refl keeps_registry_trans registry_status.

Lemma upsert_device_known (raw : RawDevice) (topic : string) (g : Govee) (d : Device) :
  raw_device raw <> "" -> raw_sku raw <> "" ->
  settings_topic raw = Some topic ->
  lookup_device (raw_device raw) (devices g) = Some d ->
  upsert_device raw g
  = (Ok tt, set_devices (store_device (raw_device raw)
                           (set_name (raw_deviceName raw) d) (devices g)) g).
Proof.
  intros Hid Hsku Htopic Hd. unfold upsert_device.
  apply String.eqb_neq in Hid. apply String.eqb_neq in Hsku.
  rewrite Hid, Hsku, Htopic. cbn [orb].
  rewrite andb_false_r. run. rewrite Hd.
  rewrite (with_device_present _ _ _ d Hd). reflexivity.
Qed.

Lemma upsert_device_new (raw : RawDevice) (topic : string) (f : DeviceFactory) (g : Govee) :
  accepted raw topic f ->
  lookup_device (raw_device raw) (devices g) = None ->
  upsert_device raw g
  = (Ok tt, set_trace (trace g ++ [EvNewDevice (raw_device raw)])
              (set_devices (devices g ++ [(raw_device raw, device_of raw topic f)]) g)).
Proof.
  intros (Hid & Hsku & Htopic & Hf) Hd. unfold upsert_device.
  apply String.eqb_neq in Hid. apply String.eqb_neq in Hsku.
  rewrite Hid, Hsku, Htopic. cbn [orb].
  rewrite andb_false_r. run. rewrite Hd, Hf. run.
  rewrite (store_device_absent _ _ _ Hd). reflexivity.
Qed.


(** X18.  An entry of the device list that is accepted and whose
    identifier is new is appended to the dictionary, under its
    identifier, as the device its factory builds, with one new-device
    event; looking it up gives that device.  The same entry again only
    sets the name it already has: the client is left as it was and no
    second new-device event is fired. *)
Theorem upsert_inserts_once (raw : RawDevice) (topic : string) (f : DeviceFactory)
    (g : Govee) :
  accepted raw topic f ->
  lookup_device (raw_device raw) (devices g) = None ->
  let r := upsert_device raw g in
  r = (Ok tt, set_trace (trace g ++ [EvNewDevice (raw_device raw)])
                (set_devices (devices g ++ [(raw_device raw, device_of raw topic f)]) g)) /\
  lookup_device (raw_device raw) (devices r.2) = Some (device_of raw topic f) /\
  (forall k d, lookup_device k (devices g) = Some d ->
               lookup_device k (devices r.2) = Some d) /\
  upsert_device raw r.2 = (Ok tt, r.2).
Proof.
  intros Hacc Hnew r.
  pose proof (upsert_device_new raw topic f g Hacc Hnew) as Hr. fold r in Hr.
  assert (Hlook : lookup_device (raw_device raw) (devices r.2)
                  = Some (device_of raw topic f)).
  { rewrite Hr. cbn [snd devices set_trace set_devices].
    rewrite <- (store_device_absent _ _ _ Hnew). apply lookup_store_device. }
  split; [exact Hr |]. split; [exact Hlook |]. split.
  - intros k d Hk. rewrite Hr. cbn [snd devices set_trace set_devices].
    clear - Hk. induction (devices g) as [| [k0 d0] l IH]; simpl in *; [discriminate |].
    destruct (String.eqb k0 k); [exact Hk | apply IH, Hk].
  - destruct Hacc as (Hid & Hsku & Htopic & _).
    rewrite (upsert_device_known raw topic r.2 _ Hid Hsku Htopic Hlook).
    replace (set_name (raw_deviceName raw) (device_of raw topic f))
      with (device_of raw topic f)
      by (unfold device_of, build; destruct f; [destruct (String.eqb _ _) |]; reflexivity).
    rewrite (store_device_same _ _ _ Hlook). rewrite set_devices_same. reflexivity.
Qed.

Lemma upsert_inserts_once_witness :
  let g := client [(strip_id, strip ConnectionStatus.IOT_CONNECTED None)] in
  let r := upsert_device raw_kitchen g in
  accepted raw_kitchen "GD/123467890123467890123467890" _GoveeLedStripFactory /\
  map fst (devices r.2) = [strip_id; "AA:BB:CC:DD:EE:FF:11:22"] /\
  upsert_device raw_kitchen r.2 = (Ok tt, r.2).
Proof.
  intros g r.
  assert (Hacc : accepted raw_kitchen "GD/123467890123467890123467890"
                   _GoveeLedStripFactory).
  { repeat split; try discriminate; reflexivity. }
  split; [exact Hacc |].
  destruct (upsert_inserts_once raw_kitchen _ _ g Hacc eq_refl) as (Hr & _ & _ & Hagain).
  split; [| exact Hagain].
  fold r in Hr. rewrite Hr. reflexivity.
Defined.



Lemma build_registry (f : DeviceFactory) (id topic sku name : string)
    (hint : IotConnectionStatus) :
  identifier (build f id topic sku name hint) = id /\
  canonical (connection_status (build f id topic sku name hint)).
Proof.
  unfold build. destruct f; [destruct (String.eqb sku "H6085") |];
    (split; [reflexivity |]); destruct hint; vm_compute; auto.
Qed.

Lemma upsert_keeps_registry (raw : RawDevice) :
  devsteps keeps_registry (upsert_device raw).
Proof.
  intros g. unfold upsert_device.
  destruct (_ || _); [apply keeps_registry_refl |].
  destruct (_ && _); [apply keeps_registry_refl |].
  destruct (settings_topic raw) as [topic |]; [| apply keeps_registry_refl].
  run. destruct (lookup_device (raw_device raw) (devices g)) as [d |] eqn:Hd.
  - rewrite (with_device_present _ _ _ d Hd). simpl. intros Hok.
    destruct (registry_ok_lookup _ d _ Hok Hd) as [Hid Hs].
    apply registry_ok_store; assumption.
  - destruct (__get_device_factory (raw_sku raw)) as [f |]; [| apply keeps_registry_refl].
    simpl. intros Hok.
    apply registry_ok_store; [exact Hok | apply build_registry | apply build_registry].
Qed.

Lemma keeps_add_remove {B} (f : Device -> B) (status : Z) :
  (forall s d, f (set_connection_status s d) = f d) ->
  keeps f (GoveeDevice._add_connection_status status) /\
  keeps f (GoveeDevice._remove_connection_status status).
Proof.
  intros Hf. split; intros d.
  - rewrite add_connection_status_eq. apply Hf.
  - rewrite remove_connection_status_eq. apply Hf.
Qed.

Lemma update_state_keeps_identifier (env : Env) (state : json) :
  keeps identifier (_update_state env state).
Proof.
  assert (Hbase : keeps identifier (GoveeDevice._update_state state)).
  { unfold GoveeDevice._update_state.
    apply keeps_bind; [apply keeps_lift_result |]. intros conn.
    destruct (keeps_add_remove identifier ConnectionStatus.IOT_CONNECTED
                (fun _ _ => eq_refl)) as [Ha Hr].
    destruct (match conn with JBool b => b | JStr s => String.eqb s "true" | _ => false end);
      (apply keeps_bind; [assumption | intros ?; apply keeps_ret]). }
  assert (Hlight : keeps identifier (GoveeLight._update_state state)).
  { unfold GoveeLight._update_state, ToggleableGoveeDevice._update_state.
    repeat first [exact Hbase | keeps_step]. }
  intros d. unfold _update_state. destruct (cls d); [apply Hlight | |];
    (rewrite rgb_update_state_eq;
     apply (keeps_bind identifier _ _ Hlight); intros ?;
     unfold rgb_merge; repeat keeps_step).
Qed.

Lemma update_state_canonical (env : Env) (state : json) (d : Device) :
  canonical (connection_status d) ->
  canonical (connection_status (_update_state env state d).2).
Proof.
  intros Hs. rewrite update_state_after_base.
  unfold GoveeDevice._update_state, bind, lift_result.
  destruct (getitem state "connected") as [conn | e]; [| exact Hs].
  destruct (match conn with JBool b => b | JStr s => String.eqb s "true" | _ => false end).
  - rewrite add_connection_status_eq.
    cbn [fst snd connection_status set_connection_status].
    apply add_status_canonical; [exact Hs | left; reflexivity].
  - rewrite remove_connection_status_eq.
    cbn [fst snd connection_status set_connection_status].
    apply remove_status_canonical; [exact Hs | left; reflexivity].
Qed.

Lemma keeps_registry_update_state (env : Env) (state : json) (id : string)
    (l : list (string * Device)) (d : Device) :
  lookup_device id l = Some d ->
  keeps_registry l (store_device id (_update_state env state d).2 l).
Proof.
  intros Hd Hok. destruct (registry_ok_lookup id d l Hok Hd) as [Hid Hs].
  apply registry_ok_store; [exact Hok | |].
  - rewrite update_state_keeps_identifier. exact Hid.
  - apply update_state_canonical. exact Hs.
Qed.

Ltac registry_client :=
  repeat first
    [ apply (devsteps_for_each _ keeps_registry_refl keeps_registry_trans); intros ?
    | apply upsert_keeps_registry
    | apply (devsteps_with_device _ keeps_registry_refl);
      apply keeps_registry_update_state
    | devsteps_step keeps_registry_refl keeps_registry_trans registry_status ].

Lemma login_keeps_registry (env : Env) :
  devsteps keeps_registry (__login_if_required env).
Proof.
  unfold __login_if_required, __token_is_valid, mqtt_reconnect. registry_client.
Qed.

Lemma publish_command_keeps_registry {C} `{AbstractCommand C}
    (env : Env) (id : string) (command : C) :
  devsteps keeps_registry (_publish_command env id command).
Proof.
  assert (Hretry : forall address fuel,
            devsteps keeps_registry (bt_connect_retry env id address fuel)).
  { intros address fuel. induction fuel as [| fuel IH]; simpl; [registry_client |].
    apply (devsteps_bind _ keeps_registry_trans);
      [apply (devsteps_call _ keeps_registry_refl keeps_registry_trans) |].
    intros [bt |]; [registry_client | exact IH]. }
  unfold _publish_command, __publish_iot_payload, __publish_bt_payload,
    __init_bluetooth_if_required.
  repeat first [apply Hretry | progress registry_client].
Qed.

Lemma refresh_keeps_registry (env : Env) :
  devsteps keeps_registry (__http_update_device_list env).
Proof.
  unfold __http_update_device_list.
  repeat first [apply login_keeps_registry | progress registry_client].
Qed.

(** X20.  The invariant of the dictionary of devices (no key twice, each
    device under its identifier, each status one of OFFLINE,
    IOT_CONNECTED, BT_CONNECTED and both connectivity flags) is kept by
    every entry point of the client: logging in, refreshing the device
    list, an inbound push, dispatching a command, a power command, a
    toggle and a status request, whether they return or raise. *)
Theorem registry_invariant (env : Env) (g : Govee) :
  registry_ok (devices g) ->
  registry_ok (devices (login env g).2) /\
  registry_ok (devices (update_device_list env g).2) /\
  (forall message, registry_ok (devices (__mqtt_topic_callback env message g).2)) /\
  (forall id (command : Command),
     registry_ok (devices (_publish_command env id command g).2)) /\
  (forall id val, registry_ok (devices (set_power env id val g).2)) /\
  (forall id, registry_ok (devices (toggle env id g).2)) /\
  (forall id, registry_ok (devices (request_status env id g).2)).
Proof.
  intros Hok.
  assert (Hcommand : forall id (command : Command),
            devsteps keeps_registry (_publish_command env id command))
    by (intros; apply publish_command_keeps_registry).
  assert (Hturn : forall id val, devsteps keeps_registry (__turn env id val)).
  { intros id val. unfold __turn. repeat first [apply Hcommand | progress registry_client]. }
  assert (Hlogin : devsteps keeps_registry (login env)).
  { unfold login. repeat first [apply login_keeps_registry | progress registry_client]. }
  assert (Hlist : devsteps keeps_registry (update_device_list env)).
  { unfold update_device_list, request_status.
    repeat first [apply refresh_keeps_registry | apply Hcommand
                 | progress registry_client]. }
  assert (Hpush : forall message,
            devsteps keeps_registry (__mqtt_topic_callback env message)).
  { intros message. unfold __mqtt_topic_callback, device_known.
    repeat first [apply refresh_keeps_registry | progress registry_client]. }
  assert (Htoggle : forall id, devsteps keeps_registry (toggle env id)).
  { intros id. unfold toggle. repeat first [apply Hturn | progress registry_client]. }
  split; [exact (Hlogin g Hok) |].
  split; [exact (Hlist g Hok) |].
  split; [intros message; exact (Hpush message g Hok) |].
  split; [intros id command; exact (Hcommand id command g Hok) |].
  split; [intros id val; exact (Hturn id val g Hok) |].
  split; [intros id; exact (Htoggle id g Hok) |].
  intros id. exact (Hcommand id StatusCommand g Hok).
Qed.

Lemma registry_invariant_witness :
  let g := client [(strip_id, strip ConnectionStatus.IOT_CONNECTED None)] in
  registry_ok (devices g) /\
  registry_ok (devices (update_device_list (listing_env [raw_kitchen; raw_living_room]) g).2).
Proof.
  intros g.
  assert (Hok : registry_ok (devices g)).
  { split.
    - simpl. apply NoDup_singleton.
    - simpl. constructor; [| constructor].
      split; [reflexivity | right; left; reflexivity]. }
  split; [exact Hok |].
  apply (registry_invariant (listing_env [raw_kitchen; raw_living_room]) g Hok).
Defined.

(** ** What the refresh of the device list keeps *)

Lemma renamed_refl (d : Device) : renamed d d.
Proof. unfold renamed. destruct d; reflexivity. Qed.

Lemma renamed_trans (d1 d2 d3 : Device) : renamed d1 d2 -> renamed d2 d3 -> renamed d1 d3.
Proof. unfold renamed. intros H12 H23. rewrite H23, H12. reflexivity. Qed.

Lemma devices_kept_refl (l : list (string * Device)) : devices_kept l l.
Proof. intros id d Hd. exists d. split; [exact Hd | apply renamed_refl]. Qed.

Lemma devices_kept_trans (l1 l2 l3 : list (string * Device)) :
  devices_kept l1 l2 -> devices_kept l2 l3 -> devices_kept l1 l3.
Proof.
  intros H12 H23 id d Hd.
  destruct (H12 id d Hd) as (d2 & Hd2 & Hr2).
  destruct (H23 id d2 Hd2) as (d3 & Hd3 & Hr3).
  exists d3. split; [exact Hd3 | eapply renamed_trans; eassumption].
Qed.

Lemma lookup_store_other (k id : string) (d : Device) (l : list (string * Device)) :
  k <> id -> lookup_device k (store_device id d l) = lookup_device k l.
Proof.
  intros Hne. induction l as [| [k0 d0] l IH]; simpl.
  - destruct (String.eqb_spec id k); [congruence | reflexivity].
  - destruct (String.eqb_spec k0 id) as [-> | Hne0]; simpl.
    + destruct (String.eqb_spec id k); [congruence | reflexivity].
    + rewrite IH. reflexivity.
Qed.

Lemma devices_kept_store (id : string) (d' : Device) (l : list (string * Device)) :
  (forall d, lookup_device id l = Some d -> renamed d d') ->
  devices_kept l (store_device id d' l).
Proof.
  intros Hr k d Hd. destruct (String.eqb_spec k id) as [-> | Hne].
  - exists d'. split; [apply lookup_store_device | apply Hr, Hd].
  - exists d. rewrite (lookup_store_other k id d' l Hne).
    split; [exact Hd | apply renamed_refl].
Qed.

Lemma devices_kept_add (id : string) (status : Z) (l : list (string * Device)) (d : Device) :
  lookup_device id l = Some d ->
  devices_kept l (store_device id (GoveeDevice._add_connection_status status d).2 l).
Proof.
  intros Hd. apply devices_kept_store. intros d0 Hd0.
  assert (d0 = d) as -> by congruence.
  rewrite add_connection_status_eq. unfold renamed. destruct d; reflexivity.
Qed.

Lemma devices_kept_remove (id : string) (status : Z) (l : list (string * Device)) (d : Device) :
  lookup_device id l = Some d ->
  devices_kept l (store_device id (GoveeDevice._remove_connection_status status d).2 l).
Proof.
  intros Hd. apply devices_kept_store. intros d0 Hd0.
  assert (d0 = d) as -> by congruence.
  rewrite remove_connection_status_eq. unfold renamed. destruct d; reflexivity.
Qed.

Ltac kept_status := first [apply devices_kept_add | apply devices_kept_remove].

Lemma upsert_keeps_devices (raw : RawDevice) :
  devsteps devices_kept (upsert_device raw).
Proof.
  intros g. unfold upsert_device.
  destruct (_ || _); [apply devices_kept_refl |].
  destruct (_ && _); [apply devices_kept_refl |].
  destruct (settings_topic raw) as [topic |]; [| apply devices_kept_refl].
  run. destruct (lookup_device (raw_device raw) (devices g)) as [d |] eqn:Hd.
  - rewrite (with_device_present _ _ _ d Hd). simpl.
    apply devices_kept_store. intros d0 Hd0. assert (d0 = d) as -> by congruence.
    unfold renamed. destruct d; reflexivity.
  - destruct (__get_device_factory (raw_sku raw)) as [f |]; [| apply devices_kept_refl].
    simpl. apply devices_kept_store. intros d0 Hd0. congruence.
Qed.

Ltac kept_client :=
  repeat first
    [ apply (devsteps_for_each _ devices_kept_refl devices_kept_trans); intros ?
    | apply upsert_keeps_devices
    | devsteps_step devices_kept_refl devices_kept_trans kept_status ].

Lemma publish_command_keeps_devices {C} `{AbstractCommand C}
    (env : Env) (id : string) (command : C) :
  devsteps devices_kept (_publish_command env id command).
Proof.
  assert (Hretry : forall address fuel,
            devsteps devices_kept (bt_connect_retry env id address fuel)).
  { intros address fuel. induction fuel as [| fuel IH]; simpl; [kept_client |].
    apply (devsteps_bind _ devices_kept_trans);
      [apply (devsteps_call _ devices_kept_refl devices_kept_trans) |].
    intros [bt |]; [kept_client | exact IH]. }
  unfold _publish_command, __publish_iot_payload, __publish_bt_payload,
    __init_bluetooth_if_required.
  repeat first [apply Hretry | progress kept_client].
Qed.

(** X21.  Refreshing the device list, whether it returns or raises,
    never removes a device and never replaces one: every device known
    before is still there under its key, with its class, identifier,
    topic, product code and cached attributes; only its name and its
    connection status can differ. *)
Theorem refresh_keeps_devices (env : Env) (g : Govee) (id : string) (d : Device) :
  lookup_device id (devices g) = Some d ->
  exists d', lookup_device id (devices (update_device_list env g).2) = Some d' /\
    renamed d d' /\
    cls d' = cls d /\ identifier d' = identifier d /\ topic d' = topic d /\
    sku d' = sku d /\ iot_device d' = iot_device d /\
    on d' = on d /\ brightness d' = brightness d /\
    color d' = color d /\ color_temperature d' = color_temperature d.
Proof.
  intros Hd.
  assert (H : devsteps devices_kept (update_device_list env)).
  { unfold update_device_list, request_status, __http_update_device_list,
      __login_if_required, __token_is_valid, mqtt_reconnect.
    repeat first [apply publish_command_keeps_devices | progress kept_client]. }
  destruct (H g id d Hd) as (d' & Hd' & Hr).
  exists d'. split; [exact Hd' |]. split; [exact Hr |].
  unfold renamed in Hr. rewrite Hr. repeat split; reflexivity.
Qed.

Lemma refresh_keeps_devices_witness :
  let g := client [(strip_id, strip ConnectionStatus.IOT_CONNECTED (Some true))] in
  let env := listing_env [raw_kitchen; raw_living_room] in
  exists d', lookup_device strip_id (devices (update_device_list env g).2) = Some d' /\
             on d' = Some true.
Proof.
  intros g env.
  destruct (refresh_keeps_devices env g strip_id
              (strip ConnectionStatus.IOT_CONNECTED (Some true)) eq_refl)
    as (d' & Hd' & _ & _ & _ & _ & _ & _ & Hon & _).
  exists d'. split; [exact Hd' | exact Hon].
Defined.

(** ** A push for a known device *)

(** X22.  A push whose state names a known device is merged into that
    device without a refresh of the device list; the other devices are
    untouched; when the merge returns, exactly one update event with the
    raw message is fired, and when it raises, the exception reaches the
    caller with no event fired, the device keeping what the merge did
    before it raised. *)
Theorem push_for_known_device (env : Env) (top m : gmap string json) (g : Govee)
    (id : string) (d : Device) :
  top !! "state" = Some (JObj m) ->
  m !! "device" = Some (JStr id) ->
  lookup_device id (devices g) = Some d ->
  let merged := _update_state env (JObj m) d in
  let r := __mqtt_topic_callback env (Ok (JObj top)) g in
  r.1 = merged.1 /\
  devices r.2 = store_device id merged.2 (devices g) /\
  trace r.2 = trace g ++ match merged.1 with
                         | Ok _ => [EvDeviceUpdate id (Some (JObj top))]
                         | Raise _ => []
                         end /\
  (forall k, k <> id -> lookup_device k (devices r.2) = lookup_device k (devices g)).
Proof.
  intros Hstate Hdev Hd merged r.
  assert (Hrun : r = match merged.1 with
                     | Ok _ => (Ok tt, set_trace (trace g ++ [EvDeviceUpdate id (Some (JObj top))])
                                         (set_devices (store_device id merged.2 (devices g)) g))
                     | Raise e => (Raise e, set_devices (store_device id merged.2 (devices g)) g)
                     end).
  { subst r. unfold __mqtt_topic_callback, lift_result, contains, getitem. run.
    rewrite Hstate.
    rewrite (bool_decide_eq_true_2 (is_Some (Some (JObj m)))) by eauto.
    cbn [negb]. cbv beta iota. rewrite Hdev. run.
    unfold device_known. run. rewrite Hd. run.
    rewrite (with_device_present id _ g d Hd). fold merged.
    destruct (merged.1) as [[] | e]; reflexivity. }
  rewrite Hrun.
  destruct (merged.1) as [[] | e]; cbn [fst snd devices trace set_trace set_devices];
    rewrite ?app_nil_r;
    (split; [reflexivity |]); (split; [reflexivity |]); (split; [reflexivity |]);
    intros k Hk; apply lookup_store_other; exact Hk.
Qed.

Lemma push_for_known_device_witness :
  let g := client [(strip_id, strip ConnectionStatus.OFFLINE None)] in
  let raw := {[ "proType" := JInt 0; "state" := JObj push_state ]} in
  let r := __mqtt_topic_callback quiet_env (Ok (JObj raw)) g in
  r.1 = Ok tt /\
  trace r.2 = [EvDeviceUpdate strip_id (Some (JObj raw))].
Proof.
  intros g raw r.
  destruct (push_for_known_device quiet_env raw push_state g strip_id
              (strip ConnectionStatus.OFFLINE None) eq_refl eq_refl eq_refl)
    as (Hr & _ & Ht & _).
  split; [exact Hr | exact Ht].
Defined.

(** ** Product codes and addresses *)

Lemma white_bulb_factory : __get_device_factory "H6085" = Some _GoveeBulbFactory.
Proof. reflexivity. Qed.

(** X23.  A product code has a factory exactly when it has at least five
    characters and starts with H60, the bulbs, or with H61, the LED
    strips.  The device built for it is a light with colour, except for
    the product code H6085, which gives a white bulb. *)
Theorem factory_by_product_code (sku : string) (f : DeviceFactory) :
  (__get_device_factory sku = Some f <->
   exists rest, (2 <= String.length rest)%nat /\
     ((sku = String.append "H60" rest /\ f = _GoveeBulbFactory) \/
      (sku = String.append "H61" rest /\ f = _GoveeLedStripFactory))) /\
  (__get_device_factory sku = Some f ->
   forall identifier topic name hint,
     is_rgb (build f identifier topic sku name hint) = false <-> sku = "H6085").
Proof.
  split; [split |].
  - destruct sku as [| c0 [| c1 [| c2 [| c3 [| c4 rest]]]]]; try discriminate.
    unfold __get_device_factory. cbn -[String.eqb].
    destruct (String.eqb_spec (String c0 "") "H") as [E0 | _]; [| discriminate].
    injection E0 as ->. cbn -[String.eqb].
    destruct (String.eqb_spec (String c1 (String c2 "")) "60") as [E1 | _].
    + injection E1 as -> ->. intros [= <-].
      exists (String c3 (String c4 rest)). split; [simpl; lia | left; auto].
    + destruct (String.eqb_spec (String c1 (String c2 "")) "61") as [E2 | _];
        [| discriminate].
      injection E2 as -> ->. intros [= <-].
      exists (String c3 (String c4 rest)). split; [simpl; lia | right; auto].
  - intros (rest & Hlen & [[-> ->] | [-> ->]]);
      destruct rest as [| c3 [| c4 rest]]; simpl in Hlen; try lia; reflexivity.
  - intros Hf identifier topic name hint. unfold build, is_rgb.
    destruct f.
    + destruct (String.eqb_spec sku "H6085") as [-> | Hne]; simpl.
      * split; reflexivity.
      * split; [discriminate | contradiction].
    + simpl. split; [discriminate |]. intros ->.
      rewrite white_bulb_factory in Hf. discriminate.
Qed.

Lemma factory_by_product_code_witness :
  __get_device_factory "H6159" = Some _GoveeLedStripFactory /\
  is_rgb (build _GoveeBulbFactory "A" "T" "H6085" "N" UNKNOWN) = false.
Proof.
  split.
  - apply (proj1 (factory_by_product_code "H6159" _GoveeLedStripFactory)).
    exists "59". split; [simpl; lia | right; auto].
  - apply (proj2 (factory_by_product_code "H6085" _GoveeBulbFactory) eq_refl).
    reflexivity.
Defined.

Lemma substring_all (s : string) : String.substring 0 (String.length s) s = s.
Proof. induction s as [| c s IH]; simpl; [reflexivity | rewrite IH; reflexivity]. Qed.

Lemma substring_split (n : nat) (s : string) :
  (n <= String.length s)%nat ->
  String.append (String.substring 0 n s) (String.substring n (String.length s - n) s) = s.
Proof.
  revert s. induction n as [| n IH]; intros s Hn.
  - rewrite Nat.sub_0_r, substring_all. destruct s; reflexivity.
  - destruct s as [| c s]; simpl in *; [lia |].
    change (String c (String.append (String.substring 0 n s)
                        (String.substring n (String.length s - n) s)) = String c s).
    f_equal. apply IH. lia.
Qed.

Lemma substring_length (n m : nat) (s : string) :
  (n + m <= String.length s)%nat -> String.length (String.substring n m s) = m.
Proof.
  revert n m. induction s as [| c s IH]; intros n m H; simpl in *.
  - assert (n = 0%nat) as -> by lia. assert (m = 0%nat) as -> by lia. reflexivity.
  - destruct n as [| n].
    + destruct m as [| m]; [reflexivity |]. simpl. rewrite IH by lia. reflexivity.
    + apply IH. lia.
Qed.

(** X24.  The radio address of a device is its identifier without the
    first six characters: for an identifier of at least six characters
    the address follows these six in the identifier, and it has six
    characters less; a shorter identifier gives the empty address. *)
Theorem bt_address_is_suffix (d : Device) :
  ((6 <= String.length (identifier d))%nat ->
   String.append (String.substring 0 6 (identifier d)) (GoveeDevice._bt_address d)
     = identifier d /\
   String.length (GoveeDevice._bt_address d) = (String.length (identifier d) - 6)%nat) /\
  ((String.length (identifier d) <= 6)%nat -> GoveeDevice._bt_address d = "").
Proof.
  unfold GoveeDevice._bt_address. split.
  - intros Hlen. split; [apply substring_split, Hlen |].
    apply substring_length. lia.
  - intros Hlen. replace (String.length (identifier d) - 6)%nat with 0%nat by lia.
    generalize (identifier d) Hlen. clear.
    intros s. generalize 6%nat.
    induction s as [| c s IH]; intros n Hn; destruct n;
      simpl in *; try reflexivity; try lia.
    apply IH. lia.
Qed.

Lemma bt_address_is_suffix_witness :
  GoveeDevice._bt_address (strip ConnectionStatus.OFFLINE None) = strip_address /\
  String.length (GoveeDevice._bt_address (strip ConnectionStatus.OFFLINE None)) = 17%nat.
Proof.
  destruct (bt_address_is_suffix (strip ConnectionStatus.OFFLINE None)) as [Hlong _].
  destruct Hlong as [_ Hlen]; [simpl; lia |].
  split; [reflexivity | exact Hlen].
Defined.

(** ** Setting the brightness *)



(** ** Polling the devices *)

Lemma request_status_returns (env : Env) (id : string) (g : Govee) (d : Device) :
  lookup_device id (devices g) = Some d ->
  (request_status env id g).1 = Ok tt.
Proof.
  intros Hd. unfold request_status, _publish_command. run.
  rewrite (device_attr_present id iot_device g d Hd).
  rewrite (device_attr_present id connection_status g d Hd).
  assert (Hbt : forall g', (__publish_bt_payload env id StatusCommand g').1 = Ok tt).
  { intros g'. unfold __publish_bt_payload. run.
    destruct (init_bluetooth_returns env (set_trace (trace g' ++ [EvAttempt Radio id]) g'))
      as (b & Hb & _).
    destruct (__init_bluetooth_if_required env _) as [r1 g1]. simpl in Hb. subst r1.
    destruct b; reflexivity. }
  match goal with |- context [if ?c then __publish_iot_payload _ _ _ else _] =>
    destruct c end.
  - destruct (publish_iot_returns env id StatusCommand g d Hd) as [sent Hsent].
    destruct (__publish_iot_payload env id StatusCommand g) as [r g1].
    simpl in Hsent. subst r. destruct sent; cbn [negb]; [reflexivity | apply Hbt].
  - cbn [negb]. apply Hbt.
Qed.

Lemma request_status_enters (env : Env) (id : string) (g : Govee) (d : Device) :
  lookup_device id (devices g) = Some d ->
  exists rest,
    trace (request_status env id g).2
    = trace g ++ EvAttempt (if iot_device d then Broker else Radio) id :: rest.
Proof.
  intros Hd. unfold request_status, _publish_command. run.
  rewrite (device_attr_present id iot_device g d Hd).
  rewrite (device_attr_present id connection_status g d Hd).
  cbn [is_StatusCommand Command_AbstractCommand]. rewrite orb_true_r, andb_true_r.
  destruct (iot_device d).
  - destruct (publish_iot_returns env id StatusCommand g d Hd) as [sent Hsent].
    destruct (publish_iot_trace env id StatusCommand g) as (rest1 & Ht1 & _).
    destruct (__publish_iot_payload env id StatusCommand g) as [r g1].
    simpl in Hsent, Ht1. subst r. destruct sent; cbn [negb].
    + exists rest1. exact Ht1.
    + destruct (publish_bt_trace env id StatusCommand g1) as (rest2 & Ht2 & _).
      exists (rest1 ++ EvAttempt Radio id :: rest2).
      rewrite Ht2, Ht1, <- app_assoc. reflexivity.
  - cbn [negb]. destruct (publish_bt_trace env id StatusCommand g) as (rest2 & Ht2 & _).
    exists rest2. exact Ht2.
Qed.

Lemma poll_each (env : Env) (ids : list string) (g : Govee) :
  (forall id, In id ids -> is_Some (lookup_device id (devices g))) ->
  let r := for_each ids (request_status env) g in
  r.1 = Ok tt /\
  attributes_frozen (devices g) (devices r.2) /\
  exists new, trace r.2 = trace g ++ new /\
    forall id d, In id ids -> lookup_device id (devices g) = Some d ->
      In (EvAttempt (if iot_device d then Broker else Radio) id) new.
Proof.
  revert g. induction ids as [| id ids IH]; intros g Hknown r; subst r.
  - simpl. split; [reflexivity |]. split; [apply attributes_frozen_refl |].
    exists []. rewrite app_nil_r. split; [reflexivity |]. intros id d [].
  - simpl. destruct (Hknown id (or_introl eq_refl)) as [d Hd].
    pose proof (request_status_returns env id g d Hd) as Hret.
    destruct (request_status_enters env id g d Hd) as (rest & Htrace).
    pose proof (publish_command_frozen env id StatusCommand g) as Hfrozen.
    change (_publish_command env id StatusCommand g) with (request_status env id g)
      in Hfrozen.
    destruct (request_status env id g) as [r1 g1] eqn:Hrun.
    simpl in Hret, Htrace, Hfrozen. subst r1.
    rewrite (bind_Ok _ _ _ _ _ Hrun).
    assert (Hknown1 : forall k, In k ids -> is_Some (lookup_device k (devices g1))).
    { intros k Hk. destruct (Hknown k (or_intror Hk)) as [dk Hdk].
      destruct (attributes_frozen_lookup _ _ k dk Hfrozen Hdk) as (dk' & Hdk' & _).
      eauto. }
    destruct (IH g1 Hknown1) as (Hok & Hfrozen' & new & Htrace' & Hnew).
    split; [exact Hok |].
    split; [eapply attributes_frozen_trans; eassumption |].
    exists (EvAttempt (if iot_device d then Broker else Radio) id :: rest ++ new).
    split.
    { rewrite Htrace', Htrace, <- app_assoc. reflexivity. }
    intros k dk [<- | Hk] Hdk.
    + assert (dk = d) as -> by congruence. left. reflexivity.
    + right. apply in_or_app. right.
      destruct (attributes_frozen_lookup _ _ k dk Hfrozen Hdk) as (dk' & Hdk' & Hf).
      assert (Hiot : iot_device dk' = iot_device dk) by (rewrite Hf; reflexivity).
      rewrite <- Hiot. apply (Hnew k dk' Hk Hdk').
Qed.

Lemma lookup_device_In (id : string) (l : list (string * Device)) :
  In id (map fst l) <-> is_Some (lookup_device id l).
Proof.
  split.
  - intros Hin. destruct (lookup_device id l) eqn:E; [eauto |].
    apply lookup_device_None in E. contradiction.
  - intros [d Hd]. destruct (in_dec String.string_dec id (map fst l)) as [H | H];
      [exact H |].
    apply lookup_device_None in H. congruence.
Qed.

(** X26.  When the refresh of the device list returns, [update_device_list]
    sends a status request to every device of the dictionary, new or
    old: it returns, and for each device a transport is entered after
    the refresh, the broker for a device with broker capability and the
    radio for the others. *)
Theorem update_device_list_polls (env : Env) (g g1 : Govee) :
  __http_update_device_list env g = (Ok tt, g1) ->
  let r := update_device_list env g in
  r.1 = Ok tt /\
  exists new, trace r.2 = trace g1 ++ new /\
    forall id d, lookup_device id (devices g1) = Some d ->
      In (EvAttempt (if iot_device d then Broker else Radio) id) new.
Proof.
  intros Hrefresh r. subst r. unfold update_device_list.
  rewrite (bind_Ok _ _ _ _ _ Hrefresh). run.
  destruct (poll_each env (map fst (devices g1)) g1) as (Hok & _ & new & Htrace & Hnew).
  { intros id Hin. apply lookup_device_In. exact Hin. }
  split; [exact Hok |]. exists new. split; [exact Htrace |].
  intros id d Hd. apply (Hnew id d); [| exact Hd].
  apply lookup_device_In. eauto.
Qed.

Lemma update_device_list_polls_witness :
  let env := listing_env [raw_kitchen; raw_living_room] in
  let g := client [(strip_id, strip ConnectionStatus.OFFLINE None)] in
  let r := update_device_list env g in
  r.1 = Ok tt /\
  In (EvAttempt Broker "AA:BB:CC:DD:EE:FF:11:22") (trace r.2) /\
  In (EvAttempt Broker strip_id) (trace r.2).
Proof.
  intros env g r.
  destruct (update_device_list_polls env g (__http_update_device_list env g).2)
    as (Hok & new & Htrace & Hnew).
  - reflexivity.
  - split; [exact Hok |]. fold r in Htrace. rewrite Htrace.
    split; apply in_or_app; right.
    + apply (Hnew "AA:BB:CC:DD:EE:FF:11:22" (device_of raw_kitchen
               "GD/123467890123467890123467890" _GoveeLedStripFactory)). reflexivity.
    + apply (Hnew strip_id (set_name "Living room" (strip ConnectionStatus.OFFLINE None))).
      reflexivity.
Defined.
